(** * get_new_dependencies.py: a shallow embedding and its properties

    The script authenticates against a dependency-metadata service, builds
    a filter from a project UUID, a cutoff date and a context, pages through
    the answers, normalises every returned object into a five-field record
    and writes the records to a JSON and a CSV file.

    Conventions of the embedding.
    - Python [str] is [string]; a character is one code point below 256.
    - Values decoded from JSON are [pyval]; a JSON number is kept as an
      integer (every operation the script applies to such a value, truth
      testing and type errors, treats a float the same way).
    - A Python exception that leaves a function is the [Raise] case of
      [result]; [sys.exit(n)] is the exception [SystemExit n].
    - [print] calls are left out, except for the evaluation of [len(objects)]
      inside one of them, which can raise.
    - The network is a script: the n-th element of a list of [http_result]
      is what the n-th GET of the pagination loop observes. *)

From Stdlib Require Import String Ascii List ZArith Lia Bool DecimalString.
Import ListNotations.

Local Open Scope Z_scope.
Local Open Scope list_scope.
Local Open Scope string_scope.

(* ------------------------------------------------------------------ *)
(** ** Python strings *)

(** [s.replace(old, new)] for a one-character [old]. *)
Fixpoint str_replace (old : ascii) (new : string) (s : string) : string :=
  match s with
  | EmptyString => EmptyString
  | String c s' =>
      if Ascii.eqb c old then new ++ str_replace old new s'
      else String c (str_replace old new s')
  end.

(** [sep in s] for strings: some suffix of [s] starts with [sep]. *)
Fixpoint str_contains (sep s : string) : bool :=
  prefix sep s ||
  match s with
  | EmptyString => false
  | String _ s' => str_contains sep s'
  end.

Definition cons_head (c : ascii) (l : list string) : list string :=
  match l with
  | [] => [String c EmptyString]
  | x :: r => String c x :: r
  end.

(** [s.split(sep)] for a non-empty [sep]: the text is scanned from the left,
    every occurrence found closes the current piece and the scan resumes
    behind it ([skip] counts the characters of the occurrence still to be
    passed over). *)
Fixpoint str_split_from (sep : string) (skip : nat) (s : string) : list string :=
  match s with
  | EmptyString => [EmptyString]
  | String c s' =>
      match skip with
      | S k => str_split_from sep k s'
      | O =>
          if prefix sep s
          then EmptyString :: str_split_from sep (Nat.pred (String.length sep)) s'
          else cons_head c (str_split_from sep O s')
      end
  end.

Definition str_split (sep s : string) : list string := str_split_from sep O s.

(** [l[0]] and [l[-1]] on the result of a split, which is never empty. *)
Definition first_piece (l : list string) : string := hd EmptyString l.
Definition last_piece (l : list string) : string := last l EmptyString.

(* ------------------------------------------------------------------ *)
(** ** Python values and exceptions *)

#[warnings="-register-all"]
Inductive pyval : Type :=
| PNone
| PBool (b : bool)
| PInt (z : Z)
| PStr (s : string)
| PList (l : list pyval)
| PDict (d : list (string * pyval)).

Inductive pyexn : Type :=
| AttributeError
| TypeError
| OverflowError
| ValueError (msg : string)
| SystemExit (code : Z).

Inductive result (A : Type) : Type :=
| Ok (a : A)
| Raise (e : pyexn).
Arguments Ok {A} a.
Arguments Raise {A} e.

Definition bind {A B : Type} (r : result A) (k : A -> result B) : result B :=
  match r with
  | Ok a => k a
  | Raise e => Raise e
  end.

Notation "x <- r ;; k" := (bind r (fun x => k))
  (at level 61, r at next level, right associativity).

Fixpoint mapM {A B : Type} (f : A -> result B) (l : list A) : result (list B) :=
  match l with
  | [] => Ok []
  | x :: r =>
      y <- f x ;;
      ys <- mapM f r ;;
      Ok (y :: ys)
  end.

(** Truth value of a Python object. *)
Definition truthy (v : pyval) : bool :=
  match v with
  | PNone => false
  | PBool b => b
  | PInt z => negb (z =? 0)%Z
  | PStr s => negb (String.eqb s EmptyString)
  | PList l => match l with [] => false | _ => true end
  | PDict d => match d with [] => false | _ => true end
  end.

(** Lookup in a dict; a decoded JSON object has each key once. *)
Fixpoint dict_lookup (k : string) (d : list (string * pyval)) : option pyval :=
  match d with
  | [] => None
  | (k', v) :: r => if String.eqb k k' then Some v else dict_lookup k r
  end.

(** [x.get(key, default)]: only a dict has the method. *)
Definition py_get (x : pyval) (key : string) (default : pyval) : result pyval :=
  match x with
  | PDict d =>
      match dict_lookup key d with
      | Some v => Ok v
      | None => Ok default
      end
  | _ => Raise AttributeError
  end.

Definition is_str (v : pyval) : bool :=
  match v with PStr _ => true | _ => false end.

(** [needle in x] with a string needle. *)
Definition py_contains (needle : string) (x : pyval) : result bool :=
  match x with
  | PStr s => Ok (str_contains needle s)
  | PList l =>
      Ok (existsb (fun e => match e with
                            | PStr t => String.eqb t needle
                            | _ => false
                            end) l)
  | PDict d => Ok (match dict_lookup needle d with Some _ => true | None => false end)
  | PNone | PBool _ | PInt _ => Raise TypeError
  end.

(** [x.split(sep)[-1]]: only [str] has [split]. *)
Definition py_split_last (sep : string) (x : pyval) : result pyval :=
  match x with
  | PStr s => Ok (PStr (last_piece (str_split sep s)))
  | _ => Raise AttributeError
  end.

Fixpoint chars_of (s : string) : list pyval :=
  match s with
  | EmptyString => []
  | String c s' => PStr (String c EmptyString) :: chars_of s'
  end.

(** The items visited by [for obj in x]; [len(x)] raises on the same
    values on which iteration does. *)
Definition py_iter (x : pyval) : result (list pyval) :=
  match x with
  | PList l => Ok l
  | PStr s => Ok (chars_of s)
  | PDict d => Ok (map (fun kv => PStr (fst kv)) d)
  | PNone | PBool _ | PInt _ => Raise TypeError
  end.

(* ------------------------------------------------------------------ *)
(** ** Output file names *)

Definition sanitize_date (date_str : string) : string :=
  first_piece (str_split "Z"
    (first_piece (str_split "+"
      (str_replace ":" ""
        (str_replace "T" "_"
          (str_replace "-" "" date_str)))))).

Definition sanitize_branch (branch : string) : string :=
  str_replace " " "_" (str_replace "\" "_" (str_replace "/" "_" branch)).

(** [if branch:] holds for a branch that is given and not empty. *)
Definition branch_given (branch : option string) : option string :=
  match branch with
  | Some b => if String.eqb b EmptyString then None else Some b
  | None => None
  end.

Definition generate_output_filenames
    (project_uuid date_str : string) (branch : option string) : string * string :=
  let safe_date := sanitize_date date_str in
  let base_name :=
    match branch_given branch with
    | Some b =>
        let safe_branch := sanitize_branch b in
        project_uuid ++ "_new_dependencies_" ++ safe_date ++ "_" ++ safe_branch
    | None => project_uuid ++ "_new_dependencies_" ++ safe_date
    end in
  (base_name ++ ".json", base_name ++ ".csv").

(* ------------------------------------------------------------------ *)
(** ** Calendar arithmetic of the [datetime] module *)

Definition bool_to_Z (b : bool) : Z := if b then 1 else 0.

Definition _is_leap (year : Z) : bool :=
  (year mod 4 =? 0)%Z && (negb (year mod 100 =? 0)%Z || (year mod 400 =? 0)%Z).

Definition _days_before_year (year : Z) : Z :=
  let y := year - 1 in
  y * 365 + y / 4 - y / 100 + y / 400.

(** The two month tables; index 0 holds the placeholder -1. *)
Definition _DAYS_IN_MONTH : list Z :=
  [-1; 31; 28; 31; 30; 31; 30; 31; 31; 30; 31; 30; 31].

Definition _DAYS_BEFORE_MONTH : list Z :=
  [-1; 0; 31; 59; 90; 120; 151; 181; 212; 243; 273; 304; 334].

Definition table (t : list Z) (i : Z) : Z := nth (Z.to_nat i) t 0.

Definition _days_in_month (year month : Z) : Z :=
  if (month =? 2)%Z && _is_leap year then 29 else table _DAYS_IN_MONTH month.

Definition _days_before_month (year month : Z) : Z :=
  table _DAYS_BEFORE_MONTH month + bool_to_Z ((2 <? month)%Z && _is_leap year).

Definition _ymd2ord (year month day : Z) : Z :=
  _days_before_year year + _days_before_month year month + day.

Definition _DI400Y : Z := 146097.
Definition _DI100Y : Z := 36524.
Definition _DI4Y : Z := 1461.
Definition _MAXORDINAL : Z := 3652059.
Definition MINYEAR : Z := 1.
Definition MAXYEAR : Z := 9999.

Definition _ord2ymd (n0 : Z) : Z * Z * Z :=
  let n := n0 - 1 in
  let n400 := n / _DI400Y in
  let n := n mod _DI400Y in
  let year := n400 * 400 + 1 in
  let n100 := n / _DI100Y in
  let n := n mod _DI100Y in
  let n4 := n / _DI4Y in
  let n := n mod _DI4Y in
  let n1 := n / 365 in
  let n := n mod 365 in
  let year := year + (n100 * 100 + n4 * 4 + n1) in
  if (n1 =? 4)%Z || (n100 =? 4)%Z then (year - 1, 12, 31)
  else
    let leapyear := (n1 =? 3)%Z && (negb (n4 =? 24)%Z || (n100 =? 3)%Z) in
    let month := Z.shiftr (n + 50) 5 in
    let preceding :=
      table _DAYS_BEFORE_MONTH month + bool_to_Z ((2 <? month)%Z && leapyear) in
    if (n <? preceding)%Z
    then
      let month := month - 1 in
      let preceding :=
        preceding
        - (table _DAYS_IN_MONTH month + bool_to_Z ((month =? 2)%Z && leapyear)) in
      (year, month, n - preceding + 1)
    else (year, month, n - preceding + 1).

(** [_check_date_fields] and [_check_time_fields]: [true] when the
    constructor accepts the fields, [false] when it raises [ValueError]. *)
Definition _check_date_fields (year month day : Z) : bool :=
  (MINYEAR <=? year)%Z && (year <=? MAXYEAR)%Z
  && (1 <=? month)%Z && (month <=? 12)%Z
  && (1 <=? day)%Z && (day <=? _days_in_month year month)%Z.

Definition _check_time_fields (hour minute second microsecond : Z) : bool :=
  (0 <=? hour)%Z && (hour <=? 23)%Z
  && (0 <=? minute)%Z && (minute <=? 59)%Z
  && (0 <=? second)%Z && (second <=? 59)%Z
  && (0 <=? microsecond)%Z && (microsecond <=? 999999)%Z.

(** A [tzinfo] is the singleton [timezone.utc] or another fixed-offset
    [timezone]; a [timedelta] is its total number of microseconds. *)
Inductive tzinfo : Type :=
| timezone_utc
| timezone (offset : Z).

Definition utcoffset (tz : tzinfo) : Z :=
  match tz with
  | timezone_utc => 0
  | timezone off => off
  end.

Record datetime : Type := mk_datetime {
  dt_year : Z;
  dt_month : Z;
  dt_day : Z;
  dt_hour : Z;
  dt_minute : Z;
  dt_second : Z;
  dt_microsecond : Z;
  dt_tzinfo : option tzinfo
}.

Definition replace_tzinfo (dt : datetime) (tz : option tzinfo) : datetime :=
  mk_datetime (dt_year dt) (dt_month dt) (dt_day dt)
              (dt_hour dt) (dt_minute dt) (dt_second dt) (dt_microsecond dt) tz.

Definition toordinal (dt : datetime) : Z :=
  _ymd2ord (dt_year dt) (dt_month dt) (dt_day dt).

Definition US_PER_SECOND : Z := 1000000.
Definition US_PER_DAY : Z := 86400 * US_PER_SECOND.

(** [datetime.__add__]: the sum is formed as a [timedelta] counted from
    ordinal 0 and split again into days, seconds and microseconds. *)
Definition datetime_add (dt : datetime) (other : Z) : result datetime :=
  let delta :=
    toordinal dt * US_PER_DAY
    + (dt_hour dt * 3600 + dt_minute dt * 60 + dt_second dt) * US_PER_SECOND
    + dt_microsecond dt + other in
  let days := delta / US_PER_DAY in
  let seconds := (delta mod US_PER_DAY) / US_PER_SECOND in
  let microseconds := delta mod US_PER_SECOND in
  let hour := seconds / 3600 in
  let rem := seconds mod 3600 in
  let minute := rem / 60 in
  let second := rem mod 60 in
  if (0 <? days)%Z && (days <=? _MAXORDINAL)%Z
  then
    let '(y, m, d) := _ord2ymd days in
    Ok (mk_datetime y m d hour minute second microseconds (dt_tzinfo dt))
  else Raise OverflowError.

(** [dt.astimezone(timezone.utc)] for an aware [dt] whose zone is [mytz]. *)
Definition astimezone_utc (dt : datetime) (mytz : tzinfo) : result datetime :=
  match mytz with
  | timezone_utc => Ok dt
  | timezone myoffset =>
      shifted <- datetime_add dt (- myoffset) ;;
      let utc := replace_tzinfo shifted (Some timezone_utc) in
      datetime_add utc 0
  end.

(* ------------------------------------------------------------------ *)
(** ** Decimal digits, [strftime] *)

Definition digit_char (d : Z) : ascii := ascii_of_nat (48 + Z.to_nat d).

Definition pad2 (n : Z) : string :=
  String (digit_char (n / 10)) (String (digit_char (n mod 10)) EmptyString).

Definition pad4 (n : Z) : string :=
  String (digit_char (n / 1000))
    (String (digit_char (n / 100 mod 10)) (pad2 (n mod 100))).

(** A number in decimal, without sign for a natural number and without
    leading zeros. *)
Definition decimal (n : Z) : string := NilZero.string_of_int (Z.to_int n).

(** [dt.strftime("%Y-%m-%d")] on the fields of a [datetime], a year of
    1..9999 and a month and a day of two digits.  [datetime.strftime] hands
    the format to the [strftime] of the C library, and that of glibc prints
    [%Y] as the plain decimal number of the year: four digits from the year
    1000 on, fewer below ([date(5, 6, 6)] gives [5-06-06]).  [%m] and [%d]
    are always two digits. *)
Definition strftime_Y_m_d (dt : datetime) : string :=
  decimal (dt_year dt) ++ "-" ++ pad2 (dt_month dt) ++ "-" ++ pad2 (dt_day dt).

Definition format_date_for_api (date_obj : datetime) : result string :=
  date_obj <-
    match dt_tzinfo date_obj with
    | Some tz => astimezone_utc date_obj tz
    | None => Ok date_obj
    end ;;
  let date_only := strftime_Y_m_d date_obj in
  Ok ("date(" ++ date_only ++ ")").

(* ------------------------------------------------------------------ *)
(** ** [datetime.strptime]

    [_strptime] turns the format into a regular expression, matches it at
    the start of the text with the backtracking engine of [re] under
    [IGNORECASE], and rejects the text when the match does not reach its
    end.  A regular expression is modelled by the list of all its matches
    in the order in which the engine tries them, so the head of the list is
    the match the engine reports. *)

Definition matches (A : Type) : Type := list (A * string).

Definition code (c : ascii) : Z := Z.of_nat (nat_of_ascii c).

(** One character of the class [[lo-hi]] of decimal digits; its value.
    Below U+0100 the decimal digits are the ASCII digits; the digits of
    other scripts, which the class also matches in a [str] pattern, are not
    characters of this embedding. *)
Definition re_digit (lo hi : Z) (s : string) : matches Z :=
  match s with
  | String c r =>
      if (48 + lo <=? code c)%Z && (code c <=? 48 + hi)%Z
      then [(code c - 48, r)] else []
  | EmptyString => []
  end.

(** Two digit classes in a row, read as a two-digit number. *)
Definition re_digit2 (lo1 hi1 lo2 hi2 : Z) (s : string) : matches Z :=
  flat_map (fun '(a, r) => map (fun '(b, r') => (10 * a + b, r')) (re_digit lo2 hi2 r))
           (re_digit lo1 hi1 s).

Definition re_char (p : ascii -> bool) (s : string) : matches unit :=
  match s with
  | String c r => if p c then [(tt, r)] else []
  | EmptyString => []
  end.

(** [\s] on code points below 256. *)
Definition is_space (c : ascii) : bool :=
  let n := code c in
  ((9 <=? n)%Z && (n <=? 13)%Z) || ((28 <=? n)%Z && (n <=? 32)%Z)
  || (n =? 133)%Z || (n =? 160)%Z.

(** [\s+], greedy: the longest run first, then the shorter ones. *)
Fixpoint re_spaces (s : string) : matches unit :=
  match s with
  | String c r => if is_space c then (re_spaces r ++ [(tt, r)])%list else []
  | EmptyString => []
  end.

Definition lower (c : ascii) : ascii :=
  let n := code c in
  if (65 <=? n)%Z && (n <=? 90)%Z then ascii_of_nat (nat_of_ascii c + 32) else c.

(** A literal character of the format, compared without regard to case. *)
Definition re_literal (l : ascii) : string -> matches unit :=
  re_char (fun c => Ascii.eqb (lower c) (lower l)).

(** The expressions of the directives, alternatives in the order of
    [_strptime.TimeRE]. *)
Definition re_Y (s : string) : matches Z :=
  flat_map (fun '(a, r) => map (fun '(b, r') => (100 * a + b, r')) (re_digit2 0 9 0 9 r))
           (re_digit2 0 9 0 9 s).

Definition re_m (s : string) : matches Z :=
  (re_digit2 1 1 0 2 s ++ re_digit2 0 0 1 9 s ++ re_digit 1 9 s)%list.

Definition re_d (s : string) : matches Z :=
  (re_digit2 3 3 0 1 s ++ re_digit2 1 2 0 9 s ++ re_digit2 0 0 1 9 s
   ++ re_digit 1 9 s
   ++ flat_map (fun '(_, r) => re_digit 1 9 r) (re_char (Ascii.eqb " ") s))%list.

Definition re_H (s : string) : matches Z :=
  (re_digit2 2 2 0 3 s ++ re_digit2 0 1 0 9 s ++ re_digit 0 9 s)%list.

Definition re_M (s : string) : matches Z :=
  (re_digit2 0 5 0 9 s ++ re_digit 0 9 s)%list.

Definition re_S (s : string) : matches Z :=
  (re_digit2 6 6 0 1 s ++ re_digit2 0 5 0 9 s ++ re_digit 0 9 s)%list.

Definition directive (d : ascii) : option (string -> matches Z) :=
  if Ascii.eqb d "Y" then Some re_Y
  else if Ascii.eqb d "m" then Some re_m
  else if Ascii.eqb d "d" then Some re_d
  else if Ascii.eqb d "H" then Some re_H
  else if Ascii.eqb d "M" then Some re_M
  else if Ascii.eqb d "S" then Some re_S
  else None.

(** The named groups of a match, already converted with [int]. *)
Definition groups : Type := list (ascii * Z).

Definition re_group (d : ascii) (p : string -> matches Z)
    (k : string -> matches groups) (s : string) : matches groups :=
  flat_map (fun '(v, r) => map (fun '(g, r') => ((d, v) :: g, r')) (k r)) (p s).

Definition re_then (p : string -> matches unit)
    (k : string -> matches groups) (s : string) : matches groups :=
  flat_map (fun '(_, r) => k r) (p s).

Definition starts_with_space (s : string) : bool :=
  match s with
  | String c _ => is_space c
  | EmptyString => false
  end.

(** [TimeRE.compile]: a run of white space in the format becomes [\s+], a
    directive its expression, any other character itself.  [None] stands
    for the [ValueError] of a format with a stray [%] or with a directive
    outside the six above, which this script never uses. *)
Fixpoint format_regex (format : string) : option (string -> matches groups) :=
  match format with
  | EmptyString => Some (fun s => [([], s)])
  | String c rest =>
      if Ascii.eqb c "%" then
        match rest with
        | String d rest' =>
            match directive d, format_regex rest' with
            | Some p, Some k => Some (re_group d p k)
            | _, _ => None
            end
        | EmptyString => None
        end
      else
        match format_regex rest with
        | Some k =>
            if is_space c
            then if starts_with_space rest then Some k
                 else Some (re_then re_spaces k)
            else Some (re_then (re_literal c) k)
        | None => None
        end
  end.

Fixpoint group (d : ascii) (default : Z) (g : groups) : Z :=
  match g with
  | [] => default
  | (d', v) :: r => if Ascii.eqb d d' then v else group d default r
  end.

(** [datetime.strptime(date_string, format)]; [None] when it raises
    [ValueError] (no match, unconverted data, or fields that the [date] and
    [datetime] constructors refuse).  The result is naive. *)
Definition strptime (date_string format : string) : option datetime :=
  match format_regex format with
  | None => None
  | Some re =>
      match re date_string with
      | [] => None
      | (found, rest) :: _ =>
          if negb (String.eqb rest EmptyString) then None
          else
            let year := group "Y" 1900 found in
            let month := group "m" 1 found in
            let day := group "d" 1 found in
            let hour := group "H" 0 found in
            let minute := group "M" 0 found in
            let second := group "S" 0 found in
            if _check_date_fields year month day
               && _check_time_fields hour minute second 0
            then Some (mk_datetime year month day hour minute second 0 None)
            else None
      end
  end.

Definition date_formats : list string :=
  [ "%Y-%m-%d";
    "%Y-%m-%dT%H:%M:%S";
    "%Y-%m-%dT%H:%M:%SZ";
    "%Y-%m-%d %H:%M:%S" ].

Definition parse_error_message (date_string : string) : string :=
  "Unable to parse date: " ++ date_string
  ++ ". Supported formats: YYYY-MM-DD, YYYY-MM-DDTHH:MM:SS, YYYY-MM-DDTHH:MM:SSZ".

(** The [for fmt in date_formats] loop of [parse_date]. *)
Fixpoint try_formats (date_string : string) (formats : list string) : result datetime :=
  match formats with
  | [] => Raise (ValueError (parse_error_message date_string))
  | fmt :: later =>
      match strptime date_string fmt with
      | Some dt =>
          match dt_tzinfo dt with
          | None => Ok (replace_tzinfo dt (Some timezone_utc))
          | Some _ => Ok dt
          end
      | None => try_formats date_string later
      end
  end.

Definition parse_date (date_string : string) : result datetime :=
  try_formats date_string date_formats.

(* ------------------------------------------------------------------ *)
(** ** The query engine *)

Definition API_URL : string := "https://api.endorlabs.com/v1".

(** One normalised dependency, the dict built for every returned object. *)
Record dependency_info : Type := mk_dependency_info {
  package_name : pyval;
  resolved_version : pyval;
  created_date : pyval;
  uuid : pyval;
  name : pyval
}.

(** The body of [for obj in objects]. *)
Definition normalize (obj : pyval) : result dependency_info :=
  spec <- py_get obj "spec" (PDict []) ;;
  dep_data <- py_get spec "dependency_data" (PDict []) ;;
  package_name <- py_get dep_data "package_name" (PStr "") ;;
  resolved_version <- py_get dep_data "resolved_version" (PStr "") ;;
  meta <- py_get obj "meta" (PDict []) ;;
  created_str <- py_get meta "create_time" (PStr "") ;;
  package_name <-
    (if truthy package_name
     then
       has_scheme <- py_contains "://" package_name ;;
       if has_scheme then py_split_last "://" package_name else Ok package_name
     else Ok package_name) ;;
  uuid <- py_get obj "uuid" PNone ;;
  meta' <- py_get obj "meta" (PDict []) ;;
  name <- py_get meta' "name" (PStr "") ;;
  Ok (mk_dependency_info package_name resolved_version created_str uuid name).

(** A GET of the loop.  The [Authorization] header is the text [Bearer]
    followed by the token, kept here as the token itself. *)
Record request : Type := mk_request {
  req_url : string;
  req_bearer : pyval;
  req_request_timeout : string;
  req_filter : string;
  req_mask : string;
  req_page_id : option pyval;
  req_timeout : Z
}.

(** What a call of [requests] observes: [Http_error] is any
    [RequestException] (transport failure, the non-success status turned
    into an exception by [raise_for_status], an undecodable body),
    [Http_ok] the decoded JSON body. *)
Inductive http_result : Type :=
| Http_error
| Http_ok (data : pyval).

(** The part of one iteration that follows a successful fetch: the
    records of the page and the cursor of the response. *)
Definition process_page (data : pyval) : result (list dependency_info * pyval) :=
  lst <- py_get data "list" (PDict []) ;;
  objects <- py_get lst "objects" (PList []) ;;
  items <- py_iter objects ;;
  records <- mapM normalize items ;;
  lst' <- py_get data "list" (PDict []) ;;
  response <- py_get lst' "response" (PDict []) ;;
  next_page_id <- py_get response "next_page_id" PNone ;;
  Ok (records, next_page_id).

(** A run of the loop: the fetches made, in order, and how the function
    ends; [None] when the script of responses ends before the loop does. *)
Definition run (A : Type) : Type := list (request * http_result) * option (result A).

Definition run_requests {A : Type} (r : run A) : list request := map fst (fst r).
Definition run_responses {A : Type} (r : run A) : list http_result := map snd (fst r).
Definition run_result {A : Type} (r : run A) : option (result A) := snd r.

(** The [while True] loop.  [page_id] is the entry [list_parameters.page_id]
    of [params], absent until the first cursor is stored. *)
Fixpoint fetch_pages (mk : option pyval -> request) (script : list http_result)
    (page_id : option pyval) (next_page_id : pyval)
    (new_dependencies : list dependency_info) : run (list dependency_info) :=
  match script with
  | [] => ([], None)
  | response :: later =>
      let page_id := if truthy next_page_id then Some next_page_id else page_id in
      let fetch := (mk page_id, response) in
      match response with
      | Http_error => ([fetch], Some (Ok []))
      | Http_ok data =>
          match process_page data with
          | Raise e => ([fetch], Some (Raise e))
          | Ok (records, next_page_id) =>
              let new_dependencies := (new_dependencies ++ records)%list in
              if negb (truthy next_page_id)
              then ([fetch], Some (Ok new_dependencies))
              else
                let '(fetches, res) :=
                  fetch_pages mk later page_id next_page_id new_dependencies in
                (fetch :: fetches, res)
          end
      end
  end.

Definition context_part (branch : option string) : string :=
  match branch_given branch with
  | Some b => "context.id==" ++ b
  | None => "context.type==CONTEXT_TYPE_MAIN"
  end.

Definition context_filter (project_uuid date_str : string) (branch : option string) : string :=
  "spec.importer_data.project_uuid==" ++ project_uuid
  ++ " and meta.create_time>=" ++ date_str
  ++ " and " ++ context_part branch.

Definition mask : string :=
  "meta.name,meta.create_time,spec.dependency_data,spec.importer_data".

Definition get_new_dependencies (namespace : string) (token : pyval)
    (project_uuid : string) (cutoff_date : datetime) (branch : option string)
    (script : list http_result) : run (list dependency_info) :=
  let url := API_URL ++ "/namespaces/" ++ namespace ++ "/dependency-metadata" in
  match format_date_for_api cutoff_date with
  | Raise e => ([], Some (Raise e))
  | Ok date_str =>
      let filter := context_filter project_uuid date_str branch in
      fetch_pages (fun page_id => mk_request url token "600" filter mask page_id 600)
                  script None PNone []
  end.

(* ------------------------------------------------------------------ *)
(** ** Output files and the entry point *)

(** The content of a written file, before serialisation. *)
Inductive file_body : Type :=
| Json_array (records : list dependency_info)
| Csv_table (header : list string) (rows : list dependency_info).

Definition csv_header : list string :=
  ["package_name"; "resolved_version"; "created_date"; "uuid"; "name"].

Definition write_csv_file (filename : string) (dependencies : list dependency_info)
    : string * file_body :=
  match dependencies with
  | [] => (filename, Csv_table csv_header [])
  | _ => (filename, Csv_table csv_header dependencies)
  end.

Record arguments : Type := mk_arguments {
  arg_project_uuid : string;
  arg_date : string;
  arg_branch : option string
}.

Record environment : Type := mk_environment {
  API_KEY : option string;
  API_SECRET : option string;
  ENDOR_NAMESPACE : option string
}.

(** [not os.getenv(...)]: the variable is unset or empty. *)
Definition env_value (v : option string) : option string :=
  match v with
  | Some s => if String.eqb s EmptyString then None else Some s
  | None => None
  end.

Definition get_env_values (env : environment) : result (string * string * string) :=
  match env_value (API_KEY env), env_value (API_SECRET env),
        env_value (ENDOR_NAMESPACE env) with
  | Some api_key, Some api_secret, Some initial_namespace =>
      Ok (api_key, api_secret, initial_namespace)
  | _, _, _ => Raise (SystemExit 1)
  end.

(** [get_token]; [auth] is what the POST observes. *)
Definition get_token (api_key api_secret : string) (auth : http_result) : result pyval :=
  match auth with
  | Http_error => Raise (SystemExit 1)
  | Http_ok body => py_get body "token" PNone
  end.

Definition files : Type := list (string * file_body).

(** [main] from the point where [parser.parse_args()] has returned [args]:
    a command line that [argparse] refuses, or one that asks for help, ends
    the process before this point (status 2, status 0).  The result is the
    content handed to the two files, which are taken to be writable; an
    [open] that fails is not part of the embedding. *)
Definition main (args : arguments) (env : environment) (auth : http_result)
    (script : list http_result) : run files :=
  match parse_date (arg_date args) with
  | Raise (ValueError _) => ([], Some (Raise (SystemExit 1)))
  | Raise e => ([], Some (Raise e))
  | Ok cutoff_date =>
      match get_env_values env with
      | Raise e => ([], Some (Raise e))
      | Ok (api_key, api_secret, namespace) =>
          match get_token api_key api_secret auth with
          | Raise e => ([], Some (Raise e))
          | Ok token =>
              if negb (truthy token) then ([], Some (Raise (SystemExit 1)))
              else
                let '(fetches, res) :=
                  get_new_dependencies namespace token (arg_project_uuid args)
                                       cutoff_date (arg_branch args) script in
                match res with
                | None => (fetches, None)
                | Some (Raise e) => (fetches, Some (Raise e))
                | Some (Ok new_dependencies) =>
                    let '(json_filename, csv_filename) :=
                      generate_output_filenames (arg_project_uuid args)
                                                (arg_date args) (arg_branch args) in
                    (fetches,
                     Some (Ok [ (json_filename, Json_array new_dependencies);
                                write_csv_file csv_filename new_dependencies ]))
                end
          end
      end
  end.

(** Exit status of the process for an ended run. *)
Definition exit_status {A : Type} (r : result A) : Z :=
  match r with
  | Ok _ => 0
  | Raise (SystemExit code) => code
  | Raise _ => 1
  end.

(* ------------------------------------------------------------------ *)
(** ** Notions used to state the properties *)

(** The nested field of a raw object found by following [path]; [None]
    when a key of the path is missing or a value on the way is no dict. *)
Fixpoint nested (v : pyval) (path : list string) : option pyval :=
  match path with
  | [] => Some v
  | k :: ks =>
      match v with
      | PDict d =>
          match dict_lookup k d with
          | Some v' => nested v' ks
          | None => None
          end
      | _ => None
      end
  end.

Definition or_empty (o : option pyval) : pyval :=
  match o with
  | Some v => v
  | None => PStr ""
  end.

Definition dict_or_missing (o : option pyval) : bool :=
  match o with
  | Some (PDict _) | None => true
  | Some _ => false
  end.

Definition str_or_missing (o : option pyval) : bool :=
  match o with
  | Some (PStr _) | None => true
  | Some _ => false
  end.

(** A raw object whose containers are dicts wherever they are present and
    whose package name, if present, is a string. *)
Definition well_shaped (obj : pyval) : bool :=
  match obj with
  | PDict _ =>
      dict_or_missing (nested obj ["spec"])
      && dict_or_missing (nested obj ["spec"; "dependency_data"])
      && dict_or_missing (nested obj ["meta"])
      && str_or_missing (nested obj ["spec"; "dependency_data"; "package_name"])
  | _ => false
  end.

(** The first three steps of [normalize]: the package name as extracted,
    before the scheme is removed. *)
Definition raw_package_name (obj : pyval) : result pyval :=
  spec <- py_get obj "spec" (PDict []) ;;
  dep_data <- py_get spec "dependency_data" (PDict []) ;;
  py_get dep_data "package_name" (PStr "").

Fixpoint drop (n : nat) (s : string) : string :=
  match n, s with
  | O, _ => s
  | S k, String _ s' => drop k s'
  | S _, EmptyString => EmptyString
  end.

(** [sep.join(pieces)]. *)
Fixpoint str_join (sep : string) (pieces : list string) : string :=
  match pieces with
  | [] => ""
  | [x] => x
  | x :: rest => x ++ sep ++ str_join sep rest
  end.

(** Following the specification: the text behind the first occurrence of
    [sep], or the whole text when there is none. *)
Fixpoint after_first (sep s : string) : option string :=
  if prefix sep s then Some (drop (String.length sep) s)
  else
    match s with
    | EmptyString => None
    | String _ s' => after_first sep s'
    end.

Definition spec_package_name (s : string) : string :=
  match after_first "://" s with
  | Some suffix => suffix
  | None => s
  end.

Fixpoint str_filter (keep : ascii -> bool) (s : string) : string :=
  match s with
  | EmptyString => EmptyString
  | String c s' => if keep c then String c (str_filter keep s') else str_filter keep s'
  end.

Fixpoint str_map (f : ascii -> ascii) (s : string) : string :=
  match s with
  | EmptyString => EmptyString
  | String c s' => String (f c) (str_map f s')
  end.

Fixpoint str_take_while (keep : ascii -> bool) (s : string) : string :=
  match s with
  | EmptyString => EmptyString
  | String c s' => if keep c then String c (str_take_while keep s') else EmptyString
  end.

Fixpoint str_forall (p : ascii -> bool) (s : string) : bool :=
  match s with
  | EmptyString => true
  | String c s' => p c && str_forall p s'
  end.

Definition one_of (cs : list ascii) (c : ascii) : bool :=
  existsb (Ascii.eqb c) cs.

(** Following the specification: hyphens, colons and the letter T are
    stripped from the date text, and a trailing zone marker is cut off. *)
Definition spec_sanitize_date (date_str : string) : string :=
  str_take_while (fun c => negb (one_of ["+"; "Z"]%char c))
    (str_filter (fun c => negb (one_of ["-"; ":"; "T"]%char c)) date_str).

Definition spec_filenames (project_uuid date_str : string) (branch : option string)
    : string * string :=
  let base_name :=
    project_uuid ++ "_new_dependencies_" ++ spec_sanitize_date date_str
    ++ match branch with
       | Some b => "_" ++ sanitize_branch b
       | None => ""
       end in
  (base_name ++ ".json", base_name ++ ".csv").

(** What the code does to the date text, character by character. *)
Definition date_char (c : ascii) : ascii :=
  if Ascii.eqb c "T" then "_"%char else c.

Definition sanitized_date (date_str : string) : string :=
  str_take_while (fun c => negb (one_of ["+"; "Z"]%char c))
    (str_map date_char
      (str_filter (fun c => negb (one_of ["-"; ":"]%char c)) date_str)).

Definition branch_char (c : ascii) : ascii :=
  if one_of ["/"; "\"; " "]%char c then "_"%char else c.

Definition branch_suffix (branch : option string) : string :=
  match branch with
  | Some b => if String.eqb b "" then "" else "_" ++ str_map branch_char b
  | None => ""
  end.

(** The common stem of the two file names. *)
Definition base_name (project_uuid date_str : string) (branch : option string) : string :=
  project_uuid ++ "_new_dependencies_" ++ sanitized_date date_str ++ branch_suffix branch.

Definition no_char_of (cs : list ascii) (s : string) : bool :=
  str_forall (fun c => negb (one_of cs c)) s.

(** The scheme removal of [normalize] on a string. *)
Definition strip_scheme (s : string) : string :=
  if str_contains "://" s then last_piece (str_split "://" s) else s.

(** A successful page as the loop sees it: the decoded body, the records
    it yields and the cursor it carries. *)
Record page_view : Type := mk_page_view {
  pv_data : pyval;
  pv_records : list dependency_info;
  pv_cursor : pyval
}.

(** The GET that [get_new_dependencies] sends for a given page cursor. *)
Definition page_request (namespace : string) (token : pyval) (project_uuid date_str : string)
    (branch : option string) (page_id : option pyval) : request :=
  mk_request (API_URL ++ "/namespaces/" ++ namespace ++ "/dependency-metadata")
             token "600" (context_filter project_uuid date_str branch) mask page_id 600.

(** The two files written for an empty result. *)
Definition empty_files (project_uuid date_str : string) (branch : option string) : files :=
  [ (fst (generate_output_filenames project_uuid date_str branch), Json_array []);
    (snd (generate_output_filenames project_uuid date_str branch),
     Csv_table csv_header []) ].

(** The end of a compiled format, and the two halves of the layouts. *)
Definition re_end : string -> matches groups := fun s => [([], s)].

Definition re_date (k : string -> matches groups) : string -> matches groups :=
  re_group "Y" re_Y
    (re_then (re_literal "-")
      (re_group "m" re_m
        (re_then (re_literal "-")
          (re_group "d" re_d k)))).

Definition re_time (k : string -> matches groups) : string -> matches groups :=
  re_group "H" re_H
    (re_then (re_literal ":")
      (re_group "M" re_M
        (re_then (re_literal ":")
          (re_group "S" re_S k)))).

Definition is_digit (c : ascii) : bool := (48 <=? code c)%Z && (code c <=? 57)%Z.

Definition starts_with_digit (s : string) : bool :=
  match s with
  | String c _ => is_digit c
  | EmptyString => false
  end.

(** The first match of [l] is [(v, r)], and every later one stops in front
    of a digit. *)
Definition clean_match {A : Type} (l : matches A) (v : A) (r : string) : Prop :=
  hd_error l = Some (v, r)
  /\ Forall (fun x => starts_with_digit (snd x) = true) (tl l).

(** An expression that has no match on a text starting with a digit. *)
Definition fails_on_digit (k : string -> matches groups) : Prop :=
  forall t, starts_with_digit t = true -> k t = [].

Definition tag (d : ascii) (v : Z) (x : groups * string) : groups * string :=
  ((d, v) :: fst x, snd x).

(** The fields of a date and of a time of day that the layouts can show. *)
Definition date_in_range (y m d : Z) : Prop :=
  0 <= y <= 9999 /\ 1 <= m <= 12 /\ 1 <= d <= 31.

Definition time_in_range (h mi s : Z) : Prop :=
  0 <= h <= 23 /\ 0 <= mi <= 59 /\ 0 <= s <= 59.

Definition date_tags (y m d : Z) (x : groups * string) : groups * string :=
  tag "Y" y (tag "m" m (tag "d" d x)).

Definition time_tags (h mi s : Z) (x : groups * string) : groups * string :=
  tag "H" h (tag "M" mi (tag "S" s x)).

(** The last part of [_ord2ymd]: month and day from the offset [n] of a
    day within its year. *)
Definition month_and_day (leapyear : bool) (n : Z) : Z * Z :=
  let month := Z.shiftr (n + 50) 5 in
  let preceding :=
    table _DAYS_BEFORE_MONTH month + bool_to_Z ((2 <? month)%Z && leapyear) in
  if (n <? preceding)%Z
  then
    let month := month - 1 in
    let preceding :=
      preceding
      - (table _DAYS_IN_MONTH month + bool_to_Z ((month =? 2)%Z && leapyear)) in
    (month, n - preceding + 1)
  else (month, n - preceding + 1).

(** The offset within the year of day [d] of month [m]. *)
Definition day_offset (leapyear : bool) (m d : Z) : Z :=
  table _DAYS_BEFORE_MONTH m + bool_to_Z ((2 <? m)%Z && leapyear) + d - 1.

Definition month_length (leapyear : bool) (m : Z) : Z :=
  if (m =? 2)%Z && leapyear then 29 else table _DAYS_IN_MONTH m.

(** A check over every day of a common and of a leap year: the offset is
    within the year, reaches 365 only on 31 December of a leap year, and
    [month_and_day] leads back to the month and the day. *)
Definition day_checked (leapyear : bool) (m d : Z) : bool :=
  let k := day_offset leapyear m d in
  (0 <=? k)%Z && (k <=? 364 + bool_to_Z leapyear)%Z
  && (negb (k =? 365)%Z || ((m =? 12)%Z && (d =? 31)%Z))
  && (let '(m', d') := month_and_day leapyear k in (m' =? m)%Z && (d' =? d)%Z).

Definition Z_range (lo : Z) (len : nat) : list Z :=
  map (fun i => lo + Z.of_nat i) (seq 0 len).

Definition all_days_checked : bool :=
  forallb (fun leapyear =>
    forallb (fun m =>
      forallb (fun d =>
        negb (d <=? month_length leapyear m)%Z || day_checked leapyear m d)
        (Z_range 1 31))
      (Z_range 1 12))
    [true; false].

(** The four layouts, written with zero-padded fields. *)
Definition layout_date (y m d : Z) : string :=
  pad4 y ++ "-" ++ pad2 m ++ "-" ++ pad2 d.

Definition layout_time (h mi s : Z) : string :=
  pad2 h ++ ":" ++ pad2 mi ++ ":" ++ pad2 s.

Definition layout_T (y m d h mi s : Z) : string :=
  layout_date y m d ++ "T" ++ layout_time h mi s.

Definition layout_TZ (y m d h mi s : Z) : string :=
  layout_date y m d ++ "T" ++ layout_time h mi s ++ "Z".

Definition layout_space (y m d h mi s : Z) : string :=
  layout_date y m d ++ " " ++ layout_time h mi s.

(** The fields a [datetime] object can hold. *)
Definition valid_datetime (dt : datetime) : bool :=
  _check_date_fields (dt_year dt) (dt_month dt) (dt_day dt)
  && _check_time_fields (dt_hour dt) (dt_minute dt) (dt_second dt) (dt_microsecond dt).

(** The moment an aware [datetime] denotes, in microseconds of UTC counted
    from the start of ordinal day 0. *)
Definition utc_microseconds (dt : datetime) (tz : tzinfo) : Z :=
  toordinal dt * US_PER_DAY
  + (dt_hour dt * 3600 + dt_minute dt * 60 + dt_second dt) * US_PER_SECOND
  + dt_microsecond dt
  - utcoffset tz.

(** The literal [date(YYYY-MM-DD)] of a day: the year in four digits. *)
Definition date_literal (y m d : Z) : string :=
  "date(" ++ pad4 y ++ "-" ++ pad2 m ++ "-" ++ pad2 d ++ ")".

(** The literal of a day with the year as a plain decimal number, month and
    day in two digits: [date(999-01-01)], [date(2024-06-15)]. *)
Definition day_literal (y m d : Z) : string :=
  "date(" ++ decimal y ++ "-" ++ pad2 m ++ "-" ++ pad2 d ++ ")".

(** A check over the years of four digits: the plain decimal number is the
    number padded to four digits. *)
Definition year_checked (y : Z) : bool := String.eqb (decimal y) (pad4 y).

(** A response body with the given objects and cursor. *)
Definition page (objects : list pyval) (cursor : pyval) : pyval :=
  PDict [("list", PDict [("objects", PList objects);
                         ("response", PDict [("next_page_id", cursor)])])].

Definition raw_object (pkg version created id nm : string) : pyval :=
  PDict [("uuid", PStr id);
         ("meta", PDict [("name", PStr nm); ("create_time", PStr created)]);
         ("spec", PDict [("dependency_data",
                          PDict [("package_name", PStr pkg);
                                 ("resolved_version", PStr version)])])].

(* ------------------------------------------------------------------ *)
(** ** Notions for the properties of the whole run *)

(** The objects that a response lists, in the order of the JSON array
    under [list.objects]; none for a failed fetch and for a body without
    such an array. *)
Definition listed_objects (response : http_result) : list pyval :=
  match response with
  | Http_ok data =>
      match nested data ["list"; "objects"] with
      | Some (PList objects) => objects
      | _ => []
      end
  | Http_error => []
  end.

(** [records] holds one record for each of [objects], in the same order,
    each the normalisation of its object. *)
Definition normalized (objects : list pyval) (records : list dependency_info) : Prop :=
  Forall2 (fun obj r => normalize obj = Ok r) objects records.

(** The cursor that a consumed response hands on; a failed fetch and a body
    that raises give none. *)
Definition cursor_of (response : http_result) : option pyval :=
  match response with
  | Http_ok data =>
      match process_page data with
      | Ok (_, next_page_id) => Some next_page_id
      | Raise _ => None
      end
  | Http_error => None
  end.

(** Every fetch behind the first carries the cursor, a true value, that the
    response before it handed on. *)
Fixpoint chained (mk : option pyval -> request)
    (fetches : list (request * http_result)) : Prop :=
  match fetches with
  | [] => True
  | (_, response) :: later =>
      match later with
      | [] => True
      | (rq, _) :: _ =>
          (exists cursor, cursor_of response = Some cursor
                          /\ truthy cursor = true
                          /\ rq = mk (Some cursor))
          /\ chained mk later
      end
  end.

(** The exceptions of the dynamic type errors. *)
Definition type_fault (e : pyexn) : bool :=
  match e with
  | AttributeError | TypeError => true
  | _ => false
  end.

(** A check over every offset within a common and a leap year:
    [month_and_day] gives a month, a day of that month, and the pair leads
    back to the offset. *)
Definition offset_checked (leapyear : bool) (k : Z) : bool :=
  let '(m, d) := month_and_day leapyear k in
  (1 <=? m)%Z && (m <=? 12)%Z && (1 <=? d)%Z && (d <=? month_length leapyear m)%Z
  && (day_offset leapyear m d =? k)%Z.

Definition all_offsets_checked : bool :=
  forallb (fun leapyear => forallb (offset_checked leapyear) (Z_range 0 365))
          [true; false].

(* ------------------------------------------------------------------ *)
(** ** The text of the JSON file

    [json.dump(new_dependencies, f, indent=2)] writes what the encoder of
    the [json] module yields for a list of dicts: strings escaped to ASCII,
    one item per line, two spaces per level. *)

Definition hex_char (n : Z) : ascii :=
  if (n <? 10)%Z then digit_char n else ascii_of_nat (87 + Z.to_nat n).

(** ['\\u{0:04x}'.format(n)] *)
Definition unicode_escape (n : Z) : string :=
  String "\" (String "u"
    (String (hex_char (n / 4096)) (String (hex_char (n / 256 mod 16))
      (String (hex_char (n / 16 mod 16)) (String (hex_char (n mod 16)) ""))))).

Definition quote : ascii := "034"%char.
Definition newline : ascii := "010"%char.

(** [ESCAPE_DCT]: the short escapes, and [\u00XX] for the other control
    characters. *)
Definition ESCAPE_DCT (c : ascii) : option string :=
  let n := code c in
  if (n =? 92)%Z then Some "\\"
  else if (n =? 34)%Z then Some (String "\" (String quote ""))
  else if (n =? 8)%Z then Some "\b"
  else if (n =? 12)%Z then Some "\f"
  else if (n =? 10)%Z then Some "\n"
  else if (n =? 13)%Z then Some "\r"
  else if (n =? 9)%Z then Some "\t"
  else if (n <? 32)%Z then Some (unicode_escape n)
  else None.

(** The replacement of one character under [ESCAPE_ASCII], which matches
    the backslash, the quote and everything outside space..tilde. *)
Definition escape_char (c : ascii) : string :=
  let n := code c in
  if (n =? 92)%Z || (n =? 34)%Z || (n <? 32)%Z || (126 <? n)%Z
  then match ESCAPE_DCT c with
       | Some t => t
       | None => unicode_escape n
       end
  else String c "".

Fixpoint escape_all (s : string) : string :=
  match s with
  | EmptyString => EmptyString
  | String c s' => escape_char c ++ escape_all s'
  end.

Definition py_encode_basestring_ascii (s : string) : string :=
  String quote (escape_all s ++ String quote "").

(** [int.__repr__] *)
Definition int_repr (z : Z) : string := NilZero.string_of_int (Z.to_int z).

Fixpoint spaces (n : nat) : string :=
  match n with
  | O => ""
  | S k => String " " (spaces k)
  end.

(** ['\n' + _indent * level] with an indent of two spaces. *)
Definition newline_indent (level : nat) : string :=
  String newline (spaces (2 * level)).

(** [_iterencode], with [_iterencode_list] and [_iterencode_dict], at a
    given level of indentation; the chunks are joined as they are written. *)
Fixpoint _iterencode (level : nat) (o : pyval) {struct o} : string :=
  match o with
  | PStr s => py_encode_basestring_ascii s
  | PNone => "null"
  | PBool true => "true"
  | PBool false => "false"
  | PInt z => int_repr z
  | PList [] => "[]"
  | PList lst =>
      "[" ++ newline_indent (S level)
      ++ str_join ("," ++ newline_indent (S level))
                  (map (_iterencode (S level)) lst)
      ++ newline_indent level ++ "]"
  | PDict [] => "{}"
  | PDict dct =>
      "{" ++ newline_indent (S level)
      ++ str_join ("," ++ newline_indent (S level))
                  (map (fun item =>
                          py_encode_basestring_ascii (fst item) ++ ": "
                          ++ _iterencode (S level) (snd item)) dct)
      ++ newline_indent level ++ "}"
  end.

(** The dict built for a dependency, keys in the order of insertion. *)
Definition dependency_dict (r : dependency_info) : pyval :=
  PDict [ ("package_name", package_name r);
          ("resolved_version", resolved_version r);
          ("created_date", created_date r);
          ("uuid", uuid r);
          ("name", name r) ].

(** The text written for the body [Json_array records]. *)
Definition json_dump (records : list dependency_info) : string :=
  _iterencode 0 (PList (map dependency_dict records)).

(** Reads escaped text back; used to show that escaping loses nothing. *)
Definition hex_value (c : ascii) : Z :=
  let n := code c in
  if (n <=? 57)%Z then n - 48 else n - 87.

Fixpoint unescape (t : string) : string :=
  match t with
  | EmptyString => EmptyString
  | String c r =>
      if Ascii.eqb c "\" then
        match r with
        | String x r' =>
            if Ascii.eqb x "u" then
              match r' with
              | String h1 (String h2 (String h3 (String h4 r''))) =>
                  String (ascii_of_nat (Z.to_nat (16 * hex_value h3 + hex_value h4)))
                         (unescape r'')
              | _ => EmptyString
              end
            else
              String (if Ascii.eqb x "b" then "008"%char
                      else if Ascii.eqb x "f" then "012"%char
                      else if Ascii.eqb x "n" then "010"%char
                      else if Ascii.eqb x "r" then "013"%char
                      else if Ascii.eqb x "t" then "009"%char
                      else x)
                     (unescape r')
        | EmptyString => EmptyString
        end
      else String c (unescape r)
  end.

(** The first character that [unescape] reads from [t], and the rest. *)
Definition unescape_head (t : string) : option (ascii * string) :=
  match t with
  | EmptyString => None
  | String c r =>
      if Ascii.eqb c "\" then
        match r with
        | String x r' =>
            if Ascii.eqb x "u" then
              match r' with
              | String h1 (String h2 (String h3 (String h4 r''))) =>
                  Some (ascii_of_nat (Z.to_nat (16 * hex_value h3 + hex_value h4)), r'')
              | _ => None
              end
            else
              Some (if Ascii.eqb x "b" then "008"%char
                    else if Ascii.eqb x "f" then "012"%char
                    else if Ascii.eqb x "n" then "010"%char
                    else if Ascii.eqb x "r" then "013"%char
                    else if Ascii.eqb x "t" then "009"%char
                    else x, r')
        | EmptyString => None
        end
      else Some (c, r)
  end.

(** A character of a text file kept to printable ASCII. *)
Definition printable (c : ascii) : bool :=
  (32 <=? code c)%Z && (code c <=? 126)%Z.

Fixpoint count_char (c : ascii) (s : string) : nat :=
  match s with
  | EmptyString => O
  | String x s' => (if Ascii.eqb x c then 1 else 0) + count_char c s'
  end.

(** A value that the encoder writes on one line. *)
Definition scalar (v : pyval) : bool :=
  match v with
  | PList _ | PDict _ => false
  | _ => true
  end.

Definition scalar_record (r : dependency_info) : bool :=
  scalar (package_name r) && scalar (resolved_version r) && scalar (created_date r)
  && scalar (uuid r) && scalar (name r).

(** A character of the JSON file: printable ASCII, or the line feed that
    ends a line. *)
Definition text_char (c : ascii) : bool :=
  printable c || Ascii.eqb c newline.

(* ================================================================== *)
(** * Properties *)

(** ** Strings *)

Lemma append_empty_r (s : string) : s ++ "" = s.
Proof. induction s as [|c s IH]; simpl; [reflexivity | now rewrite IH]. Qed.

Lemma append_assoc (a b c : string) : (a ++ b) ++ c = a ++ (b ++ c).
Proof. induction a as [|x a IH]; simpl; [reflexivity | now rewrite IH]. Qed.

Lemma str_contains_prefix (sep s : string) :
  str_contains sep s = false -> prefix sep s = false.
Proof.
  destruct s; simpl; intros H; apply orb_false_iff in H; tauto.
Qed.

Lemma str_contains_tail (sep : string) (c : ascii) (s : string) :
  str_contains sep (String c s) = false -> str_contains sep s = false.
Proof.
  simpl. intros H. apply orb_false_iff in H. tauto.
Qed.

(** Without an occurrence of the separator the split has one piece. *)
Lemma str_split_absent (sep s : string) :
  str_contains sep s = false -> str_split sep s = [s].
Proof.
  unfold str_split. induction s as [|c s IH]; intros H.
  - reflexivity.
  - cbn [str_split_from].
    rewrite (str_contains_prefix _ _ H).
    rewrite IH by (eapply str_contains_tail; eauto).
    reflexivity.
Qed.

Lemma str_split_nonempty (sep : string) (k : nat) (s : string) :
  str_split_from sep k s <> [].
Proof.
  revert k. induction s as [|c s IH]; intros k; cbn [str_split_from].
  - discriminate.
  - destruct k; [|apply IH].
    destruct (prefix sep (String c s)); [discriminate|].
    specialize (IH O). destruct (str_split_from sep 0 s); [congruence | discriminate].
Qed.

Lemma last_cons_head (c : ascii) (l : list string) :
  l <> [] ->
  last (cons_head c l) "" =
  match l with
  | [x] => String c x
  | _ => last l ""
  end.
Proof.
  destruct l as [|x [|y r]]; intros H; [congruence | reflexivity | reflexivity].
Qed.

Lemma first_cons_head (c : ascii) (l : list string) :
  l <> [] -> first_piece (cons_head c l) = String c (first_piece l).
Proof.
  destruct l; intros H; [congruence | reflexivity].
Qed.

(** Splitting at a one-character separator and keeping the first piece
    keeps the characters in front of the first separator. *)
Lemma first_piece_split_char (c : ascii) (s : string) :
  first_piece (str_split (String c "") s)
  = str_take_while (fun x => negb (Ascii.eqb x c)) s.
Proof.
  unfold str_split. induction s as [|x s IH].
  - reflexivity.
  - cbn [str_split_from str_take_while]. simpl prefix.
    destruct (ascii_dec c x) as [->|N].
    + rewrite Ascii.eqb_refl. destruct s; reflexivity.
    + assert (E : Ascii.eqb x c = false) by (apply Ascii.eqb_neq; congruence).
      rewrite E. cbn [negb].
      rewrite first_cons_head by apply str_split_nonempty.
      now rewrite IH.
Qed.

Lemma str_replace_delete (old : ascii) (s : string) :
  str_replace old "" s = str_filter (fun x => negb (Ascii.eqb x old)) s.
Proof.
  induction s as [|x s IH]; simpl; [reflexivity|].
  destruct (Ascii.eqb x old); simpl; now rewrite IH.
Qed.

Lemma str_replace_char (old new : ascii) (s : string) :
  str_replace old (String new "") s
  = str_map (fun x => if Ascii.eqb x old then new else x) s.
Proof.
  induction s as [|x s IH]; simpl; [reflexivity|].
  destruct (Ascii.eqb x old); simpl; now rewrite IH.
Qed.

Lemma str_take_while_twice (p q : ascii -> bool) (s : string) :
  str_take_while p (str_take_while q s)
  = str_take_while (fun c => q c && p c) s.
Proof.
  induction s as [|x s IH]; simpl; [reflexivity|].
  destruct (q x); simpl; [|reflexivity].
  destruct (p x); simpl; [now rewrite IH | reflexivity].
Qed.

Lemma str_take_while_ext (p q : ascii -> bool) (s : string) :
  (forall c, p c = q c) -> str_take_while p s = str_take_while q s.
Proof.
  intros E. induction s as [|x s IH]; simpl; [reflexivity|].
  rewrite E, IH. reflexivity.
Qed.

Lemma str_forall_take_while (p q : ascii -> bool) (s : string) :
  (forall c, q c = true -> p c = true) ->
  str_forall p (str_take_while q s) = true.
Proof.
  intros H. induction s as [|x s IH]; simpl; [reflexivity|].
  destruct (q x) eqn:E; simpl; [|reflexivity].
  rewrite (H _ E), IH. reflexivity.
Qed.

Lemma str_forall_weaken (p q : ascii -> bool) (s : string) :
  (forall c, p c = true -> q c = true) ->
  str_forall p s = true -> str_forall q s = true.
Proof.
  intros H. induction s as [|x s IH]; simpl; [reflexivity|].
  intros E. apply andb_true_iff in E as [E1 E2].
  rewrite (H _ E1), (IH E2). reflexivity.
Qed.

Lemma str_forall_take_while_keeps (p q : ascii -> bool) (s : string) :
  str_forall p s = true -> str_forall p (str_take_while q s) = true.
Proof.
  induction s as [|x s IH]; simpl; [reflexivity|].
  intros E. apply andb_true_iff in E as [E1 E2].
  destruct (q x); simpl; [|reflexivity].
  rewrite E1, (IH E2). reflexivity.
Qed.

Lemma str_forall_both (p q : ascii -> bool) (s : string) :
  str_forall p s = true -> str_forall q s = true ->
  str_forall (fun c => p c && q c) s = true.
Proof.
  induction s as [|x s IH]; simpl; [reflexivity|].
  intros E F. apply andb_true_iff in E as [E1 E2]. apply andb_true_iff in F as [F1 F2].
  rewrite E1, F1, (IH E2 F2). reflexivity.
Qed.

(** ** Splitting at a separator *)

Lemma prefix_append (sep s : string) : prefix sep (sep ++ s) = true.
Proof.
  induction sep as [|c a IH]; simpl.
  - now destruct s.
  - destruct (ascii_dec c c); [exact IH | congruence].
Qed.

Lemma prefix_drop (sep s : string) :
  prefix sep s = true -> s = sep ++ drop (String.length sep) s.
Proof.
  revert s. induction sep as [|c a IH]; intros s H.
  - reflexivity.
  - destruct s as [|x s]; simpl in H; [discriminate|].
    destruct (ascii_dec c x) as [->|]; [|discriminate].
    simpl. f_equal. now apply IH.
Qed.

Lemma length_append (a b : string) :
  String.length (a ++ b) = (String.length a + String.length b)%nat.
Proof. induction a; simpl; [reflexivity | now f_equal]. Qed.

Lemma str_split_skip (sep a r : string) :
  str_split_from sep (String.length a) (a ++ r) = str_split_from sep 0 r.
Proof.
  induction a as [|c a IH]; [reflexivity | exact IH].
Qed.

Lemma str_split_at_sep (sep r : string) :
  sep <> "" -> str_split sep (sep ++ r) = "" :: str_split sep r.
Proof.
  unfold str_split. intros N.
  destruct sep as [|c a]; [congruence|].
  pose proof (prefix_append (String c a) r) as P.
  cbn [append] in *. cbn [str_split_from]. rewrite P.
  cbn [String.length Nat.pred]. now rewrite str_split_skip.
Qed.

Section Split.

Variable sep : string.
Hypothesis sep_nonempty : sep <> "".

(** The three equations of the scan. *)
Lemma str_split_empty : str_split sep "" = [""].
Proof. reflexivity. Qed.

Lemma str_split_step (c : ascii) (s : string) :
  prefix sep (String c s) = false ->
  str_split sep (String c s) = cons_head c (str_split sep s).
Proof.
  unfold str_split. intros H. cbn [str_split_from]. now rewrite H.
Qed.

Lemma str_join_cons_head (c : ascii) (l : list string) :
  l <> [] -> str_join sep (cons_head c l) = String c (str_join sep l).
Proof.
  destruct l as [|x [|y r]]; intros H; [congruence | reflexivity | reflexivity].
Qed.

(** Induction on the text along the scan: a text is empty, starts with the
    separator, or starts with a character at which no separator begins. *)
Lemma scan_ind (P : string -> Prop) :
  P "" ->
  (forall r, P r -> P (sep ++ r)) ->
  (forall c s, prefix sep (String c s) = false -> P s -> P (String c s)) ->
  forall s, P s.
Proof.
  intros P0 Psep Pstep s.
  assert (G : forall n s, (String.length s <= n)%nat -> P s).
  { clear s. induction n as [|n IH]; intros s L.
    - destruct s; [exact P0 | simpl in L; lia].
    - destruct s as [|c s]; [exact P0|].
      destruct (prefix sep (String c s)) eqn:E.
      + pose proof (prefix_drop _ _ E) as D.
        rewrite D. apply Psep. apply IH.
        apply (f_equal String.length) in D. rewrite length_append in D.
        assert (0 < String.length sep)%nat
          by (destruct sep; [congruence | simpl; lia]).
        lia.
      + apply Pstep; [exact E|]. apply IH. simpl in L. lia. }
  apply (G (String.length s)). lia.
Qed.

(** Joining the pieces with the separator gives the text back. *)
Lemma str_join_split (s : string) : str_join sep (str_split sep s) = s.
Proof.
  induction s as [| r IH | c s E IH] using scan_ind.
  - reflexivity.
  - rewrite str_split_at_sep by exact sep_nonempty.
    pose proof (str_split_nonempty sep 0 r) as N. fold (str_split sep r) in N.
    destruct (str_split sep r) as [|x l] eqn:S; [congruence|].
    cbn [str_join]. cbn [str_join] in IH. simpl. now rewrite IH.
  - rewrite str_split_step by exact E.
    rewrite str_join_cons_head by apply str_split_nonempty.
    now rewrite IH.
Qed.

(** No separator begins in the last piece. *)
Lemma last_piece_clean (s : string) :
  str_contains sep (last_piece (str_split sep s)) = false.
Proof.
  unfold last_piece.
  induction s as [| r IH | c s E IH] using scan_ind.
  - simpl. destruct sep; [congruence | reflexivity].
  - rewrite str_split_at_sep by exact sep_nonempty.
    pose proof (str_split_nonempty sep 0 r) as N. fold (str_split sep r) in N.
    destruct (str_split sep r) as [|x l] eqn:S; [congruence|]. exact IH.
  - rewrite str_split_step by exact E.
    rewrite last_cons_head by apply str_split_nonempty.
    pose proof (str_join_split s) as J.
    destruct (str_split sep s) as [|x [|y l]] eqn:S; [exact IH | | exact IH].
    cbn [str_join] in J. subst x. cbn [last] in IH.
    cbn [str_contains]. rewrite E, IH. reflexivity.
Qed.

(** With an occurrence of the separator, the text ends with a separator
    followed by the last piece. *)
Lemma last_piece_suffix (s : string) :
  str_contains sep s = true ->
  exists front, s = front ++ sep ++ last_piece (str_split sep s).
Proof.
  unfold last_piece.
  induction s as [| r IH | c s E IH] using scan_ind; intros C.
  - simpl in C. destruct sep; [congruence | discriminate].
  - rewrite str_split_at_sep by exact sep_nonempty.
    pose proof (str_split_nonempty sep 0 r) as N. fold (str_split sep r) in N.
    destruct (str_contains sep r) eqn:R.
    + destruct (IH eq_refl) as [front F].
      exists (sep ++ front). rewrite append_assoc.
      destruct (str_split sep r) as [|x l] eqn:S; [congruence|].
      cbn [last]. cbn [last] in F.
      destruct l; now rewrite <- F.
    + exists "". rewrite (str_split_absent _ _ R). reflexivity.
  - rewrite str_split_step by exact E.
    rewrite last_cons_head by apply str_split_nonempty.
    cbn [str_contains] in C. rewrite E in C. cbn [orb] in C.
    destruct (IH C) as [front F].
    pose proof (str_join_split s) as J.
    pose proof (last_piece_clean s) as K. unfold last_piece in K.
    destruct (str_split sep s) as [|x [|y l]] eqn:S.
    + exists (String c front). simpl. f_equal. exact F.
    + cbn [str_join] in J. cbn [last] in K. subst x. congruence.
    + exists (String c front). simpl. f_equal. exact F.
Qed.

End Split.

(** ** File names *)

(** Rewrites the tests [x =? c] for which [x <> c] is known. *)
Ltac neq_chars :=
  repeat match goal with
  | H : ?x <> ?c |- context [Ascii.eqb ?x ?c] =>
      rewrite (proj2 (Ascii.eqb_neq x c) H)
  end.

Lemma sanitize_date_chars (date_str : string) :
  sanitize_date date_str = sanitized_date date_str.
Proof.
  unfold sanitize_date, sanitized_date.
  rewrite !first_piece_split_char, str_take_while_twice.
  rewrite !str_replace_delete, str_replace_char.
  rewrite (str_take_while_ext _ (fun c => negb (one_of ["+"; "Z"]%char c))).
  2:{ intros c. unfold one_of. simpl. now destruct (Ascii.eqb c "+"), (Ascii.eqb c "Z"). }
  f_equal.
  induction date_str as [|x s IH]; [reflexivity|].
  unfold one_of, date_char in *. cbn [str_filter str_map existsb] in *.
  destruct (Ascii.eqb_spec x "-") as [->|E1]; [exact IH|].
  destruct (Ascii.eqb_spec x ":") as [->|E2]; [exact IH|].
  cbn [orb negb str_map str_filter].
  destruct (Ascii.eqb_spec x "T") as [->|E3]; cbn; [now rewrite IH|].
  destruct (Ascii.eqb_spec x ":") as [|_]; [contradiction|].
  now rewrite IH.
Qed.

Lemma sanitized_date_clean (date_str : string) :
  no_char_of ["-"; ":"; "T"; "+"; "Z"]%char (sanitized_date date_str) = true.
Proof.
  unfold sanitized_date, no_char_of.
  set (kept := str_map date_char _).
  assert (K : str_forall (fun c => negb (one_of ["-"; ":"; "T"]%char c)) kept = true).
  { subst kept. induction date_str as [|x s IH]; [reflexivity|].
    unfold one_of, date_char in *. cbn [str_filter existsb] in *.
    destruct (Ascii.eqb_spec x "-") as [->|E1]; [exact IH|].
    destruct (Ascii.eqb_spec x ":") as [->|E2]; [exact IH|].
    cbn [orb negb str_map str_forall].
    destruct (Ascii.eqb_spec x "T") as [->|E3]; [cbn; exact IH|].
    rewrite IH. neq_chars. reflexivity. }
  apply (str_forall_weaken
           (fun c => negb (one_of ["-"; ":"; "T"]%char c)
                     && negb (one_of ["+"; "Z"]%char c))).
  { intros c. unfold one_of. cbn [existsb].
    destruct (Ascii.eqb c "-"), (Ascii.eqb c ":"), (Ascii.eqb c "T"),
             (Ascii.eqb c "+"), (Ascii.eqb c "Z"); reflexivity || discriminate. }
  apply str_forall_both.
  - now apply str_forall_take_while_keeps.
  - now apply str_forall_take_while.
Qed.

Lemma sanitize_branch_chars (branch : string) :
  sanitize_branch branch = str_map branch_char branch.
Proof.
  unfold sanitize_branch. rewrite !str_replace_char.
  induction branch as [|x s IH]; [reflexivity|].
  cbn [str_map]. rewrite IH. f_equal.
  unfold branch_char, one_of. cbn [existsb].
  destruct (Ascii.eqb_spec x "/") as [->|E1]; [reflexivity|].
  destruct (Ascii.eqb_spec x "\") as [->|E2]; [reflexivity|].
  destruct (Ascii.eqb_spec x " ") as [->|E3]; reflexivity.
Qed.

Lemma branch_suffix_clean (branch : option string) :
  no_char_of ["/"; "\"; " "]%char (branch_suffix branch) = true.
Proof.
  unfold branch_suffix, no_char_of.
  destruct branch as [b|]; [|reflexivity].
  destruct (String.eqb b ""); [reflexivity|].
  cbn [append str_forall]. 
  replace (negb (one_of ["/"; "\"; " "]%char "_"%char)) with true by reflexivity.
  cbn [andb].
  induction b as [|x s IH]; [reflexivity|].
  cbn [str_map str_forall]. rewrite IH, andb_true_r.
  unfold branch_char, one_of. cbn [existsb].
  destruct (Ascii.eqb_spec x "/") as [->|E1]; [reflexivity|].
  destruct (Ascii.eqb_spec x "\") as [->|E2]; [reflexivity|].
  destruct (Ascii.eqb_spec x " ") as [->|E3]; [reflexivity|].
  cbn [orb]. neq_chars. reflexivity.
Qed.

Lemma generate_output_filenames_base (project_uuid date_str : string)
    (branch : option string) :
  generate_output_filenames project_uuid date_str branch
  = (base_name project_uuid date_str branch ++ ".json",
     base_name project_uuid date_str branch ++ ".csv").
Proof.
  unfold generate_output_filenames, base_name, branch_given, branch_suffix.
  rewrite sanitize_date_chars.
  destruct branch as [b|].
  - destruct (String.eqb b "").
    + now rewrite append_empty_r.
    + now rewrite sanitize_branch_chars.
  - now rewrite append_empty_r.
Qed.

(** ** The entry point *)

Lemma write_csv_file_table (filename : string) (dependencies : list dependency_info) :
  write_csv_file filename dependencies = (filename, Csv_table csv_header dependencies).
Proof. destruct dependencies; reflexivity. Qed.

(** A run of [main] that ends normally has parsed the date, found the
    three variables, obtained a true token, and written the result of the
    query under the two generated names. *)
Lemma main_finished (args : arguments) (env : environment) (auth : http_result)
    (script : list http_result) (fs : files) :
  run_result (main args env auth script) = Some (Ok fs) ->
  exists cutoff_date api_key api_secret namespace token new_dependencies,
    parse_date (arg_date args) = Ok cutoff_date
    /\ get_env_values env = Ok (api_key, api_secret, namespace)
    /\ get_token api_key api_secret auth = Ok token
    /\ truthy token = true
    /\ run_result (get_new_dependencies namespace token (arg_project_uuid args)
                     cutoff_date (arg_branch args) script) = Some (Ok new_dependencies)
    /\ fs = [ (fst (generate_output_filenames (arg_project_uuid args) (arg_date args)
                      (arg_branch args)), Json_array new_dependencies);
              (snd (generate_output_filenames (arg_project_uuid args) (arg_date args)
                      (arg_branch args)), Csv_table csv_header new_dependencies) ].
Proof.
  unfold main, run_result.
  destruct (parse_date (arg_date args)) as [cutoff|e] eqn:P.
  2:{ destruct e; simpl; discriminate. }
  destruct (get_env_values env) as [[[k s] ns]|e] eqn:E; [|simpl; discriminate].
  destruct (get_token k s auth) as [token|e] eqn:T; [|simpl; discriminate].
  destruct (truthy token) eqn:TT; [|simpl; discriminate].
  cbn [negb].
  destruct (get_new_dependencies ns token (arg_project_uuid args) cutoff
              (arg_branch args) script) as [fetches [[deps|e]|]] eqn:G;
    try (simpl; discriminate).
  destruct (generate_output_filenames _ _ _) as [jf cf].
  rewrite write_csv_file_table. cbn [snd fst].
  intros H. injection H as <-.
  exists cutoff, k, s, ns, token, deps.
  repeat split; try assumption; try reflexivity.
  unfold run_result. now rewrite G.
Qed.

(** The fetches of [main] are those of the query. *)
Lemma main_fetches (args : arguments) (env : environment) (auth : http_result)
    (script : list http_result) :
  fst (main args env auth script) = []
  \/ exists cutoff_date api_key api_secret namespace token,
       parse_date (arg_date args) = Ok cutoff_date
       /\ get_env_values env = Ok (api_key, api_secret, namespace)
       /\ get_token api_key api_secret auth = Ok token
       /\ truthy token = true
       /\ fst (main args env auth script)
          = fst (get_new_dependencies namespace token (arg_project_uuid args)
                   cutoff_date (arg_branch args) script).
Proof.
  unfold main.
  destruct (parse_date (arg_date args)) as [cutoff|e] eqn:P.
  2:{ left. destruct e; reflexivity. }
  destruct (get_env_values env) as [[[k s] ns]|e] eqn:E; [|now left].
  destruct (get_token k s auth) as [token|e] eqn:T; [|now left].
  destruct (truthy token) eqn:TT; [|now left].
  right. exists cutoff, k, s, ns, token.
  repeat split; try assumption.
  cbn [negb].
  destruct (get_new_dependencies ns token (arg_project_uuid args) cutoff
              (arg_branch args) script) as [fetches [[deps|e]|]]; reflexivity.
Qed.

(** C4 (as amended). The two names are a function of the project UUID, the
    raw date text and the branch only.  From the date text hyphens and
    colons are removed, every "T" becomes an underscore, and the text is cut
    at the first "+" or "Z"; in the branch every slash, backslash and space
    becomes an underscore.  The names are
    uuid_new_dependencies_date[_branch] with the extensions .json and .csv,
    the branch part being absent when no branch is given, and a finished
    run of the program writes exactly these two names, computed from the
    date text as typed. *)
Theorem filenames_from_raw_text (project_uuid date_str : string) (branch : option string) :
  generate_output_filenames project_uuid date_str branch
  = (base_name project_uuid date_str branch ++ ".json",
     base_name project_uuid date_str branch ++ ".csv")
  /\ base_name project_uuid date_str None
     = project_uuid ++ "_new_dependencies_" ++ sanitized_date date_str
  /\ no_char_of ["-"; ":"; "T"; "+"; "Z"]%char (sanitized_date date_str) = true
  /\ no_char_of ["/"; "\"; " "]%char (branch_suffix branch) = true
  /\ (forall env auth script fs,
        run_result (main (mk_arguments project_uuid date_str branch) env auth script)
        = Some (Ok fs) ->
        map fst fs = [ base_name project_uuid date_str branch ++ ".json";
                       base_name project_uuid date_str branch ++ ".csv" ]).
Proof.
  split; [apply generate_output_filenames_base|].
  split; [unfold base_name; simpl; now rewrite append_empty_r|].
  split; [apply sanitized_date_clean|].
  split; [apply branch_suffix_clean|].
  intros env auth script fs H.
  apply main_finished in H as (c & k & s & ns & t & deps & _ & _ & _ & _ & _ & ->).
  cbn [arg_project_uuid arg_date arg_branch map fst].
  rewrite generate_output_filenames_base. reflexivity.
Qed.

Lemma filenames_from_raw_text_witness :
  run_result (main (mk_arguments "abc-123" "2024-01-01T00:00:00Z" (Some "feat/x y"))
                   (mk_environment (Some "k") (Some "s") (Some "ns"))
                   (Http_ok (PDict [("token", PStr "t")]))
                   [Http_ok (page [] PNone)])
  = Some (Ok [ ("abc-123_new_dependencies_20240101_000000_feat_x_y.json", Json_array []);
               ("abc-123_new_dependencies_20240101_000000_feat_x_y.csv",
                Csv_table csv_header []) ])
  /\ map fst [ ("abc-123_new_dependencies_20240101_000000_feat_x_y.json", Json_array []);
               ("abc-123_new_dependencies_20240101_000000_feat_x_y.csv",
                Csv_table csv_header []) ]
     = [ base_name "abc-123" "2024-01-01T00:00:00Z" (Some "feat/x y") ++ ".json";
         base_name "abc-123" "2024-01-01T00:00:00Z" (Some "feat/x y") ++ ".csv" ].
Proof.
  split; [vm_compute; reflexivity|].
  apply (proj2 (proj2 (proj2 (proj2
           (filenames_from_raw_text "abc-123" "2024-01-01T00:00:00Z" (Some "feat/x y")))))
           (mk_environment (Some "k") (Some "s") (Some "ns"))
           (Http_ok (PDict [("token", PStr "t")]))
           [Http_ok (page [] PNone)]).
  vm_compute. reflexivity.
Defined.

(** C4, as stated, fails: the letter T of the date text is not stripped
    but turned into an underscore. *)
Lemma filenames_T_becomes_underscore :
  generate_output_filenames "abc-123" "2024-01-01T00:00:00" None
  = ("abc-123_new_dependencies_20240101_000000.json",
     "abc-123_new_dependencies_20240101_000000.csv")
  /\ spec_filenames "abc-123" "2024-01-01T00:00:00" None
     = ("abc-123_new_dependencies_20240101000000.json",
        "abc-123_new_dependencies_20240101000000.csv")
  /\ generate_output_filenames "abc-123" "2024-01-01T00:00:00" None
     <> spec_filenames "abc-123" "2024-01-01T00:00:00" None.
Proof.
  split; [reflexivity|]. split; [reflexivity|]. vm_compute. discriminate.
Qed.

(** ** Normalisation of one object *)

Lemma py_get_dict (x : pyval) (key : string) (default v : pyval) :
  py_get x key default = Ok v ->
  exists d, x = PDict d
            /\ v = match dict_lookup key d with Some w => w | None => default end.
Proof.
  destruct x; simpl; try discriminate.
  intros H. exists d. split; [reflexivity|].
  destruct (dict_lookup key d); injection H as <-; reflexivity.
Qed.

Lemma normalize_package_name (obj : pyval) (s : string) (r : dependency_info) :
  raw_package_name obj = Ok (PStr s) ->
  normalize obj = Ok r ->
  package_name r = PStr (strip_scheme s).
Proof.
  unfold raw_package_name, normalize, strip_scheme, bind.
  destruct (py_get obj "spec" (PDict [])) as [spec|]; [|discriminate].
  destruct (py_get spec "dependency_data" (PDict [])) as [dd|]; [|discriminate].
  intros ->.
  destruct (py_get dd "resolved_version" (PStr "")) as [rv|]; [|discriminate].
  destruct (py_get obj "meta" (PDict [])) as [meta|]; [|discriminate].
  destruct (py_get meta "create_time" (PStr "")) as [ct|]; [|discriminate].
  cbn [truthy py_contains py_split_last].
  destruct (String.eqb_spec s "") as [->|N]; cbn [negb].
  - destruct (py_get obj "uuid" PNone); [|discriminate].
    destruct (py_get meta "name" (PStr "")); [|discriminate].
    intros H. injection H as <-. reflexivity.
  - destruct (str_contains "://" s);
      (destruct (py_get obj "uuid" PNone); [|discriminate]);
      (destruct (py_get meta "name" (PStr "")); [|discriminate]);
      intros H; injection H as <-; reflexivity.
Qed.

Lemma strip_scheme_spec (s : string) :
  (str_contains "://" s = false -> strip_scheme s = s)
  /\ (str_contains "://" s = true ->
      exists front,
        s = front ++ "://" ++ strip_scheme s
        /\ str_contains "://" (strip_scheme s) = false).
Proof.
  unfold strip_scheme. split; intros C; rewrite C; [reflexivity|].
  destruct (last_piece_suffix "://" ltac:(discriminate) s C) as [front F].
  exists front. split; [exact F|].
  apply last_piece_clean. discriminate.
Qed.

(** C3 (as amended). The package name extracted from a raw object is split
    at "://" and the text behind the LAST occurrence is kept, so that
    "npm://left-pad" becomes "left-pad"; a package name without "://"
    passes through unchanged. *)
Theorem package_name_after_last_scheme (obj : pyval) (s : string) (r : dependency_info) :
  raw_package_name obj = Ok (PStr s) ->
  normalize obj = Ok r ->
  (str_contains "://" s = false -> package_name r = PStr s)
  /\ (str_contains "://" s = true ->
      exists front suffix,
        s = front ++ "://" ++ suffix
        /\ str_contains "://" suffix = false
        /\ package_name r = PStr suffix).
Proof.
  intros R N. rewrite (normalize_package_name obj s r R N).
  destruct (strip_scheme_spec s) as [A B]. split.
  - intros C. now rewrite (A C).
  - intros C. destruct (B C) as (front & F & K).
    exists front, (strip_scheme s). repeat split; assumption.
Qed.

Lemma package_name_after_last_scheme_witness :
  package_name (mk_dependency_info (PStr "left-pad") (PStr "1.3.0")
                  (PStr "2024-05-01T10:00:00Z") (PStr "u-1") (PStr "n-1"))
  = PStr "left-pad"
  /\ exists front suffix,
       "npm://left-pad" = front ++ "://" ++ suffix
       /\ str_contains "://" suffix = false
       /\ package_name (mk_dependency_info (PStr "left-pad") (PStr "1.3.0")
                          (PStr "2024-05-01T10:00:00Z") (PStr "u-1") (PStr "n-1"))
          = PStr suffix.
Proof.
  split; [reflexivity|].
  apply (proj2 (package_name_after_last_scheme
                  (raw_object "npm://left-pad" "1.3.0" "2024-05-01T10:00:00Z" "u-1" "n-1")
                  "npm://left-pad"
                  (mk_dependency_info (PStr "left-pad") (PStr "1.3.0")
                     (PStr "2024-05-01T10:00:00Z") (PStr "u-1") (PStr "n-1"))
                  eq_refl eq_refl)).
  reflexivity.
Defined.

(** C3, as stated, fails: with two occurrences of "://" the code keeps the
    text behind the last one, not the text behind the first. *)
Lemma package_name_not_after_first_scheme :
  exists r,
    normalize (raw_object "git://https://host/pkg" "1.0" "2024-05-01T10:00:00Z" "u" "n")
    = Ok r
    /\ package_name r = PStr "host/pkg"
    /\ spec_package_name "git://https://host/pkg" = "https://host/pkg"
    /\ package_name r <> PStr (spec_package_name "git://https://host/pkg").
Proof.
  eexists. split; [reflexivity|]. cbn [package_name].
  split; [reflexivity|]. split; [reflexivity|]. vm_compute. discriminate.
Qed.

Lemma nested_dict (d : list (string * pyval)) (k : string) (ks : list string) :
  nested (PDict d) (k :: ks)
  = match dict_lookup k d with Some v => nested v ks | None => None end.
Proof. reflexivity. Qed.

Lemma py_get_nested2 (x : pyval) (k1 k2 : string) (v1 v2 : pyval) :
  py_get x k1 (PDict []) = Ok v1 ->
  py_get v1 k2 (PStr "") = Ok v2 ->
  v2 = or_empty (nested x [k1; k2]).
Proof.
  intros G1 G2.
  apply py_get_dict in G1 as (d & -> & ->).
  apply py_get_dict in G2 as (d1 & H1 & ->).
  rewrite nested_dict.
  destruct (dict_lookup k1 d) as [w|]; subst.
  - cbn [nested]. now destruct (dict_lookup k2 d1).
  - injection H1 as <-. reflexivity.
Qed.

Lemma py_get_nested3 (x : pyval) (k1 k2 k3 : string) (v1 v2 v3 : pyval) :
  py_get x k1 (PDict []) = Ok v1 ->
  py_get v1 k2 (PDict []) = Ok v2 ->
  py_get v2 k3 (PStr "") = Ok v3 ->
  v3 = or_empty (nested x [k1; k2; k3]).
Proof.
  intros G1 G2 G3.
  apply py_get_dict in G1 as (d & -> & ->).
  apply py_get_dict in G2 as (d1 & H1 & ->).
  apply py_get_dict in G3 as (d2 & H2 & ->).
  rewrite nested_dict.
  destruct (dict_lookup k1 d) as [w|]; subst.
  - rewrite nested_dict.
    destruct (dict_lookup k2 d1) as [w|]; subst.
    + cbn [nested]. now destruct (dict_lookup k3 d2).
    + injection H2 as <-. reflexivity.
  - injection H1 as <-. cbn [dict_lookup] in H2. injection H2 as <-. reflexivity.
Qed.

(** The fields of a record that [normalize] builds, read off the object. *)
Lemma normalize_fields (obj : pyval) (r : dependency_info) :
  normalize obj = Ok r ->
  created_date r = or_empty (nested obj ["meta"; "create_time"])
  /\ resolved_version r
     = or_empty (nested obj ["spec"; "dependency_data"; "resolved_version"])
  /\ name r = or_empty (nested obj ["meta"; "name"])
  /\ uuid r = match nested obj ["uuid"] with Some v => v | None => PNone end
  /\ (nested obj ["spec"; "dependency_data"; "package_name"] = None ->
      package_name r = PStr "").
Proof.
  unfold normalize, bind.
  destruct (py_get obj "spec" (PDict [])) as [spec|] eqn:G1; [|discriminate].
  destruct (py_get spec "dependency_data" (PDict [])) as [dd|] eqn:G2; [|discriminate].
  destruct (py_get dd "package_name" (PStr "")) as [pn|] eqn:G3; [|discriminate].
  destruct (py_get dd "resolved_version" (PStr "")) as [rv|] eqn:G4; [|discriminate].
  destruct (py_get obj "meta" (PDict [])) as [meta|] eqn:G5; [|discriminate].
  destruct (py_get meta "create_time" (PStr "")) as [ct|] eqn:G6; [|discriminate].
  destruct (if truthy pn then _ else _) as [pn'|] eqn:G7; [|discriminate].
  destruct (py_get obj "uuid" PNone) as [id|] eqn:G8; [|discriminate].
  destruct (py_get meta "name" (PStr "")) as [nm|] eqn:G9; [|discriminate].
  intros H. injection H as <-.
  cbn [created_date resolved_version name uuid package_name].
  split; [exact (py_get_nested2 _ _ _ _ _ G5 G6)|].
  split; [exact (py_get_nested3 _ _ _ _ _ _ _ G1 G2 G4)|].
  split; [exact (py_get_nested2 _ _ _ _ _ G5 G9)|].
  split.
  - apply py_get_dict in G8 as (d & -> & ->). rewrite nested_dict.
    now destruct (dict_lookup "uuid" d).
  - intros E. pose proof (py_get_nested3 _ _ _ _ _ _ _ G1 G2 G3) as P.
    rewrite E in P. cbn [or_empty] in P. subst pn.
    cbn [truthy String.eqb negb] in G7. now injection G7 as <-.
Qed.

Lemma py_get_PDict (d : list (string * pyval)) (key : string) (default : pyval) :
  py_get (PDict d) key default
  = Ok match dict_lookup key d with Some v => v | None => default end.
Proof. simpl. now destruct (dict_lookup key d). Qed.

(** Splits on what a container key holds, closing the shapes that the
    hypothesis [W] excludes. *)
Ltac container_cases k d W :=
  destruct (dict_lookup k d) as [[| | | | |?]|];
  cbn [nested dict_lookup dict_or_missing str_or_missing andb] in W;
  try discriminate W;
  rewrite ?py_get_PDict; cbn [bind dict_lookup].

Lemma normalize_well_shaped (obj : pyval) :
  well_shaped obj = true -> exists r, normalize obj = Ok r.
Proof.
  unfold well_shaped. destruct obj as [| | | | |d]; try discriminate.
  rewrite !nested_dict. intros W.
  unfold normalize. rewrite !py_get_PDict. cbn [bind].
  container_cases "spec" d W.
  - match goal with
    | |- context [dict_lookup "dependency_data" ?ds] =>
        container_cases "dependency_data" ds W
    end.
    + match goal with
      | |- context [dict_lookup "package_name" ?dd] =>
          destruct (dict_lookup "package_name" dd) as [[| | |s| |]|];
          cbn [nested str_or_missing andb] in W
      end;
        container_cases "meta" d W;
        cbn [truthy py_contains py_split_last String.eqb negb bind];
        try (destruct (negb (String.eqb s "")); cbn [bind];
             [destruct (str_contains "://" s)|]);
        cbn [bind py_split_last]; eexists; reflexivity.
    + container_cases "meta" d W;
        cbn [truthy String.eqb negb bind]; eexists; reflexivity.
  - container_cases "meta" d W;
      cbn [truthy String.eqb negb bind]; eexists; reflexivity.
Qed.

(** C8, as amended. The record built from a raw object carries the value
    of meta.create_time unchanged in created_date, and each of the nested
    fields package_name, resolved_version, create_time and meta.name that
    is missing is replaced by the empty string; an object whose containers
    spec, spec.dependency_data and meta are dicts where present, and whose
    package name is a text where present, is normalised without failure
    whichever of these fields are missing. *)
Theorem normalize_copies_and_defaults (obj : pyval) :
  (forall r, normalize obj = Ok r ->
     created_date r = or_empty (nested obj ["meta"; "create_time"])
     /\ resolved_version r
        = or_empty (nested obj ["spec"; "dependency_data"; "resolved_version"])
     /\ name r = or_empty (nested obj ["meta"; "name"])
     /\ (nested obj ["spec"; "dependency_data"; "package_name"] = None ->
         package_name r = PStr ""))
  /\ (well_shaped obj = true -> exists r, normalize obj = Ok r).
Proof.
  split; [|apply normalize_well_shaped].
  intros r N. destruct (normalize_fields obj r N) as (A & B & C & _ & D).
  repeat split; assumption.
Qed.

Lemma normalize_copies_and_defaults_witness :
  created_date (mk_dependency_info (PStr "") (PStr "") (PStr "2024-05-01T10:00:00.123456Z")
                  PNone (PStr ""))
  = or_empty (nested (PDict [("meta", PDict [("create_time",
                                              PStr "2024-05-01T10:00:00.123456Z")])])
                     ["meta"; "create_time"])
  /\ exists r,
       normalize (PDict [("meta", PDict [("create_time",
                                          PStr "2024-05-01T10:00:00.123456Z")])])
       = Ok r.
Proof.
  pose proof (normalize_copies_and_defaults
                (PDict [("meta", PDict [("create_time",
                                         PStr "2024-05-01T10:00:00.123456Z")])]))
    as [A B].
  split.
  - exact (proj1 (A _ eq_refl)).
  - exact (B eq_refl).
Defined.

(** C8, the claim as written fails: not every raw object is normalised.
    In an object whose meta is null the field meta.create_time is missing,
    yet no empty string is put in its place: the record fails with an
    AttributeError.  The same happens for a null spec.dependency_data, with
    all other fields in place. *)
Lemma normalize_fails_on_null_container :
  nested (PDict [("uuid", PStr "u"); ("meta", PNone)]) ["meta"; "create_time"] = None
  /\ well_shaped (PDict [("uuid", PStr "u"); ("meta", PNone)]) = false
  /\ normalize (PDict [("uuid", PStr "u"); ("meta", PNone)]) = Raise AttributeError
  /\ nested (PDict [("uuid", PStr "u");
                    ("meta", PDict [("name", PStr "n"); ("create_time", PStr "t")]);
                    ("spec", PDict [("dependency_data", PNone)])])
            ["spec"; "dependency_data"; "package_name"] = None
  /\ normalize (PDict [("uuid", PStr "u");
                       ("meta", PDict [("name", PStr "n"); ("create_time", PStr "t")]);
                       ("spec", PDict [("dependency_data", PNone)])])
     = Raise AttributeError.
Proof. repeat split; reflexivity. Qed.

(** C9 fails on the code: for an object without a top-level uuid the
    record holds None in its uuid field, not a string, while every other
    field of the same record falls back to the empty string. *)
Theorem uuid_missing_is_none :
  normalize (PDict [("meta", PDict [("name", PStr "n"); ("create_time", PStr "t")]);
                    ("spec", PDict [("dependency_data",
                                     PDict [("package_name", PStr "npm://foo");
                                            ("resolved_version", PStr "1.2.3")])])])
  = Ok (mk_dependency_info (PStr "foo") (PStr "1.2.3") (PStr "t") PNone (PStr "n"))
  /\ is_str (uuid (mk_dependency_info (PStr "foo") (PStr "1.2.3") (PStr "t")
                     PNone (PStr "n"))) = false
  /\ normalize (PDict [])
     = Ok (mk_dependency_info (PStr "") (PStr "") (PStr "") PNone (PStr "")).
Proof. repeat split; reflexivity. Qed.

(** ** The pagination loop *)

Lemma combine_fst {A B : Type} (xs : list A) (ys : list B) :
  List.length xs = List.length ys -> map fst (combine xs ys) = xs.
Proof.
  revert ys. induction xs as [|x xs IH]; intros [|y ys] L; try discriminate.
  - reflexivity.
  - cbn. f_equal. apply IH. now injection L.
Qed.

Lemma combine_snd {A B : Type} (xs : list A) (ys : list B) :
  List.length xs = List.length ys -> map snd (combine xs ys) = ys.
Proof.
  revert ys. induction xs as [|x xs IH]; intros [|y ys] L; try discriminate.
  - reflexivity.
  - cbn. f_equal. apply IH. now injection L.
Qed.

Lemma fetch_pages_error (mk : option pyval -> request) (script : list http_result) :
  forall page_id next_page_id acc,
    In Http_error (run_responses (fetch_pages mk script page_id next_page_id acc)) ->
    run_result (fetch_pages mk script page_id next_page_id acc) = Some (Ok []).
Proof.
  unfold run_responses, run_result.
  induction script as [|response later IH]; intros page_id next acc; cbn [fetch_pages].
  - intros [].
  - destruct response as [|data]; [reflexivity|].
    destruct (process_page data) as [[records cursor]|e].
    + destruct (truthy cursor); cbn [negb].
      * specialize (IH (if truthy next then Some next else page_id) cursor
                       (acc ++ records)%list).
        destruct (fetch_pages mk later _ cursor _) as [fetches res].
        cbn [fst snd map] in *. intros [H|H]; [discriminate | now apply IH].
      * cbn. intros [H|[]]. discriminate.
    + cbn. intros [H|[]]. discriminate.
Qed.

Lemma fetch_pages_requests (mk : option pyval -> request) (script : list http_result) :
  forall page_id next_page_id acc rq,
    In rq (run_requests (fetch_pages mk script page_id next_page_id acc)) ->
    exists p, rq = mk p.
Proof.
  unfold run_requests.
  induction script as [|response later IH]; intros page_id next acc rq; cbn [fetch_pages].
  - intros [].
  - destruct response as [|data]; [cbn; intros [<-|[]]; eauto|].
    destruct (process_page data) as [[records cursor]|e];
      [|cbn; intros [<-|[]]; eauto].
    destruct (truthy cursor); cbn [negb]; [|cbn; intros [<-|[]]; eauto].
    specialize (IH (if truthy next then Some next else page_id) cursor
                     (acc ++ records)%list rq).
    destruct (fetch_pages mk later _ cursor _) as [fetches res].
    cbn [fst map]. intros [<-|H]; eauto.
Qed.

(** The loop over pages that all succeed, the last one alone without a
    cursor. *)
Lemma fetch_pages_all (mk : option pyval -> request) (last : page_view)
    (later : list http_result) :
  truthy (pv_cursor last) = false ->
  process_page (pv_data last) = Ok (pv_records last, pv_cursor last) ->
  forall (pages : list page_view) page_id next_page_id acc,
    Forall (fun p => process_page (pv_data p) = Ok (pv_records p, pv_cursor p)
                     /\ truthy (pv_cursor p) = true) pages ->
    fetch_pages mk (map Http_ok (map pv_data (pages ++ [last])) ++ later)%list
                page_id next_page_id acc
    = (combine (mk (if truthy next_page_id then Some next_page_id else page_id)
                  :: map (fun p => mk (Some (pv_cursor p))) pages)
               (map Http_ok (map pv_data (pages ++ [last]))),
       Some (Ok (acc ++ concat (map pv_records (pages ++ [last])))%list)).
Proof.
  intros Tl Pl.
  induction pages as [|p ps IH]; intros page_id next acc F.
  - cbn [app map fetch_pages combine concat]. rewrite Pl, Tl. cbn [negb].
    now rewrite app_nil_r.
  - inversion F as [|? ? [Pp Tp] F']; subst.
    cbn [app map fetch_pages combine concat]. rewrite Pp, Tp. cbn [negb].
    rewrite (IH _ (pv_cursor p) _ F'), Tp.
    now rewrite app_assoc.
Qed.

Lemma get_new_dependencies_loop (namespace : string) (token : pyval)
    (project_uuid : string) (cutoff_date : datetime) (branch : option string)
    (script : list http_result) (date_str : string) :
  format_date_for_api cutoff_date = Ok date_str ->
  get_new_dependencies namespace token project_uuid cutoff_date branch script
  = fetch_pages (page_request namespace token project_uuid date_str branch)
                script None PNone [].
Proof.
  intros F. unfold get_new_dependencies. rewrite F. reflexivity.
Qed.

Lemma get_new_dependencies_error (namespace : string) (token : pyval)
    (project_uuid : string) (cutoff_date : datetime) (branch : option string)
    (script : list http_result) :
  In Http_error (run_responses (get_new_dependencies namespace token project_uuid
                                  cutoff_date branch script)) ->
  run_result (get_new_dependencies namespace token project_uuid
                cutoff_date branch script) = Some (Ok []).
Proof.
  unfold get_new_dependencies.
  destruct (format_date_for_api cutoff_date) as [date_str|e].
  - apply fetch_pages_error.
  - intros [].
Qed.

(** C1. Whenever a page fetch of the query fails with a transport or HTTP
    error, the query returns the empty list, whatever earlier pages had
    delivered; the program then goes on, writes the JSON file with an empty
    array and the CSV file with the header only, and ends with status 0. *)
Theorem fetch_error_discards_pages :
  (forall namespace token project_uuid cutoff_date branch script,
     In Http_error (run_responses (get_new_dependencies namespace token project_uuid
                                     cutoff_date branch script)) ->
     run_result (get_new_dependencies namespace token project_uuid
                   cutoff_date branch script) = Some (Ok []))
  /\ (forall args env auth script,
        In Http_error (run_responses (main args env auth script)) ->
        run_result (main args env auth script)
        = Some (Ok (empty_files (arg_project_uuid args) (arg_date args) (arg_branch args)))
        /\ option_map exit_status (run_result (main args env auth script)) = Some 0).
Proof.
  split; [exact get_new_dependencies_error|].
  intros args env auth script H.
  assert (R : run_result (main args env auth script)
              = Some (Ok (empty_files (arg_project_uuid args) (arg_date args)
                                      (arg_branch args)))).
  { unfold run_responses in H.
    destruct (main_fetches args env auth script) as [E|(c & k & s & ns & t & P & E & T & TT & F)].
    - rewrite E in H. destruct H.
    - rewrite F in H. apply get_new_dependencies_error in H.
      unfold main, run_result in *. rewrite P, E, T, TT. cbn [negb].
      destruct (get_new_dependencies ns t (arg_project_uuid args) c (arg_branch args) script)
        as [fetches res].
      cbn [snd] in H. subst res. unfold empty_files.
      destruct (generate_output_filenames _ _ _). reflexivity. }
  split; [exact R|]. rewrite R. reflexivity.
Qed.

Lemma fetch_error_discards_pages_witness :
  run_result (get_new_dependencies "ns" (PStr "t") "abc-123"
                (mk_datetime 2024 1 1 0 0 0 0 (Some timezone_utc)) None
                [ Http_ok (page [raw_object "npm://foo" "1.2.3" "2024-02-01T00:00:00Z" "u" "n"]
                                (PStr "c1"));
                  Http_error;
                  Http_ok (page [] PNone) ])
  = Some (Ok [])
  /\ run_result (main (mk_arguments "abc-123" "2024-01-01" None)
                      (mk_environment (Some "k") (Some "s") (Some "ns"))
                      (Http_ok (PDict [("token", PStr "t")]))
                      [ Http_ok (page [raw_object "npm://foo" "1.2.3" "2024-02-01T00:00:00Z"
                                                  "u" "n"] (PStr "c1"));
                        Http_error;
                        Http_ok (page [] PNone) ])
     = Some (Ok [ ("abc-123_new_dependencies_20240101.json", Json_array []);
                  ("abc-123_new_dependencies_20240101.csv", Csv_table csv_header []) ]).
Proof.
  split.
  - apply (proj1 fetch_error_discards_pages). vm_compute. tauto.
  - refine (proj1 (proj2 fetch_error_discards_pages
                     (mk_arguments "abc-123" "2024-01-01" None) _ _ _ _)).
    vm_compute. tauto.
Defined.

Lemma mapM_normalized (objects : list pyval) (records : list dependency_info) :
  mapM normalize objects = Ok records -> normalized objects records.
Proof.
  revert records. induction objects as [|obj objects IH]; intros records; cbn [mapM].
  - intros H. assert (E : records = []) by congruence. subst. constructor.
  - destruct (normalize obj) as [r|e] eqn:N; cbn [bind]; [|discriminate].
    destruct (mapM normalize objects) as [rs|e] eqn:M; cbn [bind]; [|discriminate].
    intros H. assert (E : records = r :: rs) by congruence. subst.
    constructor; [exact N | now apply IH].
Qed.

Lemma normalize_text (s : string) : normalize (PStr s) = Raise AttributeError.
Proof. reflexivity. Qed.

(** The records of a page are its listed objects, normalised one by one in
    the order of the array.  Iterating over anything else than an array
    gives texts, which are not normalised, or nothing. *)
Lemma process_page_records (data : pyval) (records : list dependency_info)
    (cursor : pyval) :
  process_page data = Ok (records, cursor) ->
  normalized (listed_objects (Http_ok data)) records.
Proof.
  unfold process_page. intros P.
  destruct (py_get data "list" (PDict [])) as [lst|e] eqn:G1; cbn [bind] in P;
    [|discriminate].
  destruct (py_get lst "objects" (PList [])) as [objects|e] eqn:G2; cbn [bind] in P;
    [|discriminate].
  destruct (py_iter objects) as [items|e] eqn:I; cbn [bind] in P; [|discriminate].
  destruct (mapM normalize items) as [recs|e] eqn:M; cbn [bind] in P; [|discriminate].
  destruct (py_get lst "response" (PDict [])) as [response|e]; cbn [bind] in P;
    [|discriminate].
  destruct (py_get response "next_page_id" PNone) as [next|e]; cbn [bind] in P;
    [|discriminate].
  assert (E : recs = records) by congruence. subst recs. clear P.
  apply py_get_dict in G1 as (d & -> & ->).
  apply py_get_dict in G2 as (l & E & ->).
  assert (N : nested (PDict d) ["list"; "objects"] = dict_lookup "objects" l).
  { rewrite nested_dict. destruct (dict_lookup "list" d) as [v|].
    - rewrite E, nested_dict. now destruct (dict_lookup "objects" l).
    - assert (L : l = []) by congruence. now rewrite L. }
  unfold listed_objects. rewrite N. clear N E.
  destruct (dict_lookup "objects" l) as [[ |b|z|t|objs|keys]|];
    cbn [py_iter] in I; try discriminate I;
    injection I as I; subst items.
  - destruct t as [|c t]; cbn [chars_of mapM] in M.
    + assert (E : records = []) by congruence. subst. constructor.
    + rewrite normalize_text in M. discriminate M.
  - now apply mapM_normalized.
  - destruct keys as [|[k v] keys]; cbn [map mapM fst] in M.
    + assert (E : records = []) by congruence. subst. constructor.
    + rewrite normalize_text in M. discriminate M.
  - cbn [mapM] in M. assert (E : records = []) by congruence. subst. constructor.
Qed.

(** C2. When every page is fetched and decoded, and only the last response
    is without a cursor, the query sends exactly one request per page, in
    page order, the first without a page cursor and each later one with the
    cursor of the response before it; the records of each page are the
    objects of its array [list.objects], normalised one by one in the order
    of the array; the query appends them page after page to one list and
    returns that list when the response without a cursor arrives. *)
Theorem pagination_accumulates (namespace : string) (token : pyval)
    (project_uuid : string) (cutoff_date : datetime) (branch : option string)
    (date_str : string) (pages : list page_view) (last : page_view)
    (later : list http_result) :
  format_date_for_api cutoff_date = Ok date_str ->
  Forall (fun p => process_page (pv_data p) = Ok (pv_records p, pv_cursor p)
                   /\ truthy (pv_cursor p) = true) pages ->
  process_page (pv_data last) = Ok (pv_records last, pv_cursor last) ->
  truthy (pv_cursor last) = false ->
  let r := get_new_dependencies namespace token project_uuid cutoff_date branch
             (map Http_ok (map pv_data (pages ++ [last])) ++ later)%list in
  run_requests r
  = page_request namespace token project_uuid date_str branch None
    :: map (fun p => page_request namespace token project_uuid date_str branch
                       (Some (pv_cursor p))) pages
  /\ run_responses r = map Http_ok (map pv_data (pages ++ [last]))
  /\ List.length (run_requests r) = List.length (pages ++ [last])%list
  /\ run_result r = Some (Ok (concat (map pv_records (pages ++ [last]))))
  /\ Forall (fun p => normalized (listed_objects (Http_ok (pv_data p))) (pv_records p))
            (pages ++ [last]).
Proof.
  intros F P Pl Tl r. subst r.
  assert (N : Forall (fun p => normalized (listed_objects (Http_ok (pv_data p)))
                                          (pv_records p)) (pages ++ [last])).
  { apply Forall_app. split.
    - revert P. apply Forall_impl. intros p [Pp _].
      exact (process_page_records _ _ _ Pp).
    - constructor; [exact (process_page_records _ _ _ Pl) | constructor]. }
  rewrite (get_new_dependencies_loop _ _ _ _ _ _ _ F).
  rewrite (fetch_pages_all _ last later Tl Pl pages None PNone [] P).
  unfold run_requests, run_responses, run_result. cbn [fst snd truthy app].
  set (reqs := page_request _ _ _ _ _ None :: _).
  set (resps := map Http_ok _).
  assert (L : List.length reqs = List.length resps).
  { subst reqs resps. cbn [List.length]. rewrite !length_map, length_app.
    cbn [List.length]. lia. }
  rewrite (combine_fst _ _ L), (combine_snd _ _ L).
  split; [reflexivity|]. split; [reflexivity|]. split; [|split; [reflexivity | exact N]].
  subst reqs resps. rewrite L, !length_map. reflexivity.
Qed.

Lemma pagination_accumulates_witness :
  let cutoff := mk_datetime 2024 1 1 0 0 0 0 (Some timezone_utc) in
  let obj1 := raw_object "npm://foo" "1.2.3" "2024-02-01T00:00:00Z" "u1" "n1" in
  let obj2 := raw_object "pypi://bar" "0.1" "2024-02-02T00:00:00Z" "u2" "n2" in
  let obj3 := raw_object "baz" "7" "2024-02-03T00:00:00Z" "u3" "n3" in
  let obj4 := raw_object "mvn://qux" "4.0" "2024-02-04T00:00:00Z" "u4" "n4" in
  let rec1 := mk_dependency_info (PStr "foo") (PStr "1.2.3") (PStr "2024-02-01T00:00:00Z")
                (PStr "u1") (PStr "n1") in
  let rec2 := mk_dependency_info (PStr "bar") (PStr "0.1") (PStr "2024-02-02T00:00:00Z")
                (PStr "u2") (PStr "n2") in
  let rec3 := mk_dependency_info (PStr "baz") (PStr "7") (PStr "2024-02-03T00:00:00Z")
                (PStr "u3") (PStr "n3") in
  let rec4 := mk_dependency_info (PStr "qux") (PStr "4.0") (PStr "2024-02-04T00:00:00Z")
                (PStr "u4") (PStr "n4") in
  let p1 := mk_page_view (page [obj1; obj2] (PStr "c1")) [rec1; rec2] (PStr "c1") in
  let p2 := mk_page_view (page [] (PStr "c2")) [] (PStr "c2") in
  let p3 := mk_page_view (page [obj3; obj4] PNone) [rec3; rec4] PNone in
  let r := get_new_dependencies "ns" (PStr "t") "abc-123" cutoff None
             (map Http_ok (map pv_data ([p1; p2] ++ [p3])) ++ [])%list in
  run_requests r
  = [ page_request "ns" (PStr "t") "abc-123" "date(2024-01-01)" None None;
      page_request "ns" (PStr "t") "abc-123" "date(2024-01-01)" None (Some (PStr "c1"));
      page_request "ns" (PStr "t") "abc-123" "date(2024-01-01)" None (Some (PStr "c2")) ]
  /\ run_result r = Some (Ok [rec1; rec2; rec3; rec4])
  /\ Forall (fun p => normalized (listed_objects (Http_ok (pv_data p))) (pv_records p))
            [p1; p2; p3].
Proof.
  intros cutoff obj1 obj2 obj3 obj4 rec1 rec2 rec3 rec4 p1 p2 p3 r.
  assert (F : format_date_for_api cutoff = Ok "date(2024-01-01)")
    by (vm_compute; reflexivity).
  assert (P : Forall (fun p => process_page (pv_data p) = Ok (pv_records p, pv_cursor p)
                               /\ truthy (pv_cursor p) = true) [p1; p2]).
  { repeat constructor. }
  assert (Pl : process_page (pv_data p3) = Ok (pv_records p3, pv_cursor p3)) by reflexivity.
  assert (Tl : truthy (pv_cursor p3) = false) by reflexivity.
  destruct (pagination_accumulates "ns" (PStr "t") "abc-123" cutoff None
              "date(2024-01-01)" [p1; p2] p3 [] F P Pl Tl) as (A & _ & _ & D & N).
  split; [exact A | split; [exact D | exact N]].
Defined.

(** ** The branch argument *)

Lemma branch_given_empty : branch_given (Some "") = branch_given None.
Proof. reflexivity. Qed.

(** C10. An empty branch argument is treated as no branch at all: the
    query and the whole program run exactly as without a branch, every
    request filters on context.type==CONTEXT_TYPE_MAIN, and the file names
    carry no branch suffix. *)
Theorem empty_branch_is_no_branch (namespace : string) (token : pyval)
    (project_uuid date_str : string) (cutoff_date : datetime) (env : environment)
    (auth : http_result) (script : list http_result) :
  get_new_dependencies namespace token project_uuid cutoff_date (Some "") script
  = get_new_dependencies namespace token project_uuid cutoff_date None script
  /\ (forall rq,
        In rq (run_requests (get_new_dependencies namespace token project_uuid
                               cutoff_date (Some "") script)) ->
        exists d,
          format_date_for_api cutoff_date = Ok d
          /\ req_filter rq
             = "spec.importer_data.project_uuid==" ++ project_uuid
               ++ " and meta.create_time>=" ++ d
               ++ " and context.type==CONTEXT_TYPE_MAIN")
  /\ generate_output_filenames project_uuid date_str (Some "")
     = generate_output_filenames project_uuid date_str None
  /\ generate_output_filenames project_uuid date_str (Some "")
     = (project_uuid ++ "_new_dependencies_" ++ sanitize_date date_str ++ ".json",
        project_uuid ++ "_new_dependencies_" ++ sanitize_date date_str ++ ".csv")
  /\ main (mk_arguments project_uuid date_str (Some "")) env auth script
     = main (mk_arguments project_uuid date_str None) env auth script.
Proof.
  split; [reflexivity|]. split.
  - intros rq. unfold get_new_dependencies.
    destruct (format_date_for_api cutoff_date) as [d|e]; [|intros []].
    intros H. apply fetch_pages_requests in H as [p ->].
    exists d. split; reflexivity.
  - split; [reflexivity|]. split; [|reflexivity].
    unfold generate_output_filenames. cbn [branch_given String.eqb].
    now rewrite !append_assoc.
Qed.

Lemma empty_branch_is_no_branch_witness :
  exists d,
    format_date_for_api (mk_datetime 2024 1 1 0 0 0 0 (Some timezone_utc)) = Ok d
    /\ req_filter (page_request "ns" (PStr "t") "abc-123" "date(2024-01-01)" (Some "") None)
       = "spec.importer_data.project_uuid==" ++ "abc-123"
         ++ " and meta.create_time>=" ++ d
         ++ " and context.type==CONTEXT_TYPE_MAIN".
Proof.
  apply (proj1 (proj2 (empty_branch_is_no_branch "ns" (PStr "t") "abc-123" "2024-01-01"
                         (mk_datetime 2024 1 1 0 0 0 0 (Some timezone_utc))
                         (mk_environment (Some "k") (Some "s") (Some "ns"))
                         (Http_ok (PDict [("token", PStr "t")]))
                         [Http_ok (page [] PNone)]))).
  vm_compute. tauto.
Defined.

(** ** Matching the layouts *)

Lemma below_cases (P : Z -> Prop) (n : nat) :
  (forall k, (k < n)%nat -> P (Z.of_nat k)) ->
  forall z, 0 <= z < Z.of_nat n -> P z.
Proof.
  intros H z Hz. rewrite <- (Z2Nat.id z) by lia. apply H. lia.
Qed.

(** Computes the matches of a concrete field and reads the claim off. *)
Ltac clean_case :=
  unfold clean_match;
  match goal with
  | |- context [hd_error ?l] =>
      let l' := eval vm_compute in l in change l with l'
  end;
  split;
  [ reflexivity
  | cbn [tl]; repeat (apply Forall_cons; [reflexivity|]); apply Forall_nil ].

(** Settles a statement about all numbers below a bound case by case. *)
Ltac by_cases_below n :=
  let z := fresh "z" in
  let Hz := fresh "Hz" in
  let k := fresh "k" in
  let Hk := fresh "Hk" in
  intros z Hz; pattern z; apply (below_cases _ n); [|exact Hz];
  clear z Hz; intros k Hk;
  repeat (destruct k as [|k];
          [ intros; first [ lia | clean_case ] | try lia ]).

Lemma re_m_clean (n : Z) :
  0 <= n < 13 -> 1 <= n -> forall r, clean_match (re_m (pad2 n ++ r)) n r.
Proof. revert n. by_cases_below 13%nat. Qed.

Lemma re_d_clean (n : Z) :
  0 <= n < 32 -> 1 <= n -> forall r, clean_match (re_d (pad2 n ++ r)) n r.
Proof. revert n. by_cases_below 32%nat. Qed.

Lemma re_H_clean (n : Z) :
  0 <= n < 24 -> forall r, clean_match (re_H (pad2 n ++ r)) n r.
Proof. revert n. by_cases_below 24%nat. Qed.

Lemma re_M_clean (n : Z) :
  0 <= n < 60 -> forall r, clean_match (re_M (pad2 n ++ r)) n r.
Proof. revert n. by_cases_below 60%nat. Qed.

Lemma re_S_clean (n : Z) :
  0 <= n < 60 -> forall r, clean_match (re_S (pad2 n ++ r)) n r.
Proof. revert n. by_cases_below 60%nat. Qed.

Lemma code_digit_char (n : Z) : 0 <= n <= 9 -> code (digit_char n) = 48 + n.
Proof.
  intros H. unfold code, digit_char.
  rewrite nat_ascii_embedding by lia. lia.
Qed.

Lemma re_digit_any (n : Z) (r : string) :
  0 <= n <= 9 -> re_digit 0 9 (String (digit_char n) r) = [(n, r)].
Proof.
  intros H. unfold re_digit. rewrite (code_digit_char n H).
  replace (48 + 0 <=? 48 + n)%Z with true by (symmetry; apply Z.leb_le; lia).
  replace (48 + n <=? 48 + 9)%Z with true by (symmetry; apply Z.leb_le; lia).
  cbn [andb]. do 2 f_equal. lia.
Qed.

Lemma re_digit2_any (a b : Z) (r : string) :
  0 <= a <= 9 -> 0 <= b <= 9 ->
  re_digit2 0 9 0 9 (String (digit_char a) (String (digit_char b) r))
  = [(10 * a + b, r)].
Proof.
  intros Ha Hb. unfold re_digit2.
  rewrite (re_digit_any a _ Ha). cbn [flat_map].
  rewrite (re_digit_any b _ Hb). reflexivity.
Qed.

Lemma re_Y_pad4 (y : Z) (r : string) :
  0 <= y <= 9999 -> re_Y (pad4 y ++ r) = [(y, r)].
Proof.
  intros H. unfold re_Y, pad4, pad2. cbn [append].
  rewrite re_digit2_any by (Z.to_euclidean_division_equations; lia).
  cbn [flat_map].
  rewrite re_digit2_any by (Z.to_euclidean_division_equations; lia).
  cbn [map app]. do 2 f_equal.
  Z.to_euclidean_division_equations. lia.
Qed.

Lemma is_digit_lower (x : ascii) : is_digit x = true -> lower x = x.
Proof.
  unfold is_digit, lower. intros H. apply andb_true_iff in H as [A B].
  apply Z.leb_le in A, B.
  replace (code x <=? 90)%Z with true by (symmetry; apply Z.leb_le; lia).
  replace (65 <=? code x)%Z with false by (symmetry; apply Z.leb_gt; lia).
  reflexivity.
Qed.

Lemma is_digit_not_space (x : ascii) : is_digit x = true -> is_space x = false.
Proof.
  unfold is_digit, is_space. intros H. apply andb_true_iff in H as [A B].
  apply Z.leb_le in A, B.
  replace (code x <=? 13)%Z with false by (symmetry; apply Z.leb_gt; lia).
  replace (code x <=? 32)%Z with false by (symmetry; apply Z.leb_gt; lia).
  replace (code x =? 133)%Z with false by (symmetry; apply Z.eqb_neq; lia).
  replace (code x =? 160)%Z with false by (symmetry; apply Z.eqb_neq; lia).
  now rewrite !andb_false_r.
Qed.

Lemma is_digit_pad2 (n : Z) (r : string) :
  0 <= n < 100 -> starts_with_digit (pad2 n ++ r) = true.
Proof.
  intros H. unfold pad2. cbn [append starts_with_digit]. unfold is_digit.
  rewrite code_digit_char by (Z.to_euclidean_division_equations; lia).
  apply andb_true_iff. split; apply Z.leb_le;
    Z.to_euclidean_division_equations; lia.
Qed.

Lemma re_then_literal_hit (c : ascii) (k : string -> matches groups) (r : string) :
  re_then (re_literal c) k (String c r) = k r.
Proof.
  unfold re_then, re_literal, re_char. rewrite Ascii.eqb_refl.
  cbn [flat_map]. apply app_nil_r.
Qed.

Lemma re_then_literal_miss (c x : ascii) (k : string -> matches groups) (r : string) :
  Ascii.eqb (lower x) (lower c) = false ->
  re_then (re_literal c) k (String x r) = [].
Proof.
  intros H. unfold re_then, re_literal, re_char. now rewrite H.
Qed.

Lemma literal_fails_on_digit (c : ascii) (k : string -> matches groups) :
  is_digit (lower c) = false -> fails_on_digit (re_then (re_literal c) k).
Proof.
  intros H [|x r] D; [discriminate|]. cbn [starts_with_digit] in D.
  apply re_then_literal_miss. rewrite (is_digit_lower x D).
  destruct (Ascii.eqb_spec x (lower c)) as [->|]; [congruence | reflexivity].
Qed.

Lemma spaces_fail_on_digit (k : string -> matches groups) :
  fails_on_digit (re_then re_spaces k).
Proof.
  intros [|x r] D; [discriminate|]. cbn [starts_with_digit] in D.
  unfold re_then. cbn [re_spaces]. now rewrite (is_digit_not_space x D).
Qed.

Lemma re_spaces_one (k : string -> matches groups) (r : string) :
  starts_with_digit r = true ->
  re_then re_spaces k (String " " r) = k r.
Proof.
  intros D. unfold re_then. cbn [re_spaces].
  replace (is_space " ") with true by reflexivity.
  destruct r as [|x r]; [discriminate|]. cbn [starts_with_digit] in D.
  cbn [re_spaces]. rewrite (is_digit_not_space x D).
  cbn [app flat_map]. apply app_nil_r.
Qed.

Lemma re_group_unfold (d : ascii) (p : string -> matches Z)
    (k : string -> matches groups) (s : string) (v : Z) (r : string)
    (rest : matches Z) :
  p s = (v, r) :: rest ->
  re_group d p k s
  = (map (tag d v) (k r)
     ++ flat_map (fun x => map (tag d (fst x)) (k (snd x))) rest)%list.
Proof.
  intros E. unfold re_group. rewrite E. cbn [flat_map].
  apply (f_equal2 (@app _)).
  - apply map_ext. now intros [g r'].
  - apply flat_map_ext. intros [v' r']. apply map_ext. now intros [g r''].
Qed.

Lemma clean_match_cons {A : Type} (l : matches A) (v : A) (r : string) :
  clean_match l v r ->
  exists rest, l = (v, r) :: rest
               /\ Forall (fun x => starts_with_digit (snd x) = true) rest.
Proof.
  intros [H F]. destruct l as [|x rest]; [discriminate|].
  injection H as ->. now exists rest.
Qed.

Lemma later_matches_fail (d : ascii) (k : string -> matches groups)
    (rest : matches Z) :
  fails_on_digit k ->
  Forall (fun x => starts_with_digit (snd x) = true) rest ->
  flat_map (fun x => map (tag d (fst x)) (k (snd x))) rest = [].
Proof.
  intros K F. induction F as [|x rest D F IH]; [reflexivity|].
  cbn [flat_map]. rewrite (K _ D), IH. reflexivity.
Qed.

Lemma re_group_exact (d : ascii) (p : string -> matches Z)
    (k : string -> matches groups) (s : string) (v : Z) (r : string) :
  clean_match (p s) v r -> fails_on_digit k ->
  re_group d p k s = map (tag d v) (k r).
Proof.
  intros C K. destruct (clean_match_cons _ _ _ C) as (rest & E & F).
  rewrite (re_group_unfold d p k s v r rest E).
  rewrite (later_matches_fail d k rest K F). apply app_nil_r.
Qed.

Lemma re_group_head (d : ascii) (p : string -> matches Z)
    (k : string -> matches groups) (s : string) (v : Z) (r : string)
    (x : groups * string) :
  clean_match (p s) v r -> hd_error (k r) = Some x ->
  hd_error (re_group d p k s) = Some (tag d v x).
Proof.
  intros C H. destruct (clean_match_cons _ _ _ C) as (rest & E & _).
  rewrite (re_group_unfold d p k s v r rest E).
  destruct (k r) as [|y l]; [discriminate|]. injection H as ->. reflexivity.
Qed.

Lemma re_Y_clean (y : Z) (r : string) :
  0 <= y <= 9999 -> clean_match (re_Y (pad4 y ++ r)) y r.
Proof.
  intros H. rewrite (re_Y_pad4 y r H). split; [reflexivity | constructor].
Qed.

Lemma layout_date_append (y m d : Z) (r : string) :
  layout_date y m d ++ r
  = pad4 y ++ String "-" (pad2 m ++ String "-" (pad2 d ++ r)).
Proof.
  unfold layout_date. rewrite !append_assoc. reflexivity.
Qed.

Lemma layout_time_append (h mi s : Z) (r : string) :
  layout_time h mi s ++ r
  = pad2 h ++ String ":" (pad2 mi ++ String ":" (pad2 s ++ r)).
Proof.
  unfold layout_time. rewrite !append_assoc. reflexivity.
Qed.

Lemma re_date_head (k : string -> matches groups) (y m d : Z) (r : string)
    (x : groups * string) :
  date_in_range y m d -> hd_error (k r) = Some x ->
  hd_error (re_date k (layout_date y m d ++ r)) = Some (date_tags y m d x).
Proof.
  intros (Hy & Hm & Hd) H. rewrite layout_date_append. unfold re_date, date_tags.
  apply re_group_head with (r := String "-" (pad2 m ++ String "-" (pad2 d ++ r)));
    [apply re_Y_clean; lia|].
  rewrite re_then_literal_hit.
  apply re_group_head with (r := String "-" (pad2 d ++ r));
    [apply re_m_clean; lia|].
  rewrite re_then_literal_hit.
  apply re_group_head with (r := r); [apply re_d_clean; lia | exact H].
Qed.

Lemma re_date_exact (k : string -> matches groups) (y m d : Z) (r : string) :
  date_in_range y m d -> fails_on_digit k ->
  re_date k (layout_date y m d ++ r) = map (date_tags y m d) (k r).
Proof.
  intros (Hy & Hm & Hd) K. rewrite layout_date_append. unfold re_date.
  rewrite (re_group_exact "Y" re_Y _ _ y
             (String "-" (pad2 m ++ String "-" (pad2 d ++ r))));
    [| apply re_Y_clean; lia | now apply literal_fails_on_digit].
  rewrite re_then_literal_hit.
  rewrite (re_group_exact "m" re_m _ _ m (String "-" (pad2 d ++ r)));
    [| apply re_m_clean; lia | now apply literal_fails_on_digit].
  rewrite re_then_literal_hit.
  rewrite (re_group_exact "d" re_d _ _ d r); [| apply re_d_clean; lia | exact K].
  rewrite !map_map. reflexivity.
Qed.

Lemma re_time_head (k : string -> matches groups) (h mi s : Z) (r : string)
    (x : groups * string) :
  time_in_range h mi s -> hd_error (k r) = Some x ->
  hd_error (re_time k (layout_time h mi s ++ r)) = Some (time_tags h mi s x).
Proof.
  intros (Hh & Hm & Hs) H. rewrite layout_time_append. unfold re_time, time_tags.
  apply re_group_head with (r := String ":" (pad2 mi ++ String ":" (pad2 s ++ r)));
    [apply re_H_clean; lia|].
  rewrite re_then_literal_hit.
  apply re_group_head with (r := String ":" (pad2 s ++ r));
    [apply re_M_clean; lia|].
  rewrite re_then_literal_hit.
  apply re_group_head with (r := r); [apply re_S_clean; lia | exact H].
Qed.

Lemma re_time_start (h mi s : Z) (r : string) :
  time_in_range h mi s -> starts_with_digit (layout_time h mi s ++ r) = true.
Proof.
  intros (Hh & _ & _). rewrite layout_time_append. apply is_digit_pad2. lia.
Qed.

(** ** [strptime] on the four formats *)

Lemma format_date_only : format_regex "%Y-%m-%d" = Some (re_date re_end).
Proof. reflexivity. Qed.

Lemma format_date_T_time :
  format_regex "%Y-%m-%dT%H:%M:%S"
  = Some (re_date (re_then (re_literal "T") (re_time re_end))).
Proof. reflexivity. Qed.

Lemma format_date_T_time_Z :
  format_regex "%Y-%m-%dT%H:%M:%SZ"
  = Some (re_date (re_then (re_literal "T")
                     (re_time (re_then (re_literal "Z") re_end)))).
Proof. reflexivity. Qed.

Lemma format_date_space_time :
  format_regex "%Y-%m-%d %H:%M:%S"
  = Some (re_date (re_then re_spaces (re_time re_end))).
Proof. reflexivity. Qed.

Lemma strptime_found (format date_string : string)
    (re : string -> matches groups) (found : groups) :
  format_regex format = Some re ->
  hd_error (re date_string) = Some (found, "") ->
  strptime date_string format
  = if _check_date_fields (group "Y" 1900 found) (group "m" 1 found) (group "d" 1 found)
       && _check_time_fields (group "H" 0 found) (group "M" 0 found)
                             (group "S" 0 found) 0
    then Some (mk_datetime (group "Y" 1900 found) (group "m" 1 found)
                 (group "d" 1 found) (group "H" 0 found) (group "M" 0 found)
                 (group "S" 0 found) 0 None)
    else None.
Proof.
  intros F H. unfold strptime. rewrite F.
  destruct (re date_string) as [|[g rest] l]; [discriminate|].
  injection H as -> ->. reflexivity.
Qed.

Lemma strptime_unconverted (format date_string : string)
    (re : string -> matches groups) (found : groups) (c : ascii) (rest : string) :
  format_regex format = Some re ->
  hd_error (re date_string) = Some (found, String c rest) ->
  strptime date_string format = None.
Proof.
  intros F H. unfold strptime. rewrite F.
  destruct (re date_string) as [|[g r] l]; [discriminate|].
  injection H as -> ->. reflexivity.
Qed.

Lemma strptime_no_match (format date_string : string)
    (re : string -> matches groups) :
  format_regex format = Some re ->
  re date_string = [] ->
  strptime date_string format = None.
Proof.
  intros F H. unfold strptime. now rewrite F, H.
Qed.

Lemma days_in_month_le_31 (y m : Z) : 1 <= m <= 12 -> _days_in_month y m <= 31.
Proof.
  intros H. unfold _days_in_month.
  destruct ((m =? 2)%Z && _is_leap y); [lia|].
  assert (C : m = 1 \/ m = 2 \/ m = 3 \/ m = 4 \/ m = 5 \/ m = 6 \/ m = 7
              \/ m = 8 \/ m = 9 \/ m = 10 \/ m = 11 \/ m = 12) by lia.
  repeat destruct C as [->|C]; try subst m; vm_compute; discriminate.
Qed.

Lemma check_date_fields_range (y m d : Z) :
  _check_date_fields y m d = true ->
  1 <= y <= 9999 /\ 1 <= m <= 12 /\ 1 <= d <= _days_in_month y m.
Proof.
  unfold _check_date_fields, MINYEAR, MAXYEAR. intros H.
  repeat (apply andb_true_iff in H as [H ?]).
  repeat match goal with
         | E : (_ <=? _)%Z = true |- _ => apply Z.leb_le in E
         end.
  lia.
Qed.

Lemma check_time_fields_range (h mi s us : Z) :
  _check_time_fields h mi s us = true ->
  0 <= h <= 23 /\ 0 <= mi <= 59 /\ 0 <= s <= 59 /\ 0 <= us <= 999999.
Proof.
  unfold _check_time_fields. intros H.
  repeat (apply andb_true_iff in H as [H ?]).
  repeat match goal with
         | E : (_ <=? _)%Z = true |- _ => apply Z.leb_le in E
         end.
  lia.
Qed.

Section Layouts.

Variables y m d h mi s : Z.
Hypothesis date_ok : _check_date_fields y m d = true.
Hypothesis time_ok : _check_time_fields h mi s 0 = true.

Lemma layout_date_in_range : date_in_range y m d.
Proof.
  destruct (check_date_fields_range _ _ _ date_ok) as (Hy & Hm & Hd).
  pose proof (days_in_month_le_31 y m Hm). unfold date_in_range. lia.
Qed.

Lemma layout_time_in_range : time_in_range h mi s.
Proof.
  destruct (check_time_fields_range _ _ _ _ time_ok) as (Hh & Hm & Hs & _).
  unfold time_in_range. lia.
Qed.

Lemma strptime_built_date (x : string) (format : string)
    (re : string -> matches groups) :
  format_regex format = Some re ->
  hd_error (re x) = Some (date_tags y m d ([], "")) ->
  strptime x format = Some (mk_datetime y m d 0 0 0 0 None).
Proof.
  intros F H. rewrite (strptime_found _ _ _ _ F H).
  cbv [date_tags tag fst snd group Ascii.eqb Bool.eqb].
  rewrite date_ok. reflexivity.
Qed.

Lemma strptime_built_moment (x : string) (format : string)
    (re : string -> matches groups) :
  format_regex format = Some re ->
  hd_error (re x) = Some (date_tags y m d (time_tags h mi s ([], ""))) ->
  strptime x format = Some (mk_datetime y m d h mi s 0 None).
Proof.
  intros F H. rewrite (strptime_found _ _ _ _ F H).
  cbv [date_tags time_tags tag fst snd group Ascii.eqb Bool.eqb].
  rewrite date_ok, time_ok. reflexivity.
Qed.

(** The date-only layout is read by the first format. *)
Lemma strptime_layout_date :
  strptime (layout_date y m d) "%Y-%m-%d" = Some (mk_datetime y m d 0 0 0 0 None).
Proof.
  apply (strptime_built_date _ _ _ format_date_only).
  rewrite <- (append_empty_r (layout_date y m d)).
  apply re_date_head; [apply layout_date_in_range | reflexivity].
Qed.

(** A text that goes on behind the date is refused by the first format. *)
Lemma strptime_date_then_more (c : ascii) (r : string) :
  strptime (layout_date y m d ++ String c r) "%Y-%m-%d" = None.
Proof.
  apply (strptime_unconverted _ _ _ (fst (date_tags y m d ([], String c r))) c r
           format_date_only).
  apply re_date_head; [apply layout_date_in_range | reflexivity].
Qed.

Lemma strptime_layout_T :
  strptime (layout_T y m d h mi s) "%Y-%m-%dT%H:%M:%S" = Some (mk_datetime y m d h mi s 0 None).
Proof.
  apply (strptime_built_moment _ _ _ format_date_T_time).
  unfold layout_T. apply re_date_head; [apply layout_date_in_range|].
  cbn [append]. rewrite re_then_literal_hit.
  rewrite <- (append_empty_r (layout_time h mi s)).
  apply re_time_head; [apply layout_time_in_range | reflexivity].
Qed.

Lemma strptime_layout_TZ_short :
  strptime (layout_TZ y m d h mi s) "%Y-%m-%dT%H:%M:%S" = None.
Proof.
  apply (strptime_unconverted _ _ _
           (fst (date_tags y m d (time_tags h mi s ([], "Z")))) "Z" ""
           format_date_T_time).
  unfold layout_TZ. apply re_date_head; [apply layout_date_in_range|].
  cbn [append]. rewrite re_then_literal_hit.
  apply re_time_head; [apply layout_time_in_range | reflexivity].
Qed.

Lemma strptime_layout_TZ :
  strptime (layout_TZ y m d h mi s) "%Y-%m-%dT%H:%M:%SZ" = Some (mk_datetime y m d h mi s 0 None).
Proof.
  apply (strptime_built_moment _ _ _ format_date_T_time_Z).
  unfold layout_TZ. apply re_date_head; [apply layout_date_in_range|].
  cbn [append]. rewrite re_then_literal_hit.
  apply re_time_head; [apply layout_time_in_range | reflexivity].
Qed.

Lemma strptime_layout_space_T (k : string -> matches groups) (format : string) :
  format_regex format = Some (re_date (re_then (re_literal "T") k)) ->
  strptime (layout_space y m d h mi s) format = None.
Proof.
  intros F. apply (strptime_no_match _ _ _ F).
  unfold layout_space.
  rewrite re_date_exact;
    [| apply layout_date_in_range | now apply literal_fails_on_digit].
  cbn [append]. rewrite re_then_literal_miss by reflexivity. reflexivity.
Qed.

Lemma strptime_layout_space :
  strptime (layout_space y m d h mi s) "%Y-%m-%d %H:%M:%S" = Some (mk_datetime y m d h mi s 0 None).
Proof.
  apply (strptime_built_moment _ _ _ format_date_space_time).
  unfold layout_space. apply re_date_head; [apply layout_date_in_range|].
  cbn [append].
  rewrite re_spaces_one
    by (rewrite <- (append_empty_r (layout_time h mi s));
        apply re_time_start, layout_time_in_range).
  rewrite <- (append_empty_r (layout_time h mi s)).
  apply re_time_head; [apply layout_time_in_range | reflexivity].
Qed.

Lemma strptime_layout_T_date_only :
  strptime (layout_T y m d h mi s) "%Y-%m-%d" = None.
Proof. exact (strptime_date_then_more "T" (layout_time h mi s)). Qed.

Lemma strptime_layout_TZ_date_only :
  strptime (layout_TZ y m d h mi s) "%Y-%m-%d" = None.
Proof. exact (strptime_date_then_more "T" (layout_time h mi s ++ "Z")). Qed.

Lemma strptime_layout_space_date_only :
  strptime (layout_space y m d h mi s) "%Y-%m-%d" = None.
Proof. exact (strptime_date_then_more " " (layout_time h mi s)). Qed.

End Layouts.

(** ** [parse_date] *)

(** Every successful parse is tagged with [timezone.utc]. *)
Lemma strptime_naive (date_string format : string) (dt : datetime) :
  strptime date_string format = Some dt -> dt_tzinfo dt = None.
Proof.
  unfold strptime.
  destruct (format_regex format) as [re|]; [|discriminate].
  destruct (re date_string) as [|[found rest] l]; [discriminate|].
  destruct (negb (String.eqb rest "")); [discriminate|].
  destruct (_ && _); [|discriminate].
  intros H. injection H as <-. reflexivity.
Qed.

Lemma try_formats_utc (date_string : string) (formats : list string) (dt : datetime) :
  try_formats date_string formats = Ok dt -> dt_tzinfo dt = Some timezone_utc.
Proof.
  induction formats as [|fmt later IH]; cbn [try_formats]; [discriminate|].
  destruct (strptime date_string fmt) as [dt0|] eqn:E; [|exact IH].
  rewrite (strptime_naive _ _ _ E). intros H. injection H as <-. reflexivity.
Qed.

(** The formats are tried in the order of the list and the first that
    reads the text decides; when none does, the error carries the text. *)
Lemma try_formats_first (date_string : string) (formats : list string) :
  (exists before fmt after dt,
     formats = (before ++ fmt :: after)%list
     /\ Forall (fun f => strptime date_string f = None) before
     /\ strptime date_string fmt = Some dt
     /\ try_formats date_string formats = Ok (replace_tzinfo dt (Some timezone_utc)))
  \/ (Forall (fun f => strptime date_string f = None) formats
      /\ try_formats date_string formats
         = Raise (ValueError (parse_error_message date_string))).
Proof.
  induction formats as [|fmt later IH]; cbn [try_formats].
  - right. split; [constructor | reflexivity].
  - destruct (strptime date_string fmt) as [dt|] eqn:E.
    + left. exists [], fmt, later, dt.
      rewrite (strptime_naive _ _ _ E).
      split; [reflexivity|]. split; [constructor|]. split; [exact E | reflexivity].
    + destruct IH as [(before & f & after & dt & -> & B & S & T)|[A T]].
      * left. exists (fmt :: before), f, after, dt.
        repeat split; try assumption. now constructor.
      * right. split; [now constructor | exact T].
Qed.

(** C7. Texts in the accepted layouts that denote the same calendar moment
    are parsed to the same UTC instant: the layouts with "T", with "T" and
    "Z", and with a space give the instant of their fields, the date-only
    layout gives midnight of its day, and so "2024-01-01" and
    "2024-01-01T00:00:00Z" both give 2024-01-01T00:00:00 UTC. *)
Theorem parse_date_layouts_agree (y m d h mi s : Z) :
  _check_date_fields y m d = true ->
  _check_time_fields h mi s 0 = true ->
  parse_date (layout_T y m d h mi s)
  = Ok (mk_datetime y m d h mi s 0 (Some timezone_utc))
  /\ parse_date (layout_TZ y m d h mi s)
     = Ok (mk_datetime y m d h mi s 0 (Some timezone_utc))
  /\ parse_date (layout_space y m d h mi s)
     = Ok (mk_datetime y m d h mi s 0 (Some timezone_utc))
  /\ parse_date (layout_date y m d)
     = Ok (mk_datetime y m d 0 0 0 0 (Some timezone_utc))
  /\ parse_date (layout_date y m d) = parse_date (layout_TZ y m d 0 0 0)
  /\ parse_date "2024-01-01" = parse_date "2024-01-01T00:00:00Z"
  /\ parse_date "2024-01-01T00:00:00Z"
     = Ok (mk_datetime 2024 1 1 0 0 0 0 (Some timezone_utc)).
Proof.
  intros D T.
  assert (TZ : forall h' mi' s',
             _check_time_fields h' mi' s' 0 = true ->
             parse_date (layout_TZ y m d h' mi' s')
             = Ok (mk_datetime y m d h' mi' s' 0 (Some timezone_utc))).
  { intros h' mi' s' T'. unfold parse_date, date_formats. cbn [try_formats].
    rewrite (strptime_layout_TZ_date_only y m d h' mi' s' D).
    rewrite (strptime_layout_TZ_short y m d h' mi' s' D T').
    rewrite (strptime_layout_TZ y m d h' mi' s' D T'). reflexivity. }
  assert (DO : parse_date (layout_date y m d)
               = Ok (mk_datetime y m d 0 0 0 0 (Some timezone_utc))).
  { unfold parse_date, date_formats. cbn [try_formats].
    rewrite (strptime_layout_date y m d D). reflexivity. }
  split.
  { unfold parse_date, date_formats. cbn [try_formats].
    rewrite (strptime_layout_T_date_only y m d h mi s D).
    rewrite (strptime_layout_T y m d h mi s D T). reflexivity. }
  split; [exact (TZ h mi s T)|].
  split.
  { unfold parse_date, date_formats. cbn [try_formats].
    rewrite (strptime_layout_space_date_only y m d h mi s D).
    rewrite (strptime_layout_space_T y m d h mi s D _ _ format_date_T_time).
    rewrite (strptime_layout_space_T y m d h mi s D _ _ format_date_T_time_Z).
    rewrite (strptime_layout_space y m d h mi s D T). reflexivity. }
  split; [exact DO|].
  split; [rewrite DO; symmetry; apply TZ; reflexivity|].
  split; vm_compute; reflexivity.
Qed.

Lemma parse_date_layouts_agree_witness :
  parse_date "2024-02-29T23:59:59" = Ok (mk_datetime 2024 2 29 23 59 59 0 (Some timezone_utc))
  /\ parse_date "2024-02-29T23:59:59Z"
     = Ok (mk_datetime 2024 2 29 23 59 59 0 (Some timezone_utc))
  /\ parse_date "2024-02-29 23:59:59"
     = Ok (mk_datetime 2024 2 29 23 59 59 0 (Some timezone_utc))
  /\ parse_date "2024-02-29" = Ok (mk_datetime 2024 2 29 0 0 0 0 (Some timezone_utc)).
Proof.
  destruct (parse_date_layouts_agree 2024 2 29 23 59 59 eq_refl eq_refl)
    as (A & B & C & D & _).
  exact (conj A (conj B (conj C D))).
Defined.

(** C5 fails on the code in its last part: the error raised when no layout
    matches lists three layouts and leaves out the fourth one, date, space,
    time, although a text in that layout is accepted. *)
Theorem parse_error_lists_three_layouts :
  parse_date "01/02/2024"
  = Raise (ValueError
      "Unable to parse date: 01/02/2024. Supported formats: YYYY-MM-DD, YYYY-MM-DDTHH:MM:SS, YYYY-MM-DDTHH:MM:SSZ")
  /\ List.length date_formats = 4%nat
  /\ str_contains "YYYY-MM-DD HH:MM:SS" (parse_error_message "01/02/2024") = false
  /\ parse_date "2024-01-02 03:04:05"
     = Ok (mk_datetime 2024 1 2 3 4 5 0 (Some timezone_utc))
  /\ strptime "2024-01-02 03:04:05" "%Y-%m-%d" = None
  /\ strptime "2024-01-02 03:04:05" "%Y-%m-%dT%H:%M:%S" = None
  /\ strptime "2024-01-02 03:04:05" "%Y-%m-%dT%H:%M:%SZ" = None.
Proof. repeat split; vm_compute; reflexivity. Qed.

(** ** Ordinals and calendar dates *)

Lemma div_mod_unique (n d q r : Z) :
  0 <= r < d -> n = d * q + r -> n / d = q /\ n mod d = r.
Proof.
  intros R E. split; symmetry.
  - apply (Z.div_unique n d q r); [left; exact R | exact E].
  - apply (Z.mod_unique n d q r); [left; exact R | exact E].
Qed.

Lemma ord2ymd_unfold (n0 : Z) :
  _ord2ymd n0 =
  let n := n0 - 1 in
  let n400 := n / 146097 in
  let n := n mod 146097 in
  let n100 := n / 36524 in
  let n := n mod 36524 in
  let n4 := n / 1461 in
  let n := n mod 1461 in
  let n1 := n / 365 in
  let n := n mod 365 in
  let year := n400 * 400 + 1 + (n100 * 100 + n4 * 4 + n1) in
  if (n1 =? 4)%Z || (n100 =? 4)%Z then (year - 1, 12, 31)
  else
    let '(month, day) :=
      month_and_day ((n1 =? 3)%Z && (negb (n4 =? 24)%Z || (n100 =? 3)%Z)) n in
    (year, month, day).
Proof.
  unfold _ord2ymd, month_and_day, _DI400Y, _DI100Y, _DI4Y. cbv zeta.
  destruct (_ || _); [reflexivity|].
  destruct (_ <? _)%Z; reflexivity.
Qed.

Lemma all_days_checked_true : all_days_checked = true.
Proof. vm_compute. reflexivity. Qed.

Lemma Z_range_In (lo : Z) (len : nat) (z : Z) :
  lo <= z < lo + Z.of_nat len -> In z (Z_range lo len).
Proof.
  intros H. unfold Z_range. apply in_map_iff.
  exists (Z.to_nat (z - lo)). split; [lia|].
  apply in_seq. lia.
Qed.

Lemma day_checked_valid (leapyear : bool) (m d : Z) :
  1 <= m <= 12 -> 1 <= d <= month_length leapyear m ->
  day_checked leapyear m d = true.
Proof.
  intros Hm Hd.
  pose proof all_days_checked_true as A. unfold all_days_checked in A.
  rewrite forallb_forall in A.
  assert (L : In leapyear [true; false]) by (destruct leapyear; simpl; tauto).
  specialize (A _ L). rewrite forallb_forall in A.
  specialize (A m (Z_range_In 1 12 m ltac:(lia))). rewrite forallb_forall in A.
  assert (D31 : d <= 31).
  { assert (month_length leapyear m <= 31); [|lia].
    unfold month_length. destruct (_ && _); [lia|].
    assert (C : m = 1 \/ m = 2 \/ m = 3 \/ m = 4 \/ m = 5 \/ m = 6 \/ m = 7
                \/ m = 8 \/ m = 9 \/ m = 10 \/ m = 11 \/ m = 12) by lia.
    repeat destruct C as [->|C]; try subst m; vm_compute; discriminate. }
  specialize (A d (Z_range_In 1 31 d ltac:(lia))).
  apply orb_true_iff in A as [A|A]; [|exact A].
  apply negb_true_iff, Z.leb_gt in A. lia.
Qed.

(** The year in terms of its position in the cycles of 400, 100 and 4
    years. *)
Lemma year_decomposition (y : Z) :
  1 <= y ->
  exists a b c e,
    0 <= a /\ 0 <= b <= 3 /\ 0 <= c <= 24 /\ 0 <= e <= 3
    /\ y = 400 * a + 100 * b + 4 * c + e + 1
    /\ _days_before_year y = 146097 * a + 36524 * b + 1461 * c + 365 * e
    /\ _is_leap y = (e =? 3)%Z && (negb (c =? 24)%Z || (b =? 3)%Z).
Proof.
  intros H.
  exists ((y - 1) / 400), ((y - 1) mod 400 / 100), ((y - 1) mod 100 / 4), ((y - 1) mod 4).
  repeat split; try (Z.to_euclidean_division_equations; lia).
  - unfold _days_before_year. cbv zeta. Z.to_euclidean_division_equations. lia.
  - unfold _is_leap.
    destruct (Z.eqb_spec (y mod 4) 0), (Z.eqb_spec (y mod 100) 0),
             (Z.eqb_spec (y mod 400) 0), (Z.eqb_spec ((y - 1) mod 4) 3),
             (Z.eqb_spec ((y - 1) mod 100 / 4) 24),
             (Z.eqb_spec ((y - 1) mod 400 / 100) 3);
      try reflexivity; exfalso; Z.to_euclidean_division_equations; lia.
Qed.

(** The four divisions of [_ord2ymd] on a day that is not the 366th of its
    year. *)
Lemma ord2ymd_within_year (a b c e k : Z) :
  0 <= a -> 0 <= b <= 3 -> 0 <= c <= 24 -> 0 <= e <= 3 -> 0 <= k <= 364 ->
  _ord2ymd (146097 * a + 36524 * b + 1461 * c + 365 * e + k + 1)
  = let '(month, day) :=
      month_and_day ((e =? 3)%Z && (negb (c =? 24)%Z || (b =? 3)%Z)) k in
    (400 * a + 100 * b + 4 * c + e + 1, month, day).
Proof.
  intros Ha Hb Hc He Hk. rewrite ord2ymd_unfold. cbv zeta.
  replace (146097 * a + 36524 * b + 1461 * c + 365 * e + k + 1 - 1)
    with (146097 * a + (36524 * b + 1461 * c + 365 * e + k)) by lia.
  destruct (div_mod_unique (146097 * a + (36524 * b + 1461 * c + 365 * e + k))
              146097 a (36524 * b + 1461 * c + 365 * e + k)) as [D1 M1]; try lia.
  rewrite D1, M1.
  destruct (div_mod_unique (36524 * b + 1461 * c + 365 * e + k)
              36524 b (1461 * c + 365 * e + k)) as [D2 M2]; try lia.
  rewrite D2, M2.
  destruct (div_mod_unique (1461 * c + 365 * e + k) 1461 c (365 * e + k))
    as [D3 M3]; try lia.
  rewrite D3, M3.
  destruct (div_mod_unique (365 * e + k) 365 e k) as [D4 M4]; try lia.
  rewrite D4, M4.
  replace (e =? 4)%Z with false by (symmetry; apply Z.eqb_neq; lia).
  replace (b =? 4)%Z with false by (symmetry; apply Z.eqb_neq; lia).
  cbn [orb].
  destruct (month_and_day _ k) as [month day].
  replace (a * 400 + 1 + (b * 100 + c * 4 + e))
    with (400 * a + 100 * b + 4 * c + e + 1) by lia.
  reflexivity.
Qed.

(** The same on 31 December of a leap year. *)
Lemma ord2ymd_leap_year_end (a b c : Z) :
  0 <= a -> 0 <= b <= 3 -> 0 <= c <= 24 -> (c <> 24 \/ b = 3) ->
  _ord2ymd (146097 * a + 36524 * b + 1461 * c + 365 * 3 + 365 + 1)
  = (400 * a + 100 * b + 4 * c + 3 + 1, 12, 31).
Proof.
  intros Ha Hb Hc L. rewrite ord2ymd_unfold. cbv zeta.
  replace (146097 * a + 36524 * b + 1461 * c + 365 * 3 + 365 + 1 - 1)
    with (146097 * a + (36524 * b + 1461 * c + 1460)) by lia.
  destruct (div_mod_unique (146097 * a + (36524 * b + 1461 * c + 1460))
              146097 a (36524 * b + 1461 * c + 1460)) as [D1 M1]; try lia.
  rewrite D1, M1.
  destruct (Z.eq_dec c 24) as [->|N].
  - assert (b = 3) by lia. subst b.
    change (36524 * 3 + 1461 * 24 + 1460) with 146096.
    change (146096 / 36524) with 4. change (146096 mod 36524) with 0.
    change (0 / 1461) with 0. change (0 mod 1461) with 0.
    change (0 / 365) with 0.
    change ((0 =? 4)%Z || (4 =? 4)%Z) with true. cbv iota.
    f_equal. f_equal. lia.
  - destruct (div_mod_unique (36524 * b + 1461 * c + 1460)
                36524 b (1461 * c + 1460)) as [D2 M2]; try lia.
    rewrite D2, M2.
    destruct (div_mod_unique (1461 * c + 1460) 1461 c 1460) as [D3 M3]; try lia.
    rewrite D3, M3.
    change (1460 / 365) with 4. change (4 =? 4)%Z with true. cbn [orb].
    f_equal. f_equal. lia.
Qed.

Lemma ymd2ord_offset (y m d : Z) :
  _ymd2ord y m d = _days_before_year y + day_offset (_is_leap y) m d + 1.
Proof.
  unfold _ymd2ord, _days_before_month, day_offset. lia.
Qed.

Lemma days_in_month_length (y m : Z) :
  _days_in_month y m = month_length (_is_leap y) m.
Proof. reflexivity. Qed.

(** [_ord2ymd] undoes [_ymd2ord] on every date of the calendar. *)
Lemma ord2ymd_ymd2ord (y m d : Z) :
  _check_date_fields y m d = true ->
  _ord2ymd (_ymd2ord y m d) = (y, m, d).
Proof.
  intros V. destruct (check_date_fields_range _ _ _ V) as (Hy & Hm & Hd).
  rewrite days_in_month_length in Hd.
  pose proof (day_checked_valid (_is_leap y) m d Hm Hd) as C.
  unfold day_checked in C. cbv zeta in C.
  repeat (apply andb_true_iff in C as [C ?]).
  destruct (year_decomposition y ltac:(lia)) as (a & b & c & e & Ha & Hb & Hc & He & Ey & Ed & El).
  rewrite ymd2ord_offset, Ed.
  set (k := day_offset (_is_leap y) m d) in *.
  apply Z.leb_le in C.
  match goal with H : (k <=? _)%Z = true |- _ => apply Z.leb_le in H end.
  destruct (month_and_day (_is_leap y) k) as [m' d'] eqn:MD.
  match goal with H : (_ =? m)%Z && (_ =? d)%Z = true |- _ =>
    apply andb_true_iff in H as [Em Edd];
    apply Z.eqb_eq in Em; apply Z.eqb_eq in Edd end.
  subst m' d'.
  destruct (Z.eq_dec k 365) as [K|K].
  - match goal with H : negb (k =? 365)%Z || _ = true |- _ =>
      rewrite K in H; cbn [Z.eqb Pos.eqb negb orb] in H;
      apply andb_true_iff in H as [E12 E31];
      apply Z.eqb_eq in E12; apply Z.eqb_eq in E31 end.
    assert (Lp : _is_leap y = true).
    { destruct (_is_leap y); [reflexivity|]. cbn [bool_to_Z] in *. lia. }
    rewrite El in Lp. apply andb_true_iff in Lp as [L1 L2].
    apply Z.eqb_eq in L1. subst e.
    assert (Lc : c <> 24 \/ b = 3).
    { apply orb_true_iff in L2 as [L2|L2].
      - left. apply negb_true_iff, Z.eqb_neq in L2. exact L2.
      - right. now apply Z.eqb_eq. }
    rewrite K, (ord2ymd_leap_year_end a b c Ha Hb Hc Lc).
    replace (400 * a + 100 * b + 4 * c + 3 + 1) with y by lia.
    now rewrite E12, E31.
  - assert (k <= 364) by (destruct (_is_leap y); cbn [bool_to_Z] in *; lia).
    rewrite ord2ymd_within_year by lia.
    rewrite <- El, MD.
    replace (400 * a + 100 * b + 4 * c + e + 1) with y by lia. reflexivity.
Qed.

Lemma ymd2ord_range (y m d : Z) :
  _check_date_fields y m d = true ->
  1 <= _ymd2ord y m d <= _MAXORDINAL.
Proof.
  intros V. destruct (check_date_fields_range _ _ _ V) as (Hy & Hm & Hd).
  rewrite days_in_month_length in Hd.
  pose proof (day_checked_valid (_is_leap y) m d Hm Hd) as C.
  unfold day_checked in C. cbv zeta in C.
  repeat (apply andb_true_iff in C as [C ?]).
  apply Z.leb_le in C.
  match goal with H : (_ <=? _)%Z = true |- _ => apply Z.leb_le in H end.
  rewrite ymd2ord_offset. unfold _MAXORDINAL.
  set (k := day_offset (_is_leap y) m d) in *.
  assert (B : 0 <= _days_before_year y <= 3651694
              /\ (y <= 9998 -> _days_before_year y <= 3651329)).
  { unfold _days_before_year. cbv zeta. Z.to_euclidean_division_equations. lia. }
  assert (L : y = 9999 -> _is_leap y = false) by (intros ->; reflexivity).
  destruct (Z.eq_dec y 9999) as [E|E].
  - rewrite (L E) in *. cbn [bool_to_Z] in *. lia.
  - destruct (_is_leap y); cbn [bool_to_Z] in *; lia.
Qed.

(** ** The filter literal *)

(** Microseconds from the start of ordinal day 0 to the wall-clock reading
    of [dt]. *)
Lemma datetime_add_day (dt : datetime) (other y m d : Z) :
  _check_date_fields y m d = true ->
  _ymd2ord y m d * US_PER_DAY
  <= toordinal dt * US_PER_DAY
     + (dt_hour dt * 3600 + dt_minute dt * 60 + dt_second dt) * US_PER_SECOND
     + dt_microsecond dt + other
  < (_ymd2ord y m d + 1) * US_PER_DAY ->
  exists h mi s us,
    datetime_add dt other = Ok (mk_datetime y m d h mi s us (dt_tzinfo dt))
    /\ (h * 3600 + mi * 60 + s) * US_PER_SECOND + us
       = toordinal dt * US_PER_DAY
         + (dt_hour dt * 3600 + dt_minute dt * 60 + dt_second dt) * US_PER_SECOND
         + dt_microsecond dt + other
         - _ymd2ord y m d * US_PER_DAY.
Proof.
  intros V B. unfold datetime_add. cbv zeta.
  set (delta := toordinal dt * US_PER_DAY + _ + _ + other) in *.
  pose proof (ymd2ord_range y m d V) as R.
  set (o := _ymd2ord y m d) in *.
  destruct (div_mod_unique delta US_PER_DAY o (delta - o * US_PER_DAY)) as [D M];
    [lia | lia |].
  rewrite D, M.
  replace ((0 <? o)%Z && (o <=? _MAXORDINAL)%Z) with true
    by (symmetry; apply andb_true_iff; split; [apply Z.ltb_lt | apply Z.leb_le]; lia).
  subst o. rewrite (ord2ymd_ymd2ord y m d V).
  eexists _, _, _, _. split; [reflexivity|].
  unfold US_PER_DAY, US_PER_SECOND in *.
  Z.to_euclidean_division_equations. lia.
Qed.

(** The wall-clock reading of a valid [datetime] lies within its own day. *)
Lemma time_of_day_range (dt : datetime) :
  valid_datetime dt = true ->
  0 <= (dt_hour dt * 3600 + dt_minute dt * 60 + dt_second dt) * US_PER_SECOND
       + dt_microsecond dt
  < US_PER_DAY.
Proof.
  unfold valid_datetime. intros V. apply andb_true_iff in V as [_ T].
  apply check_time_fields_range in T. unfold US_PER_DAY, US_PER_SECOND. lia.
Qed.

Lemma same_ordinal_same_date (y1 m1 d1 y2 m2 d2 : Z) :
  _check_date_fields y1 m1 d1 = true ->
  _check_date_fields y2 m2 d2 = true ->
  _ymd2ord y1 m1 d1 = _ymd2ord y2 m2 d2 ->
  (y1, m1, d1) = (y2, m2, d2).
Proof.
  intros V1 V2 E.
  rewrite <- (ord2ymd_ymd2ord _ _ _ V1), <- (ord2ymd_ymd2ord _ _ _ V2).
  now rewrite E.
Qed.

Lemma all_years_checked :
  forallb year_checked (Z_range 1000 (Z.to_nat 9000)) = true.
Proof. vm_compute. reflexivity. Qed.

(** From the year 1000 on the plain decimal number has four digits. *)
Lemma decimal_four_digits (y : Z) : 1000 <= y <= 9999 -> decimal y = pad4 y.
Proof.
  intros H. pose proof all_years_checked as A.
  rewrite forallb_forall in A. apply String.eqb_eq. apply A.
  apply Z_range_In. rewrite Z2Nat.id; lia.
Qed.

Lemma day_literal_four_digits (y m d : Z) :
  1000 <= y <= 9999 -> day_literal y m d = date_literal y m d.
Proof.
  intros H. unfold day_literal, date_literal. now rewrite (decimal_four_digits y H).
Qed.

(** The cutoff that [parse_date] returns is formatted by its own fields,
    without any conversion. *)
Lemma cutoff_filter_literal (date_string : string) (dt : datetime) :
  parse_date date_string = Ok dt ->
  format_date_for_api dt
  = Ok (day_literal (dt_year dt) (dt_month dt) (dt_day dt)).
Proof.
  intros P. unfold format_date_for_api.
  rewrite (try_formats_utc _ _ _ P). cbn [astimezone_utc bind].
  unfold strftime_Y_m_d, day_literal. now rewrite !append_assoc.
Qed.

(** C6, as amended. An aware instant whose UTC moment falls in a day
    [y-m-d] of the calendar, with a year of four digits, is brought to UTC
    first, when its zone is another one, and the literal is
    date(YYYY-MM-DD) for that UTC calendar day, whatever the time of day
    and the offset of the instant. *)
Theorem format_date_for_api_utc_day (dt : datetime) (tz : tzinfo) (y m d : Z) :
  valid_datetime dt = true ->
  dt_tzinfo dt = Some tz ->
  _check_date_fields y m d = true ->
  1000 <= y ->
  _ymd2ord y m d * US_PER_DAY <= utc_microseconds dt tz
                               < (_ymd2ord y m d + 1) * US_PER_DAY ->
  format_date_for_api dt = Ok (date_literal y m d).
Proof.
  intros V A D Y B.
  rewrite <- (day_literal_four_digits y m d)
    by (pose proof (check_date_fields_range y m d D); lia).
  clear Y. unfold format_date_for_api. rewrite A. clear A.
  pose proof (time_of_day_range dt V) as T.
  unfold utc_microseconds in B.
  destruct tz as [|off]; cbn [astimezone_utc utcoffset bind] in *.
  - assert (E : (dt_year dt, dt_month dt, dt_day dt) = (y, m, d)).
    { apply same_ordinal_same_date; [|exact D|].
      - unfold valid_datetime in V. now apply andb_true_iff in V as [V _].
      - fold (toordinal dt). unfold US_PER_DAY in *. nia. }
    injection E as Ey Em Ed.
    unfold strftime_Y_m_d, day_literal. rewrite Ey, Em, Ed.
    now rewrite !append_assoc.
  - destruct (datetime_add_day dt (- off) y m d D) as (h & mi & s & us & A & S);
      [lia|].
    rewrite A. cbn [bind].
    destruct (datetime_add_day
                (replace_tzinfo (mk_datetime y m d h mi s us (dt_tzinfo dt))
                                (Some timezone_utc)) 0 y m d D)
      as (h' & mi' & s' & us' & A' & _).
    { unfold replace_tzinfo, toordinal.
      cbn [dt_year dt_month dt_day dt_hour dt_minute dt_second dt_microsecond].
      lia. }
    rewrite A'. cbn [bind]. unfold strftime_Y_m_d, day_literal.
    cbn [dt_year dt_month dt_day]. now rewrite !append_assoc.
Qed.

Lemma format_date_for_api_utc_day_witness :
  format_date_for_api
    (mk_datetime 2024 6 15 23 59 59 0 (Some (timezone (5 * 3600 * US_PER_SECOND))))
  = Ok "date(2024-06-15)"
  /\ format_date_for_api
       (mk_datetime 2024 6 15 2 30 0 0 (Some (timezone (5 * 3600 * US_PER_SECOND))))
     = Ok "date(2024-06-14)".
Proof.
  split.
  - apply (format_date_for_api_utc_day _ (timezone (5 * 3600 * US_PER_SECOND)) 2024 6 15);
      [reflexivity | reflexivity | reflexivity | lia
      | vm_compute; split; [discriminate | reflexivity]].
  - apply (format_date_for_api_utc_day _ (timezone (5 * 3600 * US_PER_SECOND)) 2024 6 14);
      [reflexivity | reflexivity | reflexivity | lia
      | vm_compute; split; [discriminate | reflexivity]].
Defined.

(** C6, the claim as written fails at both ends.  An instant of the year 5
    is formatted with a year of one digit, not as date(YYYY-MM-DD); and an
    instant of the first day of the calendar in a zone east of UTC has no
    UTC calendar date that [datetime] can hold, so the conversion raises
    instead of giving a literal. *)
Lemma format_date_for_api_not_every_instant :
  format_date_for_api (mk_datetime 5 6 6 0 0 0 0 (Some timezone_utc))
  = Ok "date(5-06-06)"
  /\ format_date_for_api (mk_datetime 5 6 6 0 0 0 0 (Some timezone_utc))
     <> Ok (date_literal 5 6 6)
  /\ valid_datetime (mk_datetime 1 1 1 0 0 0 0 (Some (timezone (5 * 3600 * US_PER_SECOND))))
     = true
  /\ format_date_for_api
       (mk_datetime 1 1 1 0 0 0 0 (Some (timezone (5 * 3600 * US_PER_SECOND))))
     = Raise OverflowError.
Proof.
  assert (E : format_date_for_api (mk_datetime 5 6 6 0 0 0 0 (Some timezone_utc))
              = Ok "date(5-06-06)") by (vm_compute; reflexivity).
  split; [exact E|]. split.
  - rewrite E. vm_compute. discriminate.
  - split; vm_compute; reflexivity.
Qed.


(** ** Worked examples *)

Example filenames_main_context :
  generate_output_filenames "abc-123" "2024-01-01" None
  = ("abc-123_new_dependencies_20240101.json",
     "abc-123_new_dependencies_20240101.csv").
Proof. reflexivity. Qed.

Example filenames_with_offset :
  generate_output_filenames "abc-123" "2024-01-01T10:30:00+02:00" (Some "release/1.0")
  = ("abc-123_new_dependencies_20240101_103000_release_1.0.json",
     "abc-123_new_dependencies_20240101_103000_release_1.0.csv").
Proof. reflexivity. Qed.

Example split_pieces :
  str_split "://" "npm://left-pad" = ["npm"; "left-pad"]
  /\ str_split "://" "a://b://c" = ["a"; "b"; "c"]
  /\ str_split "://" "a://" = ["a"; ""]
  /\ str_split "://" "abc" = ["abc"]
  /\ str_split "+" "1+2+" = ["1"; "2"; ""].
Proof. repeat split. Qed.

Example parse_unpadded_lower_case :
  parse_date "2024-1-5t1:2:3z" = Ok (mk_datetime 2024 1 5 1 2 3 0 (Some timezone_utc)).
Proof. vm_compute. reflexivity. Qed.

Example parse_day_out_of_month :
  parse_date "2024-02-30" = Raise (ValueError (parse_error_message "2024-02-30")).
Proof. vm_compute. reflexivity. Qed.

Example parse_several_spaces :
  parse_date "2024-02-29   23:59:59"
  = Ok (mk_datetime 2024 2 29 23 59 59 0 (Some timezone_utc)).
Proof. vm_compute. reflexivity. Qed.

Example parse_unconverted_data :
  parse_date "2024-01-011" = Raise (ValueError (parse_error_message "2024-01-011")).
Proof. vm_compute. reflexivity. Qed.

Example ordinals :
  _ord2ymd 1 = (1, 1, 1)
  /\ _ord2ymd _MAXORDINAL = (9999, 12, 31)
  /\ _ymd2ord 2000 2 29 = 730179
  /\ _ord2ymd 730179 = (2000, 2, 29).
Proof. repeat split. Qed.

Example conversion_out_of_range :
  format_date_for_api (mk_datetime 1 1 1 0 0 0 0 (Some (timezone (3600 * US_PER_SECOND))))
  = Raise OverflowError.
Proof. reflexivity. Qed.

(** The scenario of one record in the main context. *)
Example end_to_end :
  main (mk_arguments "abc-123" "2024-01-01" None)
       (mk_environment (Some "key") (Some "secret") (Some "tenant"))
       (Http_ok (PDict [("token", PStr "tok")]))
       [Http_ok (page [raw_object "npm://foo" "1.2.3" "2024-03-04T05:06:07Z" "u-1" "n-1"]
                      PNone)]
  = ([ (page_request "tenant" (PStr "tok") "abc-123" "date(2024-01-01)" None None,
        Http_ok (page [raw_object "npm://foo" "1.2.3" "2024-03-04T05:06:07Z" "u-1" "n-1"]
                      PNone)) ],
     Some (Ok [ ("abc-123_new_dependencies_20240101.json",
                 Json_array [mk_dependency_info (PStr "foo") (PStr "1.2.3")
                               (PStr "2024-03-04T05:06:07Z") (PStr "u-1") (PStr "n-1")]);
                ("abc-123_new_dependencies_20240101.csv",
                 Csv_table csv_header
                   [mk_dependency_info (PStr "foo") (PStr "1.2.3")
                      (PStr "2024-03-04T05:06:07Z") (PStr "u-1") (PStr "n-1")]) ])).
Proof. vm_compute. reflexivity. Qed.

(** A body that is no JSON object ends the program with an uncaught
    exception, not with an empty result. *)
Example body_not_an_object :
  run_result (get_new_dependencies "tenant" (PStr "tok") "abc-123"
                (mk_datetime 2024 1 1 0 0 0 0 (Some timezone_utc)) None
                [Http_ok (PList [])])
  = Some (Raise AttributeError).
Proof. reflexivity. Qed.

(* ================================================================== *)
(** * Further properties of the program *)

(** ** The loop on arbitrary responses *)

Lemma fetch_pages_first (mk : option pyval -> request) (script : list http_result)
    (page_id : option pyval) (next_page_id : pyval) (acc : list dependency_info) :
  script <> [] ->
  exists response later,
    fst (fetch_pages mk script page_id next_page_id acc)
    = (mk (if truthy next_page_id then Some next_page_id else page_id), response)
      :: later.
Proof.
  destruct script as [|response rest]; [congruence|]. intros _.
  cbn [fetch_pages].
  destruct response as [|data]; [do 2 eexists; reflexivity|].
  destruct (process_page data) as [[records cursor]|e]; [|do 2 eexists; reflexivity].
  destruct (truthy cursor); cbn [negb]; [|do 2 eexists; reflexivity].
  destruct (fetch_pages mk rest _ cursor _) as [fetches res].
  do 2 eexists; reflexivity.
Qed.

Lemma fetch_pages_chained (mk : option pyval -> request) (script : list http_result) :
  forall page_id next_page_id acc,
    chained mk (fst (fetch_pages mk script page_id next_page_id acc)).
Proof.
  induction script as [|response rest IH]; intros page_id next acc;
    cbn [fetch_pages]; [exact I|].
  destruct response as [|data]; [exact I|].
  destruct (process_page data) as [[records cursor]|e] eqn:P; [|exact I].
  destruct (truthy cursor) eqn:T; cbn [negb]; [|exact I].
  specialize (IH (if truthy next then Some next else page_id) cursor
                 (acc ++ records)%list).
  destruct rest as [|response' rest'].
  - cbn [fetch_pages fst]. exact I.
  - destruct (fetch_pages_first mk (response' :: rest')
                (if truthy next then Some next else page_id) cursor
                (acc ++ records)%list ltac:(discriminate)) as (r' & later & F).
    destruct (fetch_pages mk (response' :: rest') _ cursor _) as [fetches res].
    cbn [fst] in *. subst fetches. cbn [chained]. split; [|exact IH].
    exists cursor. cbn [cursor_of]. rewrite P, T. repeat split.
Qed.

(** X1. In every run of the query the first request carries no page cursor,
    and every later request carries the cursor, a true value, that the
    response just before it returned. *)
Theorem requests_follow_cursors (namespace : string) (token : pyval)
    (project_uuid : string) (cutoff_date : datetime) (branch : option string)
    (script : list http_result) (date_str : string) :
  format_date_for_api cutoff_date = Ok date_str ->
  script <> [] ->
  (exists response later,
     fst (get_new_dependencies namespace token project_uuid cutoff_date branch script)
     = (page_request namespace token project_uuid date_str branch None, response)
       :: later)
  /\ chained (page_request namespace token project_uuid date_str branch)
             (fst (get_new_dependencies namespace token project_uuid cutoff_date
                     branch script)).
Proof.
  intros F N. rewrite (get_new_dependencies_loop _ _ _ _ _ _ _ F). split.
  - exact (fetch_pages_first _ script None PNone [] N).
  - apply fetch_pages_chained.
Qed.

Lemma requests_follow_cursors_witness :
  chained (page_request "ns" (PStr "t") "abc-123" "date(2024-01-01)" None)
    (fst (get_new_dependencies "ns" (PStr "t") "abc-123"
            (mk_datetime 2024 1 1 0 0 0 0 (Some timezone_utc)) None
            [ Http_ok (page [] (PStr "c1")); Http_ok (page [] (PInt 7)); Http_error ])).
Proof.
  exact (proj2 (requests_follow_cursors "ns" (PStr "t") "abc-123"
                  (mk_datetime 2024 1 1 0 0 0 0 (Some timezone_utc)) None
                  [ Http_ok (page [] (PStr "c1")); Http_ok (page [] (PInt 7)); Http_error ]
                  "date(2024-01-01)" eq_refl ltac:(discriminate))).
Defined.

Lemma fetch_pages_objects (mk : option pyval -> request) (script : list http_result) :
  forall page_id next_page_id acc l,
    snd (fetch_pages mk script page_id next_page_id acc) = Some (Ok l) ->
    (In Http_error (map snd (fst (fetch_pages mk script page_id next_page_id acc)))
     /\ l = [])
    \/ (~ In Http_error (map snd (fst (fetch_pages mk script page_id next_page_id acc)))
        /\ exists records,
             l = (acc ++ records)%list
             /\ normalized
                  (concat (map listed_objects
                     (map snd (fst (fetch_pages mk script page_id next_page_id acc)))))
                  records).
Proof.
  induction script as [|response rest IH]; intros page_id next acc l;
    cbn [fetch_pages]; [discriminate|].
  destruct response as [|data].
  - cbn. intros H. injection H as <-. left. auto.
  - destruct (process_page data) as [[records cursor]|e] eqn:P; [|discriminate].
    pose proof (process_page_records _ _ _ P) as N.
    destruct (truthy cursor); cbn [negb].
    + specialize (IH (if truthy next then Some next else page_id) cursor
                     (acc ++ records)%list l).
      destruct (fetch_pages mk rest _ cursor _) as [fetches res].
      cbn [fst snd map] in *. intros H.
      destruct (IH H) as [[E ->]|(E & more & -> & M)].
      * left. split; [now right | reflexivity].
      * right. split.
        -- intros [D|D]; [discriminate | contradiction].
        -- exists (records ++ more)%list. split; [now rewrite app_assoc|].
           cbn [concat]. now apply Forall2_app.
    + cbn [fst snd map concat]. intros H. injection H as <-. right. split.
      * intros [D|[]]. discriminate.
      * exists records. split; [reflexivity|]. now rewrite app_nil_r.
Qed.

(** X2. The list that the query returns is never a part of what was
    fetched: it is empty when a fetch failed, and otherwise it holds one
    record for every object listed by the fetched pages, page after page
    and within a page in the order of the array, each record being the
    normalisation of its object. *)
Theorem result_is_empty_or_complete (namespace : string) (token : pyval)
    (project_uuid : string) (cutoff_date : datetime) (branch : option string)
    (script : list http_result) (l : list dependency_info) :
  run_result (get_new_dependencies namespace token project_uuid cutoff_date
                branch script) = Some (Ok l) ->
  (In Http_error (run_responses (get_new_dependencies namespace token project_uuid
                                   cutoff_date branch script))
   /\ l = [])
  \/ (~ In Http_error (run_responses (get_new_dependencies namespace token project_uuid
                                        cutoff_date branch script))
      /\ normalized
           (concat (map listed_objects
                      (run_responses (get_new_dependencies namespace token
                                        project_uuid cutoff_date branch script))))
           l).
Proof.
  unfold run_result, run_responses, get_new_dependencies.
  destruct (format_date_for_api cutoff_date) as [d|e]; [|discriminate].
  intros H.
  destruct (fetch_pages_objects _ script None PNone [] l H) as [E|(E & records & -> & N)].
  - now left.
  - right. split; [exact E | exact N].
Qed.

Lemma result_is_empty_or_complete_witness :
  let obj1 := raw_object "npm://foo" "1" "c" "u" "n" in
  let obj2 := raw_object "bar" "2" "c" "v" "m" in
  let obj3 := raw_object "pypi://baz" "3" "c" "w" "k" in
  let run := get_new_dependencies "ns" (PStr "t") "abc-123"
               (mk_datetime 2024 1 1 0 0 0 0 (Some timezone_utc)) None
               [ Http_ok (page [obj1; obj2] (PStr "c1")); Http_ok (page [obj3] PNone) ] in
  let result := [ mk_dependency_info (PStr "foo") (PStr "1") (PStr "c") (PStr "u") (PStr "n");
                  mk_dependency_info (PStr "bar") (PStr "2") (PStr "c") (PStr "v") (PStr "m");
                  mk_dependency_info (PStr "baz") (PStr "3") (PStr "c") (PStr "w") (PStr "k") ] in
  (In Http_error (run_responses run) /\ result = [])
  \/ (~ In Http_error (run_responses run)
      /\ normalized (concat (map listed_objects (run_responses run))) result).
Proof.
  intros obj1 obj2 obj3 run result.
  apply (result_is_empty_or_complete "ns" (PStr "t") "abc-123"
           (mk_datetime 2024 1 1 0 0 0 0 (Some timezone_utc)) None
           [ Http_ok (page [obj1; obj2] (PStr "c1")); Http_ok (page [obj3] PNone) ]).
  vm_compute. reflexivity.
Defined.

Lemma fetch_pages_stop (mk : option pyval -> request) (script : list http_result) :
  forall page_id next_page_id acc out,
    snd (fetch_pages mk script page_id next_page_id acc) = Some out ->
    (exists rest,
       script = (map snd (fst (fetch_pages mk script page_id next_page_id acc))
                 ++ rest)%list)
    /\ forall more,
         fetch_pages mk
           (map snd (fst (fetch_pages mk script page_id next_page_id acc)) ++ more)%list
           page_id next_page_id acc
         = fetch_pages mk script page_id next_page_id acc.
Proof.
  induction script as [|response rest IH]; intros page_id next acc out;
    cbn [fetch_pages]; [discriminate|].
  destruct response as [|data].
  - intros _. cbn. split; [now exists rest | reflexivity].
  - destruct (process_page data) as [[records cursor]|e] eqn:P.
    + destruct (truthy cursor) eqn:T; cbn [negb].
      * specialize (IH (if truthy next then Some next else page_id) cursor
                       (acc ++ records)%list out).
        destruct (fetch_pages mk rest _ cursor _) as [fetches res] eqn:F.
        cbn [fst snd map] in *. intros H. destruct (IH H) as [[tl E] M]. split.
        -- exists tl. cbn [app]. now rewrite <- E.
        -- intros more. cbn [app fetch_pages]. rewrite P, T. cbn [negb].
           now rewrite (M more).
      * intros _. cbn [fst snd map app]. split; [now exists rest|].
        intros more. cbn [fetch_pages]. now rewrite P, T.
    + intros _. cbn [fst snd map app]. split; [now exists rest|].
      intros more. cbn [fetch_pages]. now rewrite P.
Qed.

(** X3. A run of the query that ends has consumed a front part of the
    responses and nothing else: what the service would have answered after
    the response that ended the loop has no influence on the run. *)
Theorem later_responses_are_not_requested (namespace : string) (token : pyval)
    (project_uuid : string) (cutoff_date : datetime) (branch : option string)
    (script : list http_result) (out : result (list dependency_info)) :
  run_result (get_new_dependencies namespace token project_uuid cutoff_date
                branch script) = Some out ->
  (exists rest,
     script = (run_responses (get_new_dependencies namespace token project_uuid
                                cutoff_date branch script) ++ rest)%list)
  /\ forall more,
       get_new_dependencies namespace token project_uuid cutoff_date branch
         (run_responses (get_new_dependencies namespace token project_uuid
                           cutoff_date branch script) ++ more)%list
       = get_new_dependencies namespace token project_uuid cutoff_date branch script.
Proof.
  unfold run_result, run_responses, get_new_dependencies.
  destruct (format_date_for_api cutoff_date) as [d|e].
  - apply fetch_pages_stop.
  - intros _. cbn. split; [now exists script | reflexivity].
Qed.

Lemma later_responses_are_not_requested_witness :
  get_new_dependencies "ns" (PStr "t") "abc-123"
    (mk_datetime 2024 1 1 0 0 0 0 (Some timezone_utc)) None
    ([ Http_ok (page [] (PStr "c1")); Http_ok (page [] PNone) ]
     ++ [ Http_ok (page [raw_object "npm://foo" "1" "c" "u" "n"] PNone) ])%list
  = get_new_dependencies "ns" (PStr "t") "abc-123"
      (mk_datetime 2024 1 1 0 0 0 0 (Some timezone_utc)) None
      [ Http_ok (page [] (PStr "c1")); Http_ok (page [] PNone); Http_error ].
Proof.
  exact (proj2 (later_responses_are_not_requested "ns" (PStr "t") "abc-123"
                  (mk_datetime 2024 1 1 0 0 0 0 (Some timezone_utc)) None
                  [ Http_ok (page [] (PStr "c1")); Http_ok (page [] PNone); Http_error ]
                  (Ok []) eq_refl)
               [ Http_ok (page [raw_object "npm://foo" "1" "c" "u" "n"] PNone) ]).
Defined.

(** ** Exceptions that leave the program *)

Lemma py_get_raises (x : pyval) (key : string) (default : pyval) (e : pyexn) :
  py_get x key default = Raise e -> e = AttributeError.
Proof.
  destruct x; simpl; try (intros H; injection H as <-; reflexivity).
  destruct (dict_lookup key d); discriminate.
Qed.

Lemma normalize_raises (obj : pyval) (e : pyexn) :
  normalize obj = Raise e -> type_fault e = true.
Proof.
  unfold normalize, bind.
  repeat match goal with
  | |- match py_get ?x ?k ?d with _ => _ end = _ -> _ =>
      let G := fresh "G" in
      destruct (py_get x k d) eqn:G;
      [| apply py_get_raises in G; subst;
         intros H; injection H as <-; reflexivity ]
  end.
  match goal with
  | |- match (if truthy ?p then _ else _) with _ => _ end = _ -> _ =>
      destruct (truthy p);
      [ destruct p; cbn [py_contains py_split_last];
        try (intros H; injection H as <-; reflexivity)
      | ]
  end;
  repeat match goal with
  | |- context [if ?c then _ else _] => destruct c
  end;
  cbn [py_split_last];
  try (intros H; injection H as <-; reflexivity);
  repeat match goal with
  | |- match py_get ?x ?k ?d with _ => _ end = _ -> _ =>
      let G := fresh "G" in
      destruct (py_get x k d) eqn:G;
      [| apply py_get_raises in G; subst;
         intros H; injection H as <-; reflexivity ]
  end;
  discriminate.
Qed.

Lemma str_contains_middle (s front tail : string) :
  str_contains s (front ++ s ++ tail) = true.
Proof.
  induction front as [|c front IH]; cbn [append].
  - destruct (s ++ tail) eqn:A; cbn [str_contains];
      rewrite <- A, prefix_append; reflexivity.
  - cbn [str_contains]. rewrite IH. apply orb_true_r.
Qed.

Lemma parse_date_raises (date_string : string) (e : pyexn) :
  parse_date date_string = Raise e ->
  e = ValueError (parse_error_message date_string).
Proof.
  unfold parse_date.
  destruct (try_formats_first date_string date_formats)
    as [(before & f & after & dt & _ & _ & _ & T)|[_ T]]; rewrite T.
  - discriminate.
  - intros H. now injection H as <-.
Qed.

(** X5. A date text that no layout accepts ends the program with status 1
    before the environment is read and before any request is made; the
    exception of [parse_date] is a ValueError whose message contains the
    rejected text. *)
Theorem unparseable_date_is_fatal (args : arguments) (env : environment)
    (auth : http_result) (script : list http_result) (e : pyexn) :
  parse_date (arg_date args) = Raise e ->
  e = ValueError (parse_error_message (arg_date args))
  /\ str_contains (arg_date args) (parse_error_message (arg_date args)) = true
  /\ main args env auth script = ([], Some (Raise (SystemExit 1))).
Proof.
  intros P. pose proof (parse_date_raises _ _ P) as E. subst e.
  split; [reflexivity|]. split.
  - unfold parse_error_message. apply str_contains_middle.
  - unfold main. rewrite P. reflexivity.
Qed.

Lemma unparseable_date_is_fatal_witness :
  main (mk_arguments "abc-123" "yesterday" None)
       (mk_environment None None None) Http_error [Http_error]
  = ([], Some (Raise (SystemExit 1))).
Proof.
  exact (proj2 (proj2 (unparseable_date_is_fatal
                         (mk_arguments "abc-123" "yesterday" None)
                         (mk_environment None None None) Http_error [Http_error]
                         (ValueError (parse_error_message "yesterday"))
                         ltac:(vm_compute; reflexivity)))).
Defined.

(** ** Configuration and authentication *)

Lemma env_value_some (v : option string) (s : string) :
  env_value v = Some s <-> v = Some s /\ s <> "".
Proof.
  unfold env_value. destruct v as [t|]; [|split; [discriminate | intros [H _]; discriminate]].
  destruct (String.eqb_spec t "") as [->|N]; split.
  - discriminate.
  - intros [H E]. injection H as <-. congruence.
  - intros H. injection H as <-. now split.
  - intros [H _]. exact H.
Qed.

(** X6. [get_env_values] returns the three values exactly as they are in
    the environment when all three are set and not empty; when one of them
    is unset or empty it ends the program with status 1, and the program
    then makes no request. *)
Theorem credentials_are_required (env : environment) :
  (forall api_key api_secret namespace,
     get_env_values env = Ok (api_key, api_secret, namespace)
     <-> (API_KEY env = Some api_key /\ api_key <> "")
         /\ (API_SECRET env = Some api_secret /\ api_secret <> "")
         /\ (ENDOR_NAMESPACE env = Some namespace /\ namespace <> ""))
  /\ ((forall k s n, get_env_values env <> Ok (k, s, n)) ->
      get_env_values env = Raise (SystemExit 1)
      /\ forall args auth script cutoff_date,
           parse_date (arg_date args) = Ok cutoff_date ->
           main args env auth script = ([], Some (Raise (SystemExit 1)))).
Proof.
  split.
  - intros k s n. rewrite <- !env_value_some. unfold get_env_values.
    destruct (env_value (API_KEY env)), (env_value (API_SECRET env)),
             (env_value (ENDOR_NAMESPACE env)); split;
      try discriminate;
      try (intros (A & B & C); discriminate);
      try (intros H; injection H as <- <- <-; auto).
    intros (A & B & C). injection A as <-. injection B as <-. injection C as <-.
    reflexivity.
  - intros N.
    assert (E : get_env_values env = Raise (SystemExit 1)).
    { unfold get_env_values in *.
      destruct (env_value (API_KEY env)), (env_value (API_SECRET env)),
               (env_value (ENDOR_NAMESPACE env)); try reflexivity.
      exfalso. exact (N _ _ _ eq_refl). }
    split; [exact E|]. intros args auth script cutoff P.
    unfold main. now rewrite P, E.
Qed.

Lemma credentials_are_required_witness :
  get_env_values (mk_environment (Some "k") (Some "") (Some "ns")) = Raise (SystemExit 1)
  /\ main (mk_arguments "abc-123" "2024-01-01" None)
          (mk_environment (Some "k") (Some "") (Some "ns"))
          (Http_ok (PDict [("token", PStr "t")])) [Http_ok (page [] PNone)]
     = ([], Some (Raise (SystemExit 1))).
Proof.
  destruct (proj2 (credentials_are_required
                     (mk_environment (Some "k") (Some "") (Some "ns")))
                  ltac:(intros k s n; discriminate)) as [A B].
  split; [exact A|].
  exact (B (mk_arguments "abc-123" "2024-01-01" None)
           (Http_ok (PDict [("token", PStr "t")])) [Http_ok (page [] PNone)]
           (mk_datetime 2024 1 1 0 0 0 0 (Some timezone_utc))
           ltac:(vm_compute; reflexivity)).
Defined.

(** X7. Authentication is fatal unless it yields a true token: a failed
    POST, a body without a token field, and a token that is null or empty
    all end the program with status 1 before any dependency request; a
    body with a token hands on that very value. *)
Theorem token_is_required (args : arguments) (env : environment)
    (auth : http_result) (script : list http_result)
    (cutoff_date : datetime) (api_key api_secret namespace : string) :
  parse_date (arg_date args) = Ok cutoff_date ->
  get_env_values env = Ok (api_key, api_secret, namespace) ->
  (auth = Http_error ->
   main args env auth script = ([], Some (Raise (SystemExit 1))))
  /\ (forall d, auth = Http_ok (PDict d) -> dict_lookup "token" d = None ->
      main args env auth script = ([], Some (Raise (SystemExit 1))))
  /\ (forall d token, auth = Http_ok (PDict d) -> dict_lookup "token" d = Some token ->
      get_token api_key api_secret auth = Ok token
      /\ (truthy token = false ->
          main args env auth script = ([], Some (Raise (SystemExit 1))))
      /\ (truthy token = true ->
          fst (main args env auth script)
          = fst (get_new_dependencies namespace token (arg_project_uuid args)
                   cutoff_date (arg_branch args) script))).
Proof.
  intros P E. unfold main. rewrite P, E. split; [|split].
  - intros ->. reflexivity.
  - intros d -> L. cbn [get_token py_get]. rewrite L. reflexivity.
  - intros d token -> L. cbn [get_token py_get]. rewrite L.
    split; [reflexivity|]. split; intros T; rewrite T; cbn [negb]; [reflexivity|].
    destruct (get_new_dependencies namespace token (arg_project_uuid args) cutoff_date
                (arg_branch args) script) as [fetches [[deps|e]|]]; reflexivity.
Qed.

Lemma token_is_required_witness :
  main (mk_arguments "abc-123" "2024-01-01" None)
       (mk_environment (Some "k") (Some "s") (Some "ns"))
       (Http_ok (PDict [("message", PStr "denied")])) [Http_ok (page [] PNone)]
  = ([], Some (Raise (SystemExit 1))).
Proof.
  exact (proj1 (proj2 (token_is_required
                         (mk_arguments "abc-123" "2024-01-01" None)
                         (mk_environment (Some "k") (Some "s") (Some "ns"))
                         (Http_ok (PDict [("message", PStr "denied")]))
                         [Http_ok (page [] PNone)]
                         (mk_datetime 2024 1 1 0 0 0 0 (Some timezone_utc))
                         "k" "s" "ns"
                         ltac:(vm_compute; reflexivity) eq_refl))
               [("message", PStr "denied")] eq_refl eq_refl).
Defined.

(** ** What the requests and the files of a run are made of *)

(** X8. Every request that the program sends is built from its inputs and
    from nothing else: the namespace of the environment in the URL, the
    token of the authentication response as bearer, and a filter made of
    the project UUID, the literal of the parsed cutoff day and the context
    clause; only the page cursor differs between the requests.  The literal
    carries the year as a plain decimal number, so a cutoff of the year 999
    is sent as date(999-01-01). *)
Theorem requests_are_built_from_inputs (args : arguments) (env : environment)
    (auth : http_result) (script : list http_result) (rq : request) :
  In rq (run_requests (main args env auth script)) ->
  exists cutoff_date api_key api_secret namespace token page_id,
    parse_date (arg_date args) = Ok cutoff_date
    /\ get_env_values env = Ok (api_key, api_secret, namespace)
    /\ get_token api_key api_secret auth = Ok token
    /\ truthy token = true
    /\ rq = page_request namespace token (arg_project_uuid args)
              (day_literal (dt_year cutoff_date) (dt_month cutoff_date)
                            (dt_day cutoff_date))
              (arg_branch args) page_id.
Proof.
  unfold run_requests. intros I.
  destruct (main_fetches args env auth script)
    as [E|(c & k & s & ns & t & P & E & T & TT & F)].
  - rewrite E in I. destruct I.
  - rewrite F in I. clear F.
    rewrite (get_new_dependencies_loop _ _ _ _ _ _ _ (cutoff_filter_literal _ _ P)) in I.
    apply fetch_pages_requests in I as [pid ->].
    exists c, k, s, ns, t, pid. repeat split; assumption.
Qed.

Lemma requests_are_built_from_inputs_witness :
  exists cutoff_date api_key api_secret namespace token page_id,
    parse_date "0999-01-01 12:00:00" = Ok cutoff_date
    /\ get_env_values (mk_environment (Some "k") (Some "s") (Some "ns"))
       = Ok (api_key, api_secret, namespace)
    /\ get_token api_key api_secret (Http_ok (PDict [("token", PStr "t")])) = Ok token
    /\ truthy token = true
    /\ page_request "ns" (PStr "t") "abc-123" "date(999-01-01)" (Some "dev") None
       = page_request namespace token "abc-123"
           (day_literal (dt_year cutoff_date) (dt_month cutoff_date)
                        (dt_day cutoff_date))
           (Some "dev") page_id.
Proof.
  apply (requests_are_built_from_inputs
           (mk_arguments "abc-123" "0999-01-01 12:00:00" (Some "dev"))
           (mk_environment (Some "k") (Some "s") (Some "ns"))
           (Http_ok (PDict [("token", PStr "t")]))
           [Http_ok (page [] PNone)]).
  vm_compute. left. reflexivity.
Defined.

(** X9. When the program ends normally, the JSON file and the CSV file hold
    the same list of records, and that list is either empty, after a failed
    fetch, or holds one record for every object listed by the fetched
    pages, in the order in which the service listed them, each record being
    the normalisation of its object; the CSV file always starts with the
    same five column names. *)
Theorem files_hold_the_whole_result (args : arguments) (env : environment)
    (auth : http_result) (script : list http_result) (fs : files) :
  run_result (main args env auth script) = Some (Ok fs) ->
  exists records,
    fs = [ (base_name (arg_project_uuid args) (arg_date args) (arg_branch args)
            ++ ".json", Json_array records);
           (base_name (arg_project_uuid args) (arg_date args) (arg_branch args)
            ++ ".csv",
            Csv_table ["package_name"; "resolved_version"; "created_date"; "uuid"; "name"]
                      records) ]
    /\ ((In Http_error (run_responses (main args env auth script)) /\ records = [])
        \/ (~ In Http_error (run_responses (main args env auth script))
            /\ normalized
                 (concat (map listed_objects (run_responses (main args env auth script))))
                 records)).
Proof.
  intros H.
  destruct (main_finished args env auth script fs H)
    as (c & k & s & ns & t & deps & P & E & T & TT & G & ->).
  exists deps. split.
  - now rewrite generate_output_filenames_base.
  - unfold run_responses.
    destruct (main_fetches args env auth script)
      as [F|(c' & k' & s' & ns' & t' & P' & E' & T' & _ & F)].
    + exfalso. unfold main, run_result in *. rewrite P, E, T, TT in *.
      cbn [negb] in *. revert G H F.
      destruct (get_new_dependencies ns t (arg_project_uuid args) c (arg_branch args)
                  script) as [fetches res] eqn:Q.
      cbn [snd]. intros -> _.
      destruct (generate_output_filenames _ _ _). cbn [fst]. intros ->.
      unfold get_new_dependencies in Q.
      rewrite (cutoff_filter_literal _ _ P) in Q.
      destruct script as [|r rest]; [discriminate|].
      destruct (fetch_pages_first
                  (fun page_id => mk_request
                     (API_URL ++ "/namespaces/" ++ ns ++ "/dependency-metadata") t "600"
                     (context_filter (arg_project_uuid args)
                        (day_literal (dt_year c) (dt_month c) (dt_day c))
                        (arg_branch args)) mask page_id 600)
                  (r :: rest) None PNone [] ltac:(discriminate)) as (x & l & X).
      rewrite Q in X. discriminate.
    + rewrite F. rewrite P in P'. injection P' as <-.
      rewrite E in E'. injection E' as <- <- <-.
      rewrite T in T'. injection T' as <-.
      unfold run_result, get_new_dependencies in *.
      rewrite (cutoff_filter_literal _ _ P) in *.
      destruct (fetch_pages_objects _ script None PNone [] deps G)
        as [X|(X & records & -> & N)].
      * now left.
      * right. split; [exact X | exact N].
Qed.

Lemma files_hold_the_whole_result_witness :
  let obj1 := raw_object "npm://foo" "1" "c" "u" "n" in
  let obj2 := raw_object "bar" "2" "c" "v" "m" in
  let obj3 := raw_object "pypi://baz" "3" "c" "w" "k" in
  let script := [ Http_ok (page [obj1; obj2] (PStr "c1")); Http_ok (page [obj3] PNone) ] in
  let result := [ mk_dependency_info (PStr "foo") (PStr "1") (PStr "c") (PStr "u") (PStr "n");
                  mk_dependency_info (PStr "bar") (PStr "2") (PStr "c") (PStr "v") (PStr "m");
                  mk_dependency_info (PStr "baz") (PStr "3") (PStr "c") (PStr "w") (PStr "k") ] in
  exists records,
    [ ("abc-123_new_dependencies_20240101.json", Json_array result);
      ("abc-123_new_dependencies_20240101.csv", Csv_table csv_header result) ]
    = [ (base_name "abc-123" "2024-01-01" None ++ ".json", Json_array records);
        (base_name "abc-123" "2024-01-01" None ++ ".csv",
         Csv_table ["package_name"; "resolved_version"; "created_date"; "uuid"; "name"]
                   records) ]
    /\ ((In Http_error
            (run_responses (main (mk_arguments "abc-123" "2024-01-01" None)
                                 (mk_environment (Some "k") (Some "s") (Some "ns"))
                                 (Http_ok (PDict [("token", PStr "t")])) script))
         /\ records = [])
        \/ (~ In Http_error
               (run_responses (main (mk_arguments "abc-123" "2024-01-01" None)
                                    (mk_environment (Some "k") (Some "s") (Some "ns"))
                                    (Http_ok (PDict [("token", PStr "t")])) script))
            /\ normalized
                 (concat (map listed_objects
                    (run_responses (main (mk_arguments "abc-123" "2024-01-01" None)
                                         (mk_environment (Some "k") (Some "s") (Some "ns"))
                                         (Http_ok (PDict [("token", PStr "t")])) script))))
                 records)).
Proof.
  intros obj1 obj2 obj3 script result.
  apply (files_hold_the_whole_result
           (mk_arguments "abc-123" "2024-01-01" None)
           (mk_environment (Some "k") (Some "s") (Some "ns"))
           (Http_ok (PDict [("token", PStr "t")]))
           script).
  vm_compute. reflexivity.
Defined.

(** X10. A branch that is given and not empty is put into the filter as it
    is, behind [context.id==], in every request of the run; nothing in it
    is quoted or escaped. *)
Theorem branch_is_filtered_verbatim (namespace : string) (token : pyval)
    (project_uuid : string) (cutoff_date : datetime) (branch : string)
    (script : list http_result) (rq : request) :
  branch <> "" ->
  In rq (run_requests (get_new_dependencies namespace token project_uuid
                         cutoff_date (Some branch) script)) ->
  exists d,
    format_date_for_api cutoff_date = Ok d
    /\ req_filter rq
       = "spec.importer_data.project_uuid==" ++ project_uuid
         ++ " and meta.create_time>=" ++ d
         ++ " and context.id==" ++ branch.
Proof.
  intros N. unfold get_new_dependencies.
  destruct (format_date_for_api cutoff_date) as [d|e]; [|intros []].
  intros H. apply fetch_pages_requests in H as [p ->].
  exists d. split; [reflexivity|].
  cbn [req_filter]. unfold context_filter, context_part, branch_given.
  destruct (String.eqb_spec branch ""); [contradiction | reflexivity].
Qed.

Lemma branch_is_filtered_verbatim_witness :
  exists d,
    format_date_for_api (mk_datetime 2024 1 1 0 0 0 0 (Some timezone_utc)) = Ok d
    /\ req_filter (page_request "ns" (PStr "t") "abc-123" "date(2024-01-01)"
                     (Some "x or context.type==CONTEXT_TYPE_MAIN") None)
       = "spec.importer_data.project_uuid==" ++ "abc-123"
         ++ " and meta.create_time>=" ++ d
         ++ " and context.id==" ++ "x or context.type==CONTEXT_TYPE_MAIN".
Proof.
  apply (branch_is_filtered_verbatim "ns" (PStr "t") "abc-123"
           (mk_datetime 2024 1 1 0 0 0 0 (Some timezone_utc))
           "x or context.type==CONTEXT_TYPE_MAIN" [Http_error]);
    [discriminate | vm_compute; left; reflexivity].
Defined.

(** ** Normalised records *)

(** X11. No package name that is a string contains "://" after
    normalisation, however many schemes the raw name carried. *)
Theorem normalized_name_has_no_scheme (obj : pyval) (r : dependency_info) (s : string) :
  normalize obj = Ok r ->
  package_name r = PStr s ->
  str_contains "://" s = false.
Proof.
  unfold normalize, bind.
  destruct (py_get obj "spec" (PDict [])) as [spec|]; [|discriminate].
  destruct (py_get spec "dependency_data" (PDict [])) as [dd|]; [|discriminate].
  destruct (py_get dd "package_name" (PStr "")) as [pn|]; [|discriminate].
  destruct (py_get dd "resolved_version" (PStr "")) as [rv|]; [|discriminate].
  destruct (py_get obj "meta" (PDict [])) as [meta|]; [|discriminate].
  destruct (py_get meta "create_time" (PStr "")) as [ct|]; [|discriminate].
  destruct (if truthy pn then _ else _) as [pn'|] eqn:G; [|discriminate].
  destruct (py_get obj "uuid" PNone) as [id|]; [|discriminate].
  destruct (py_get meta "name" (PStr "")) as [nm|]; [|discriminate].
  intros H. injection H as <-. cbn [package_name]. intros ->.
  destruct (truthy pn) eqn:T.
  - destruct pn as [| | |t|l|d]; cbn [py_contains py_split_last bind] in G;
      try discriminate.
    + destruct (str_contains "://" t) eqn:C; injection G as G.
      * rewrite <- G. apply last_piece_clean. discriminate.
      * now subst t.
    + destruct (existsb _ l); discriminate.
    + destruct (dict_lookup "://" d); discriminate.
  - injection G as ->. cbn [truthy] in T.
    apply negb_false_iff in T. apply String.eqb_eq in T. now subst s.
Qed.

Lemma normalized_name_has_no_scheme_witness :
  str_contains "://" "c" = false.
Proof.
  exact (normalized_name_has_no_scheme
           (raw_object "a://b://c" "1" "t" "u" "n")
           (mk_dependency_info (PStr "c") (PStr "1") (PStr "t") (PStr "u") (PStr "n"))
           "c" eq_refl eq_refl).
Defined.

(** ** What [parse_date] accepts *)

Lemma strptime_valid (date_string format : string) (dt : datetime) :
  strptime date_string format = Some dt ->
  valid_datetime dt = true /\ dt_microsecond dt = 0.
Proof.
  unfold strptime.
  destruct (format_regex format) as [re|]; [|discriminate].
  destruct (re date_string) as [|[found rest] l]; [discriminate|].
  destruct (negb (String.eqb rest "")); [discriminate|].
  destruct (_ && _) eqn:V; [|discriminate].
  intros H. injection H as <-. split; [exact V | reflexivity].
Qed.

(** X12. Whatever text [parse_date] accepts, the cutoff it returns is a
    date of the calendar with a time of day in range, has no microseconds,
    is tagged with UTC, and is turned without any error into the literal of
    its own day: the year as a plain decimal number (four digits from the
    year 1000 on, fewer below), month and day in two digits. *)
Theorem parsed_cutoff_is_valid_utc (date_string : string) (dt : datetime) :
  parse_date date_string = Ok dt ->
  valid_datetime dt = true
  /\ dt_microsecond dt = 0
  /\ dt_tzinfo dt = Some timezone_utc
  /\ format_date_for_api dt
     = Ok (day_literal (dt_year dt) (dt_month dt) (dt_day dt)).
Proof.
  intros P. pose proof (try_formats_utc _ _ _ P) as U.
  pose proof (cutoff_filter_literal _ _ P) as F.
  unfold parse_date in P.
  destruct (try_formats_first date_string date_formats)
    as [(before & f & after & dt0 & _ & _ & S & T)|[_ T]];
    rewrite T in P; [|discriminate].
  injection P as <-. destruct (strptime_valid _ _ _ S) as [V M].
  repeat split; assumption.
Qed.

Lemma parsed_cutoff_is_valid_utc_witness :
  valid_datetime (mk_datetime 999 1 1 23 59 59 0 (Some timezone_utc)) = true
  /\ format_date_for_api (mk_datetime 999 1 1 23 59 59 0 (Some timezone_utc))
     = Ok "date(999-01-01)".
Proof.
  destruct (parsed_cutoff_is_valid_utc "0999-01-01 23:59:59"
              (mk_datetime 999 1 1 23 59 59 0 (Some timezone_utc))
              ltac:(vm_compute; reflexivity)) as (V & _ & _ & F).
  exact (conj V F).
Defined.

Lemma digit_char_code (c : ascii) :
  48 <= code c <= 57 -> digit_char (code c - 48) = c.
Proof.
  intros H. unfold digit_char, code in *.
  replace (48 + Z.to_nat (Z.of_nat (nat_of_ascii c) - 48))%nat with (nat_of_ascii c) by lia.
  apply ascii_nat_embedding.
Qed.

Lemma re_digit_inv (lo hi : Z) (s : string) (v : Z) (r : string)
    (l : matches Z) :
  0 <= lo -> hi <= 9 ->
  re_digit lo hi s = (v, r) :: l ->
  l = [] /\ s = String (digit_char v) r /\ lo <= v <= hi.
Proof.
  intros L H. unfold re_digit. destruct s as [|c s]; [discriminate|].
  destruct ((48 + lo <=? code c)%Z && (code c <=? 48 + hi)%Z) eqn:B; [|discriminate].
  apply andb_true_iff in B as [B1 B2]. apply Z.leb_le in B1, B2.
  intros E. injection E as <- <- <-.
  split; [reflexivity|]. split; [|lia].
  now rewrite digit_char_code by lia.
Qed.

Lemma flat_map_single {A B : Type} (f : A -> list B) (x : A) :
  flat_map f [x] = f x.
Proof. cbn [flat_map]. apply app_nil_r. Qed.

Lemma re_digit2_inv (s : string) (v : Z) (r : string) (l : matches Z) :
  re_digit2 0 9 0 9 s = (v, r) :: l ->
  l = []
  /\ exists a b, s = String (digit_char a) (String (digit_char b) r)
                 /\ 0 <= a <= 9 /\ 0 <= b <= 9 /\ v = 10 * a + b.
Proof.
  unfold re_digit2.
  destruct (re_digit 0 9 s) as [|[a r1] l1] eqn:D1; [discriminate|].
  destruct (re_digit_inv 0 9 s a r1 l1 ltac:(lia) ltac:(lia) D1) as (-> & -> & Ha).
  rewrite flat_map_single.
  destruct (re_digit 0 9 r1) as [|[b r2] l2] eqn:D2; [discriminate|].
  destruct (re_digit_inv 0 9 r1 b r2 l2 ltac:(lia) ltac:(lia) D2) as (-> & -> & Hb).
  change (map (fun '(b0, r') => (10 * a + b0, r')) [(b, r2)])
    with [(10 * a + b, r2)].
  intros E.
  assert (Ev : v = 10 * a + b) by congruence.
  assert (Er : r = r2) by congruence.
  assert (El : l = []) by congruence.
  subst v r l.
  split; [reflexivity|]. exists a, b. repeat split; lia.
Qed.

Lemma re_Y_inv (s : string) (v : Z) (r : string) (l : matches Z) :
  re_Y s = (v, r) :: l ->
  l = [] /\ s = pad4 v ++ r /\ 0 <= v <= 9999.
Proof.
  unfold re_Y.
  destruct (re_digit2 0 9 0 9 s) as [|[hi r1] l1] eqn:D1; [discriminate|].
  destruct (re_digit2_inv s hi r1 l1 D1) as (-> & a & b & -> & Ha & Hb & ->).
  rewrite flat_map_single.
  destruct (re_digit2 0 9 0 9 r1) as [|[lo r2] l2] eqn:D2; [discriminate|].
  destruct (re_digit2_inv r1 lo r2 l2 D2) as (-> & c & d & -> & Hc & Hd & ->).
  change (map (fun '(b0, r') => (100 * (10 * a + b) + b0, r')) [(10 * c + d, r2)])
    with [(100 * (10 * a + b) + (10 * c + d), r2)].
  intros E.
  assert (Ev : v = 100 * (10 * a + b) + (10 * c + d)) by congruence.
  assert (Er : r = r2) by congruence.
  assert (El : l = []) by congruence.
  subst v r l.
  split; [reflexivity|]. split; [|lia].
  unfold pad4, pad2. cbn [append].
  replace ((100 * (10 * a + b) + (10 * c + d)) / 1000) with a
    by (Z.to_euclidean_division_equations; lia).
  replace ((100 * (10 * a + b) + (10 * c + d)) / 100 mod 10) with b
    by (Z.to_euclidean_division_equations; lia).
  replace ((100 * (10 * a + b) + (10 * c + d)) mod 100 / 10) with c
    by (Z.to_euclidean_division_equations; lia).
  replace ((100 * (10 * a + b) + (10 * c + d)) mod 100 mod 10) with d
    by (Z.to_euclidean_division_equations; lia).
  reflexivity.
Qed.

Lemma lower_hyphen (c : ascii) : Ascii.eqb (lower c) (lower "-") = true -> c = "-"%char.
Proof.
  change (lower "-") with "-"%char. intros H. apply Ascii.eqb_eq in H.
  unfold lower in H.
  destruct ((65 <=? code c)%Z && (code c <=? 90)%Z) eqn:U; [|exact H].
  exfalso. apply andb_true_iff in U as [U1 U2]. apply Z.leb_le in U1, U2.
  apply (f_equal nat_of_ascii) in H. unfold code in *.
  rewrite nat_ascii_embedding in H by lia. cbn in H. lia.
Qed.

Lemma re_then_literal_cases (c : ascii) (k : string -> matches groups) (s : string) :
  re_then (re_literal c) k s
  = match s with
    | String x r => if Ascii.eqb (lower x) (lower c) then k r else []
    | EmptyString => []
    end.
Proof.
  destruct s as [|x r]; [reflexivity|].
  unfold re_then, re_literal, re_char.
  destruct (Ascii.eqb (lower x) (lower c)); [|reflexivity].
  exact (flat_map_single (fun '(_, r0) => k r0) (tt, r)).
Qed.

Lemma re_date_year_prefix (k : string -> matches groups) (s : string)
    (found : groups) (rest : string) (l : matches groups) :
  re_date k s = (found, rest) :: l ->
  exists tail, s = pad4 (group "Y" 1900 found) ++ String "-" tail
               /\ 0 <= group "Y" 1900 found <= 9999.
Proof.
  unfold re_date.
  set (k2 := re_group "m" re_m _).
  destruct (re_Y s) as [|[y r] l1] eqn:Y.
  - unfold re_group. rewrite Y. discriminate.
  - destruct (re_Y_inv s y r l1 Y) as (-> & -> & Hy).
    rewrite (re_group_unfold "Y" re_Y _ _ y r [] Y).
    change (flat_map _ (@nil (Z * string))) with (@nil (groups * string)).
    rewrite app_nil_r, re_then_literal_cases.
    destruct r as [|c r]; [discriminate|].
    destruct (Ascii.eqb (lower c) (lower "-")) eqn:L; [|discriminate].
    apply lower_hyphen in L. subst c.
    destruct (k2 r) as [|[g r'] l2]; [discriminate|].
    change (map (tag "Y" y) ((g, r') :: l2))
      with ((("Y"%char, y) :: g, r') :: map (tag "Y" y) l2).
    intros E.
    assert (F : found = ("Y"%char, y) :: g) by congruence. subst found.
    exists r. split; [reflexivity | exact Hy].
Qed.

Lemma date_formats_start_with_date (f : string) :
  In f date_formats -> exists k, format_regex f = Some (re_date k).
Proof.
  intros [<-|[<-|[<-|[<-|[]]]]]; eexists; reflexivity.
Qed.

(** X13. Among the texts of this embedding, those made of characters below
    U+0100, every text that [parse_date] accepts begins with the year
    written with exactly four digits 0-9 and followed by a hyphen, and the
    year of the cutoff is the number these digits spell; it lies between 1
    and 9999, so a two-digit year and the year 0000 are never accepted.
    (Decimal digits of other scripts, which [\d] also matches, lie beyond
    U+0100.) *)
Theorem accepted_text_starts_with_year (date_string : string) (dt : datetime) :
  parse_date date_string = Ok dt ->
  exists tail,
    date_string = pad4 (dt_year dt) ++ "-" ++ tail
    /\ 1 <= dt_year dt <= 9999.
Proof.
  unfold parse_date. intros P.
  destruct (try_formats_first date_string date_formats)
    as [(before & f & after & dt0 & D & _ & S & T)|[_ T]];
    rewrite T in P; [|discriminate].
  injection P as <-. cbn [replace_tzinfo dt_year].
  assert (I : In f date_formats) by (rewrite D; apply in_elt).
  destruct (date_formats_start_with_date f I) as [k F].
  destruct (strptime_valid _ _ _ S) as [V _].
  unfold valid_datetime in V. apply andb_true_iff in V as [V _].
  apply check_date_fields_range in V as (Hy & _ & _).
  unfold strptime in S. rewrite F in S.
  destruct (re_date k date_string) as [|[found rest] l] eqn:R; [discriminate|].
  destruct (re_date_year_prefix k date_string found rest l R) as (tail & E & _).
  destruct (negb (String.eqb rest "")); [discriminate|].
  destruct (_ && _); [|discriminate].
  injection S as <-. cbn [dt_year] in *.
  exists tail. split; [exact E | exact Hy].
Qed.

Lemma accepted_text_starts_with_year_witness :
  exists tail, "2024-1-5t1:2:3z" = pad4 2024 ++ "-" ++ tail /\ 1 <= 2024 <= 9999.
Proof.
  exact (accepted_text_starts_with_year "2024-1-5t1:2:3z"
           (mk_datetime 2024 1 5 1 2 3 0 (Some timezone_utc))
           ltac:(vm_compute; reflexivity)).
Defined.

(** X14. The query depends on the accepted date text only through its
    calendar day: two texts that are parsed to the same day, whatever their
    time of day, lead to the same requests and the same result. *)
Theorem same_day_same_query (text1 text2 : string) (cutoff1 cutoff2 : datetime)
    (namespace : string) (token : pyval) (project_uuid : string)
    (branch : option string) (script : list http_result) :
  parse_date text1 = Ok cutoff1 ->
  parse_date text2 = Ok cutoff2 ->
  dt_year cutoff1 = dt_year cutoff2 ->
  dt_month cutoff1 = dt_month cutoff2 ->
  dt_day cutoff1 = dt_day cutoff2 ->
  get_new_dependencies namespace token project_uuid cutoff1 branch script
  = get_new_dependencies namespace token project_uuid cutoff2 branch script.
Proof.
  intros P1 P2 Y M D. unfold get_new_dependencies.
  rewrite (cutoff_filter_literal _ _ P1), (cutoff_filter_literal _ _ P2).
  now rewrite Y, M, D.
Qed.

Lemma same_day_same_query_witness :
  get_new_dependencies "ns" (PStr "t") "abc-123"
    (mk_datetime 2024 1 1 0 0 0 0 (Some timezone_utc)) None [Http_ok (page [] PNone)]
  = get_new_dependencies "ns" (PStr "t") "abc-123"
      (mk_datetime 2024 1 1 23 59 59 0 (Some timezone_utc)) None [Http_ok (page [] PNone)].
Proof.
  exact (same_day_same_query "2024-01-01" "2024-01-01T23:59:59Z"
           (mk_datetime 2024 1 1 0 0 0 0 (Some timezone_utc))
           (mk_datetime 2024 1 1 23 59 59 0 (Some timezone_utc))
           "ns" (PStr "t") "abc-123" None [Http_ok (page [] PNone)]
           ltac:(vm_compute; reflexivity) ltac:(vm_compute; reflexivity)
           eq_refl eq_refl eq_refl).
Defined.

(** ** File names of the accepted layouts *)

Lemma is_digit_digit_char (n : Z) : 0 <= n <= 9 -> is_digit (digit_char n) = true.
Proof.
  intros H. unfold is_digit. rewrite (code_digit_char n H).
  apply andb_true_iff. split; apply Z.leb_le; lia.
Qed.

Lemma sanitized_digit (c : ascii) (r : string) :
  is_digit c = true ->
  sanitized_date (String c r) = String c (sanitized_date r).
Proof.
  intros D. unfold sanitized_date, one_of, date_char.
  cbn [str_filter existsb].
  destruct (Ascii.eqb_spec c "-") as [->|N1]; [discriminate|].
  destruct (Ascii.eqb_spec c ":") as [->|N2]; [discriminate|].
  cbn [orb negb str_map].
  destruct (Ascii.eqb_spec c "T") as [->|N3]; [discriminate|].
  cbn [str_take_while existsb].
  destruct (Ascii.eqb_spec c "+") as [->|N4]; [discriminate|].
  destruct (Ascii.eqb_spec c "Z") as [->|N5]; [discriminate|].
  reflexivity.
Qed.

Lemma sanitized_pad2 (n : Z) (r : string) :
  0 <= n <= 99 -> sanitized_date (pad2 n ++ r) = pad2 n ++ sanitized_date r.
Proof.
  intros H. unfold pad2. cbn [append].
  rewrite !sanitized_digit
    by (apply is_digit_digit_char; Z.to_euclidean_division_equations; lia).
  reflexivity.
Qed.

Lemma sanitized_pad4 (n : Z) (r : string) :
  0 <= n <= 9999 -> sanitized_date (pad4 n ++ r) = pad4 n ++ sanitized_date r.
Proof.
  intros H. unfold pad4. cbn [append].
  rewrite !sanitized_digit
    by (apply is_digit_digit_char; Z.to_euclidean_division_equations; lia).
  rewrite sanitized_pad2 by (Z.to_euclidean_division_equations; lia).
  reflexivity.
Qed.

Lemma sanitized_layout_date (y m d : Z) (r : string) :
  0 <= y <= 9999 -> 0 <= m <= 99 -> 0 <= d <= 99 ->
  sanitized_date (layout_date y m d ++ r)
  = pad4 y ++ pad2 m ++ pad2 d ++ sanitized_date r.
Proof.
  intros Hy Hm Hd. rewrite layout_date_append.
  rewrite sanitized_pad4 by exact Hy.
  change (sanitized_date (String "-" (pad2 m ++ String "-" (pad2 d ++ r))))
    with (sanitized_date (pad2 m ++ String "-" (pad2 d ++ r))).
  rewrite sanitized_pad2 by exact Hm.
  change (sanitized_date (String "-" (pad2 d ++ r)))
    with (sanitized_date (pad2 d ++ r)).
  rewrite sanitized_pad2 by exact Hd.
  reflexivity.
Qed.

Lemma sanitized_layout_time (h mi s : Z) (r : string) :
  0 <= h <= 99 -> 0 <= mi <= 99 -> 0 <= s <= 99 ->
  sanitized_date (layout_time h mi s ++ r)
  = pad2 h ++ pad2 mi ++ pad2 s ++ sanitized_date r.
Proof.
  intros Hh Hm Hs. rewrite layout_time_append.
  rewrite sanitized_pad2 by exact Hh.
  change (sanitized_date (String ":" (pad2 mi ++ String ":" (pad2 s ++ r))))
    with (sanitized_date (pad2 mi ++ String ":" (pad2 s ++ r))).
  rewrite sanitized_pad2 by exact Hm.
  change (sanitized_date (String ":" (pad2 s ++ r)))
    with (sanitized_date (pad2 s ++ r)).
  rewrite sanitized_pad2 by exact Hs.
  reflexivity.
Qed.

(** X15. For a date typed in one of the zero-padded layouts the file names
    carry YYYYMMDD for the date-only layout and YYYYMMDD_HHMMSS for the
    layouts with "T", the final "Z" being dropped, so that the texts with
    and without "Z" give the same names; for the layout with a space the
    space is kept and the names contain it. *)
Theorem filenames_of_layouts (project_uuid : string) (branch : option string)
    (y m d h mi s : Z) :
  0 <= y <= 9999 -> 0 <= m <= 99 -> 0 <= d <= 99 ->
  0 <= h <= 99 -> 0 <= mi <= 99 -> 0 <= s <= 99 ->
  sanitize_date (layout_date y m d) = pad4 y ++ pad2 m ++ pad2 d
  /\ sanitize_date (layout_T y m d h mi s)
     = pad4 y ++ pad2 m ++ pad2 d ++ "_" ++ pad2 h ++ pad2 mi ++ pad2 s
  /\ sanitize_date (layout_TZ y m d h mi s)
     = pad4 y ++ pad2 m ++ pad2 d ++ "_" ++ pad2 h ++ pad2 mi ++ pad2 s
  /\ sanitize_date (layout_space y m d h mi s)
     = pad4 y ++ pad2 m ++ pad2 d ++ " " ++ pad2 h ++ pad2 mi ++ pad2 s
  /\ generate_output_filenames project_uuid (layout_TZ y m d h mi s) branch
     = generate_output_filenames project_uuid (layout_T y m d h mi s) branch.
Proof.
  intros Hy Hm Hd Hh Hmi Hs.
  assert (A : sanitize_date (layout_date y m d) = pad4 y ++ pad2 m ++ pad2 d).
  { rewrite sanitize_date_chars, <- (append_empty_r (layout_date y m d)).
    rewrite sanitized_layout_date by assumption.
    change (sanitized_date "") with "". now rewrite append_empty_r. }
  assert (B : sanitize_date (layout_T y m d h mi s)
              = pad4 y ++ pad2 m ++ pad2 d ++ "_" ++ pad2 h ++ pad2 mi ++ pad2 s).
  { rewrite sanitize_date_chars. unfold layout_T.
    rewrite sanitized_layout_date by assumption.
    change (sanitized_date ("T" ++ layout_time h mi s))
      with (String "_" (sanitized_date (layout_time h mi s))).
    rewrite <- (append_empty_r (layout_time h mi s)).
    rewrite sanitized_layout_time by assumption.
    change (sanitized_date "") with "". now rewrite append_empty_r. }
  assert (C : sanitize_date (layout_TZ y m d h mi s)
              = pad4 y ++ pad2 m ++ pad2 d ++ "_" ++ pad2 h ++ pad2 mi ++ pad2 s).
  { rewrite sanitize_date_chars. unfold layout_TZ.
    rewrite sanitized_layout_date by assumption.
    change (sanitized_date ("T" ++ layout_time h mi s ++ "Z"))
      with (String "_" (sanitized_date (layout_time h mi s ++ "Z"))).
    rewrite sanitized_layout_time by assumption.
    change (sanitized_date "Z") with "". now rewrite append_empty_r. }
  split; [exact A|]. split; [exact B|]. split; [exact C|]. split.
  - rewrite sanitize_date_chars. unfold layout_space.
    rewrite sanitized_layout_date by assumption.
    change (sanitized_date (" " ++ layout_time h mi s))
      with (String " " (sanitized_date (layout_time h mi s))).
    rewrite <- (append_empty_r (layout_time h mi s)).
    rewrite sanitized_layout_time by assumption.
    change (sanitized_date "") with "". now rewrite append_empty_r.
  - unfold generate_output_filenames. now rewrite B, C.
Qed.

Lemma filenames_of_layouts_witness :
  sanitize_date "2024-03-09 07:05:00" = "20240309 070500"
  /\ generate_output_filenames "abc-123" "2024-03-09T07:05:00Z" None
     = generate_output_filenames "abc-123" "2024-03-09T07:05:00" None.
Proof.
  destruct (filenames_of_layouts "abc-123" None 2024 3 9 7 5 0
              ltac:(lia) ltac:(lia) ltac:(lia) ltac:(lia) ltac:(lia) ltac:(lia))
    as (_ & _ & _ & D & E).
  exact (conj D E).
Defined.

Lemma sanitized_date_fixed (s : string) :
  no_char_of ["-"; ":"; "T"; "+"; "Z"]%char s = true -> sanitized_date s = s.
Proof.
  unfold no_char_of, sanitized_date, one_of, date_char.
  induction s as [|c s IH]; [reflexivity|].
  cbn [str_forall existsb]. intros H. apply andb_true_iff in H as [H1 H2].
  specialize (IH H2).
  destruct (Ascii.eqb_spec c "-") as [->|N1]; [discriminate|].
  destruct (Ascii.eqb_spec c ":") as [->|N2]; [discriminate|].
  destruct (Ascii.eqb_spec c "T") as [->|N3]; [discriminate|].
  destruct (Ascii.eqb_spec c "+") as [->|N4]; [discriminate|].
  destruct (Ascii.eqb_spec c "Z") as [->|N5]; [discriminate|].
  cbn [str_filter existsb]. neq_chars. cbn [orb negb str_map]. neq_chars.
  cbn [str_take_while existsb]. neq_chars. cbn [orb negb].
  f_equal. exact IH.
Qed.

(** X16. Sanitising is idempotent: a date text or a branch name that has
    been sanitised once is left as it is by a second pass, so file names
    built from already sanitised texts are the names of the raw texts. *)
Theorem sanitizing_twice_changes_nothing (project_uuid date_str branch : string) :
  sanitize_date (sanitize_date date_str) = sanitize_date date_str
  /\ sanitize_branch (sanitize_branch branch) = sanitize_branch branch
  /\ generate_output_filenames project_uuid (sanitize_date date_str)
       (Some (sanitize_branch branch))
     = generate_output_filenames project_uuid date_str (Some branch).
Proof.
  assert (A : sanitize_date (sanitize_date date_str) = sanitize_date date_str).
  { rewrite !sanitize_date_chars. apply sanitized_date_fixed, sanitized_date_clean. }
  assert (B : sanitize_branch (sanitize_branch branch) = sanitize_branch branch).
  { rewrite !sanitize_branch_chars. induction branch as [|c b IH]; [reflexivity|].
    cbn [str_map]. rewrite IH. f_equal.
    unfold branch_char, one_of. cbn [existsb].
    destruct (Ascii.eqb_spec c "/") as [->|N1]; [reflexivity|].
    destruct (Ascii.eqb_spec c "\") as [->|N2]; [reflexivity|].
    destruct (Ascii.eqb_spec c " ") as [->|N3]; [reflexivity|].
    cbn [orb]. neq_chars. reflexivity. }
  split; [exact A|]. split; [exact B|].
  unfold generate_output_filenames, branch_given. rewrite A.
  assert (E : String.eqb (sanitize_branch branch) "" = String.eqb branch "").
  { destruct branch as [|c b]; [reflexivity|].
    rewrite sanitize_branch_chars. reflexivity. }
  rewrite E. destruct (String.eqb branch ""); [reflexivity|]. now rewrite B.
Qed.

(** ** Instants in other zones *)

Lemma valid_datetime_date (dt : datetime) :
  valid_datetime dt = true ->
  _check_date_fields (dt_year dt) (dt_month dt) (dt_day dt) = true.
Proof.
  unfold valid_datetime. intros V. now apply andb_true_iff in V as [V _].
Qed.

(** The literal of a datetime of another zone, from the day in which its
    UTC moment falls. *)
Lemma format_offset_day (dt : datetime) (off y m d : Z) :
  dt_tzinfo dt = Some (timezone off) ->
  _check_date_fields y m d = true ->
  _ymd2ord y m d * US_PER_DAY <= utc_microseconds dt (timezone off)
                               < (_ymd2ord y m d + 1) * US_PER_DAY ->
  format_date_for_api dt = Ok (day_literal y m d).
Proof.
  intros A0 D B. unfold format_date_for_api. rewrite A0.
  unfold utc_microseconds in B. cbn [astimezone_utc utcoffset] in *.
  destruct (datetime_add_day dt (- off) y m d D) as (h & mi & s & us & A & S);
    [lia|].
  rewrite A. cbn [bind].
  destruct (datetime_add_day
              (replace_tzinfo (mk_datetime y m d h mi s us (dt_tzinfo dt))
                              (Some timezone_utc)) 0 y m d D)
    as (h' & mi' & s' & us' & A' & _).
  { unfold replace_tzinfo, toordinal.
    cbn [dt_year dt_month dt_day dt_hour dt_minute dt_second dt_microsecond]. lia. }
  rewrite A'. cbn [bind]. unfold strftime_Y_m_d, day_literal.
  cbn [dt_year dt_month dt_day]. now rewrite !append_assoc.
Qed.

Lemma format_utc_own_day (dt : datetime) :
  dt_tzinfo dt = Some timezone_utc ->
  format_date_for_api dt
  = Ok (day_literal (dt_year dt) (dt_month dt) (dt_day dt)).
Proof.
  intros A0. unfold format_date_for_api. rewrite A0. cbn [astimezone_utc bind].
  unfold strftime_Y_m_d, day_literal. now rewrite !append_assoc.
Qed.

Lemma own_day_bounds (dt : datetime) (tz : tzinfo) :
  valid_datetime dt = true ->
  _ymd2ord (dt_year dt) (dt_month dt) (dt_day dt) * US_PER_DAY
  <= utc_microseconds dt tz + utcoffset tz
  < (_ymd2ord (dt_year dt) (dt_month dt) (dt_day dt) + 1) * US_PER_DAY.
Proof.
  intros V. pose proof (time_of_day_range dt V) as T.
  unfold utc_microseconds, toordinal. lia.
Qed.

Lemma Ok_injective {A : Type} (a b : A) : Ok a = Ok b -> a = b.
Proof. intros H. now injection H. Qed.

Lemma Raise_injective {A : Type} (e f : pyexn) : @Raise A e = Raise f -> e = f.
Proof. intros H. now injection H. Qed.

Lemma datetime_add_same (dt1 dt2 : datetime) (other1 other2 : Z) :
  toordinal dt1 * US_PER_DAY
  + (dt_hour dt1 * 3600 + dt_minute dt1 * 60 + dt_second dt1) * US_PER_SECOND
  + dt_microsecond dt1 + other1
  = toordinal dt2 * US_PER_DAY
    + (dt_hour dt2 * 3600 + dt_minute dt2 * 60 + dt_second dt2) * US_PER_SECOND
    + dt_microsecond dt2 + other2 ->
  bind (datetime_add dt1 other1)
       (fun shifted => Ok (replace_tzinfo shifted (Some timezone_utc)))
  = bind (datetime_add dt2 other2)
         (fun shifted => Ok (replace_tzinfo shifted (Some timezone_utc))).
Proof.
  intros E. unfold datetime_add. cbv zeta. rewrite E.
  set (delta := toordinal dt2 * US_PER_DAY + _ + _ + other2).
  generalize delta. clear. intros delta.
  destruct (_ && _); [|reflexivity].
  destruct (_ord2ymd _) as [[y m] d]. unfold bind, replace_tzinfo.
  cbn [dt_year dt_month dt_day dt_hour dt_minute dt_second dt_microsecond].
  reflexivity.
Qed.

(** X17. The filter literal depends on the instant only, not on the zone in
    which it is expressed: two aware datetimes that denote the same UTC
    moment are formatted alike, be it to the same literal or to the same
    error. *)
Theorem literal_is_zone_independent (dt1 dt2 : datetime) (tz1 tz2 : tzinfo) :
  valid_datetime dt1 = true ->
  valid_datetime dt2 = true ->
  dt_tzinfo dt1 = Some tz1 ->
  dt_tzinfo dt2 = Some tz2 ->
  utc_microseconds dt1 tz1 = utc_microseconds dt2 tz2 ->
  format_date_for_api dt1 = format_date_for_api dt2.
Proof.
  intros V1 V2 Z1 Z2 E.
  pose proof (own_day_bounds dt1 tz1 V1) as B1.
  pose proof (own_day_bounds dt2 tz2 V2) as B2.
  destruct tz1 as [|off1], tz2 as [|off2]; cbn [utcoffset] in *.
  - rewrite (format_utc_own_day dt1 Z1), (format_utc_own_day dt2 Z2).
    assert (O : _ymd2ord (dt_year dt1) (dt_month dt1) (dt_day dt1)
                = _ymd2ord (dt_year dt2) (dt_month dt2) (dt_day dt2))
      by (unfold US_PER_DAY, US_PER_SECOND in *; lia).
    pose proof (same_ordinal_same_date _ _ _ _ _ _
                  (valid_datetime_date _ V1) (valid_datetime_date _ V2) O) as D.
    injection D as -> -> ->. reflexivity.
  - rewrite (format_utc_own_day dt1 Z1).
    symmetry.
    apply (format_offset_day dt2 off2);
      [exact Z2 | now apply valid_datetime_date | lia].
  - rewrite (format_utc_own_day dt2 Z2).
    apply (format_offset_day dt1 off1);
      [exact Z1 | now apply valid_datetime_date | lia].
  - unfold format_date_for_api. rewrite Z1, Z2. cbn [astimezone_utc].
    unfold utc_microseconds in E. cbn [utcoffset] in E.
    pose proof (datetime_add_same dt1 dt2 (- off1) (- off2) ltac:(lia)) as S.
    unfold bind in *.
    destruct (datetime_add dt1 (- off1)) as [s1|e1],
             (datetime_add dt2 (- off2)) as [s2|e2]; try discriminate.
    + apply Ok_injective in S. now rewrite S.
    + apply Raise_injective in S. now rewrite S.
Qed.

Lemma literal_is_zone_independent_witness :
  format_date_for_api
    (mk_datetime 2024 6 15 2 30 0 0 (Some (timezone (5 * 3600 * US_PER_SECOND))))
  = format_date_for_api
      (mk_datetime 2024 6 14 17 30 0 0 (Some (timezone (- 4 * 3600 * US_PER_SECOND)))).
Proof.
  exact (literal_is_zone_independent
           (mk_datetime 2024 6 15 2 30 0 0 (Some (timezone (5 * 3600 * US_PER_SECOND))))
           (mk_datetime 2024 6 14 17 30 0 0 (Some (timezone (- 4 * 3600 * US_PER_SECOND))))
           (timezone (5 * 3600 * US_PER_SECOND)) (timezone (- 4 * 3600 * US_PER_SECOND))
           eq_refl eq_refl eq_refl eq_refl eq_refl).
Defined.

Lemma all_offsets_checked_true : all_offsets_checked = true.
Proof. vm_compute. reflexivity. Qed.

Lemma offset_checked_valid (leapyear : bool) (k : Z) :
  0 <= k <= 364 -> offset_checked leapyear k = true.
Proof.
  intros H. pose proof all_offsets_checked_true as A.
  unfold all_offsets_checked in A. rewrite forallb_forall in A.
  assert (L : In leapyear [true; false]) by (destruct leapyear; simpl; tauto).
  specialize (A _ L). rewrite forallb_forall in A.
  apply A. apply Z_range_In. lia.
Qed.

(** An ordinal in terms of the cycles of 400, 100 and 4 years, the last day
    of a leap year being day 365 of its year and not day 0 of the next. *)
Lemma ordinal_decomposition (N : Z) :
  0 <= N ->
  exists a b c e k,
    0 <= a /\ 0 <= b <= 3 /\ 0 <= c <= 24 /\ 0 <= e <= 3
    /\ N = 146097 * a + 36524 * b + 1461 * c + 365 * e + k
    /\ (0 <= k <= 364 \/ (k = 365 /\ e = 3 /\ (c <> 24 \/ b = 3))).
Proof.
  intros H.
  pose proof (Z.div_mod N 146097 ltac:(lia)) as E1.
  pose proof (Z.mod_pos_bound N 146097 ltac:(lia)) as B1.
  set (a := N / 146097) in *. set (r1 := N mod 146097) in *.
  assert (0 <= a) by (subst a; apply Z.div_pos; lia).
  pose proof (Z.div_mod r1 36524 ltac:(lia)) as E2.
  pose proof (Z.mod_pos_bound r1 36524 ltac:(lia)) as B2.
  set (b := r1 / 36524) in *. set (r2 := r1 mod 36524) in *.
  assert (0 <= b) by (subst b; apply Z.div_pos; lia).
  pose proof (Z.div_mod r2 1461 ltac:(lia)) as E3.
  pose proof (Z.mod_pos_bound r2 1461 ltac:(lia)) as B3.
  set (c := r2 / 1461) in *. set (r3 := r2 mod 1461) in *.
  assert (0 <= c) by (subst c; apply Z.div_pos; lia).
  pose proof (Z.div_mod r3 365 ltac:(lia)) as E4.
  pose proof (Z.mod_pos_bound r3 365 ltac:(lia)) as B4.
  set (e := r3 / 365) in *. set (k := r3 mod 365) in *.
  assert (0 <= e) by (subst e; apply Z.div_pos; lia).
  clearbody a r1 b r2 c r3 e k.
  destruct (Z.eq_dec b 4) as [Eb|Nb].
  - exists a, 3, 24, 3, 365. repeat split; try lia.
  - destruct (Z.eq_dec e 4) as [Ee|Ne].
    + exists a, b, c, 3, 365. repeat split; try lia.
    + exists a, b, c, e, k. repeat split; try lia.
Qed.

Lemma year_of_cycles (a b c e : Z) :
  0 <= a -> 0 <= b <= 3 -> 0 <= c <= 24 -> 0 <= e <= 3 ->
  _days_before_year (400 * a + 100 * b + 4 * c + e + 1)
  = 146097 * a + 36524 * b + 1461 * c + 365 * e
  /\ _is_leap (400 * a + 100 * b + 4 * c + e + 1)
     = (e =? 3)%Z && (negb (c =? 24)%Z || (b =? 3)%Z).
Proof.
  intros Ha Hb Hc He.
  destruct (year_decomposition (400 * a + 100 * b + 4 * c + e + 1) ltac:(lia))
    as (a' & b' & c' & e' & Ha' & Hb' & Hc' & He' & Ey & Ed & El).
  assert (a' = a /\ b' = b /\ c' = c /\ e' = e) as (-> & -> & -> & ->) by lia.
  split; assumption.
Qed.

(** Every ordinal of the calendar is the ordinal of the date that
    [_ord2ymd] gives for it. *)
Lemma ord2ymd_valid (n : Z) :
  1 <= n <= _MAXORDINAL ->
  exists y m d,
    _ord2ymd n = (y, m, d)
    /\ _check_date_fields y m d = true
    /\ _ymd2ord y m d = n.
Proof.
  unfold _MAXORDINAL. intros H.
  destruct (ordinal_decomposition (n - 1) ltac:(lia))
    as (a & b & c & e & k & Ha & Hb & Hc & He & EN & K).
  replace n with (146097 * a + 36524 * b + 1461 * c + 365 * e + k + 1) in * by lia.
  destruct (year_of_cycles a b c e Ha Hb Hc He) as [Ed El].
  set (y := 400 * a + 100 * b + 4 * c + e + 1) in *.
  assert (Hy : 1 <= y <= 9999) by (subst y; destruct K as [K|(-> & -> & K)]; lia).
  destruct K as [K|(-> & -> & K)].
  - rewrite (ord2ymd_within_year a b c e k Ha Hb Hc He K). rewrite <- El.
    pose proof (offset_checked_valid (_is_leap y) k K) as C.
    unfold offset_checked in C.
    destruct (month_and_day (_is_leap y) k) as [m d].
    repeat (apply andb_true_iff in C as [C ?]).
    repeat match goal with
           | E : (_ <=? _)%Z = true |- _ => apply Z.leb_le in E
           | E : (_ =? _)%Z = true |- _ => apply Z.eqb_eq in E
           end.
    exists y, m, d. split; [reflexivity|]. split.
    + unfold _check_date_fields, MINYEAR, MAXYEAR. rewrite days_in_month_length.
      repeat (apply andb_true_iff; split); apply Z.leb_le; lia.
    + rewrite ymd2ord_offset, Ed. lia.
  - rewrite (ord2ymd_leap_year_end a b c Ha Hb Hc K). fold y.
    assert (L : _is_leap y = true).
    { rewrite El. destruct K as [K| ->].
      - apply Z.eqb_neq in K. now rewrite K.
      - now rewrite orb_true_r. }
    exists y, 12, 31. split; [reflexivity|]. split.
    + unfold _check_date_fields, MINYEAR, MAXYEAR. rewrite days_in_month_length, L.
      repeat (apply andb_true_iff; split); apply Z.leb_le; try lia; discriminate.
    + rewrite ymd2ord_offset, Ed, L. change (day_offset true 12 31) with 365. lia.
Qed.

(** X18. [format_date_for_api] on a valid aware datetime fails in one case
    only: the datetime is in a zone other than [timezone.utc] and its UTC
    moment lies before day 1 or behind the last day of the calendar; it
    then raises OverflowError.  In every other case it returns the literal
    of the calendar day that contains the UTC moment, with the year as a
    plain decimal number and month and day in two digits. *)
Theorem format_fails_only_outside_calendar (dt : datetime) (tz : tzinfo) :
  valid_datetime dt = true ->
  dt_tzinfo dt = Some tz ->
  (US_PER_DAY <= utc_microseconds dt tz < (_MAXORDINAL + 1) * US_PER_DAY ->
   exists y m d,
     _check_date_fields y m d = true
     /\ _ymd2ord y m d = utc_microseconds dt tz / US_PER_DAY
     /\ format_date_for_api dt = Ok (day_literal y m d))
  /\ (~ (US_PER_DAY <= utc_microseconds dt tz < (_MAXORDINAL + 1) * US_PER_DAY) ->
      tz <> timezone_utc /\ format_date_for_api dt = Raise OverflowError).
Proof.
  intros V A. split.
  - intros R.
    assert (Rn : 1 <= utc_microseconds dt tz / US_PER_DAY <= _MAXORDINAL).
    { unfold US_PER_DAY, US_PER_SECOND, _MAXORDINAL in *.
      Z.to_euclidean_division_equations. lia. }
    destruct (ord2ymd_valid _ Rn) as (y & m & d & _ & C & O).
    assert (B : _ymd2ord y m d * US_PER_DAY <= utc_microseconds dt tz
                < (_ymd2ord y m d + 1) * US_PER_DAY).
    { rewrite O. unfold US_PER_DAY, US_PER_SECOND.
      Z.to_euclidean_division_equations. lia. }
    exists y, m, d. split; [exact C|]. split; [exact O|].
    destruct tz as [|off].
    + rewrite (format_utc_own_day dt A).
      pose proof (own_day_bounds dt timezone_utc V) as W. cbn [utcoffset] in W.
      assert (E : _ymd2ord (dt_year dt) (dt_month dt) (dt_day dt) = _ymd2ord y m d)
        by (unfold US_PER_DAY, US_PER_SECOND in *; lia).
      pose proof (same_ordinal_same_date _ _ _ _ _ _ (valid_datetime_date _ V) C E) as D.
      injection D as -> -> ->. reflexivity.
    + now apply (format_offset_day dt off).
  - intros R. destruct tz as [|off].
    + exfalso. apply R.
      pose proof (own_day_bounds dt timezone_utc V) as W. cbn [utcoffset] in W.
      pose proof (ymd2ord_range _ _ _ (valid_datetime_date _ V)) as Q.
      unfold US_PER_DAY, US_PER_SECOND, _MAXORDINAL in *. lia.
    + split; [discriminate|].
      unfold format_date_for_api. rewrite A. cbn [astimezone_utc].
      unfold datetime_add at 1. cbv zeta.
      unfold utc_microseconds in R. cbn [utcoffset] in R.
      set (delta := toordinal dt * US_PER_DAY + _ + _ + - off) in *.
      replace (toordinal dt * US_PER_DAY
               + (dt_hour dt * 3600 + dt_minute dt * 60 + dt_second dt) * US_PER_SECOND
               + dt_microsecond dt - off) with delta in R by (subst delta; lia).
      replace ((0 <? delta / US_PER_DAY)%Z && (delta / US_PER_DAY <=? _MAXORDINAL)%Z)
        with false; [reflexivity|].
      symmetry. apply andb_false_iff.
      destruct (Z_lt_le_dec delta US_PER_DAY) as [Lo|Hi].
      * left. apply Z.ltb_ge. unfold US_PER_DAY, US_PER_SECOND in *.
        Z.to_euclidean_division_equations. lia.
      * right. apply Z.leb_gt. unfold US_PER_DAY, US_PER_SECOND, _MAXORDINAL in *.
        Z.to_euclidean_division_equations. lia.
Qed.

Lemma format_fails_only_outside_calendar_witness :
  timezone (3600 * US_PER_SECOND) <> timezone_utc
  /\ format_date_for_api
       (mk_datetime 1 1 1 0 30 0 0 (Some (timezone (3600 * US_PER_SECOND))))
     = Raise OverflowError.
Proof.
  apply (proj2 (format_fails_only_outside_calendar
                  (mk_datetime 1 1 1 0 30 0 0 (Some (timezone (3600 * US_PER_SECOND))))
                  (timezone (3600 * US_PER_SECOND)) eq_refl eq_refl)).
  vm_compute. intros [H _]. now apply H.
Defined.

(** ** Objects that cannot be normalised *)

Lemma mapM_first_failure {A B : Type} (f : A -> result B) (l : list A) (x : A)
    (e : pyexn) :
  In x l -> f x = Raise e -> exists e', mapM f l = Raise e'
                                        /\ exists x', In x' l /\ f x' = Raise e'.
Proof.
  induction l as [|y l IH]; [intros []|].
  intros I F. cbn [mapM]. unfold bind.
  destruct (f y) as [b|e1] eqn:Fy.
  - destruct I as [->|I]; [congruence|].
    destruct (IH I F) as (e' & M & x' & I' & F'). rewrite M.
    exists e'. split; [reflexivity|]. exists x'. split; [now right | exact F'].
  - exists e1. split; [reflexivity|]. exists y. split; [now left | exact Fy].
Qed.

Lemma fetch_pages_result_any_cursor (mk : option pyval -> request)
    (script : list http_result) :
  forall page_id next_page_id page_id' next_page_id' acc,
    snd (fetch_pages mk script page_id next_page_id acc)
    = snd (fetch_pages mk script page_id' next_page_id' acc).
Proof.
  induction script as [|response rest IH]; intros p n p' n' acc;
    cbn [fetch_pages]; [reflexivity|].
  destruct response as [|data]; [reflexivity|].
  destruct (process_page data) as [[records cursor]|e]; [|reflexivity].
  destruct (truthy cursor); cbn [negb]; [|reflexivity].
  specialize (IH (if truthy n then Some n else p) cursor
                 (if truthy n' then Some n' else p') cursor
                 (acc ++ records)%list).
  destruct (fetch_pages mk rest (if truthy n then Some n else p) cursor _),
           (fetch_pages mk rest (if truthy n' then Some n' else p') cursor _).
  exact IH.
Qed.

Lemma fetch_pages_after (mk : option pyval -> request) (rest : list http_result)
    (pages : list page_view) :
  Forall (fun p => process_page (pv_data p) = Ok (pv_records p, pv_cursor p)
                   /\ truthy (pv_cursor p) = true) pages ->
  forall page_id next_page_id acc,
    snd (fetch_pages mk (map Http_ok (map pv_data pages) ++ rest)%list
           page_id next_page_id acc)
    = snd (fetch_pages mk rest page_id next_page_id
             (acc ++ concat (map pv_records pages))%list).
Proof.
  induction 1 as [|p ps [Pp Tp] F IH]; intros pid next acc.
  - cbn [map app concat]. now rewrite app_nil_r.
  - cbn [map app concat fetch_pages]. rewrite Pp, Tp. cbn [negb].
    specialize (IH (if truthy next then Some next else pid) (pv_cursor p)
                   (acc ++ pv_records p)%list).
    destruct (fetch_pages mk (map Http_ok (map pv_data ps) ++ rest)%list _ _ _)
      as [fetches res].
    cbn [snd] in *. rewrite IH, app_assoc.
    apply fetch_pages_result_any_cursor.
Qed.

(** X19. An object that cannot be normalised is not skipped.  If a page of
    the service holds one, the query raises the exception of the first such
    object of the page, an AttributeError or a TypeError, and the program
    ends with status 1 without writing a file, whatever the other objects
    hold and whatever the pages fetched before delivered. *)
Theorem bad_object_ends_the_program (args : arguments) (env : environment)
    (auth : http_result) (cutoff_date : datetime) (api_key api_secret namespace : string)
    (token : pyval) (pages : list page_view) (objects : list pyval) (cursor : pyval)
    (obj : pyval) (e : pyexn) (later : list http_result) :
  parse_date (arg_date args) = Ok cutoff_date ->
  get_env_values env = Ok (api_key, api_secret, namespace) ->
  get_token api_key api_secret auth = Ok token ->
  truthy token = true ->
  Forall (fun p => process_page (pv_data p) = Ok (pv_records p, pv_cursor p)
                   /\ truthy (pv_cursor p) = true) pages ->
  In obj objects ->
  normalize obj = Raise e ->
  exists e',
    type_fault e' = true
    /\ process_page (page objects cursor) = Raise e'
    /\ run_result (main args env auth
                     (map Http_ok (map pv_data pages)
                      ++ Http_ok (page objects cursor) :: later)%list)
       = Some (Raise e')
    /\ exit_status (@Raise files e') = 1.
Proof.
  intros P E T TT G I N.
  destruct (mapM_first_failure normalize objects obj e I N)
    as (e' & M & x' & _ & N').
  pose proof (normalize_raises _ _ N') as F.
  assert (PP : process_page (page objects cursor) = Raise e').
  { unfold process_page, page. cbn [py_get dict_lookup String.eqb Ascii.eqb Bool.eqb
                                     bind py_iter]. now rewrite M. }
  exists e'. split; [exact F|]. split; [exact PP|]. split.
  - unfold main, run_result. rewrite P, E, T, TT. cbn [negb].
    unfold get_new_dependencies. rewrite (cutoff_filter_literal _ _ P).
    match goal with
    | |- context [fetch_pages ?mk ?script None PNone []] =>
        pose proof (fetch_pages_after mk (Http_ok (page objects cursor) :: later)
                      pages G None PNone []) as A;
        destruct (fetch_pages mk script None PNone []) as [fetches res]
    end.
    cbn [snd fetch_pages] in A. rewrite PP in A. cbn [snd] in A. now subst res.
  - destruct e'; try discriminate; reflexivity.
Qed.

Lemma bad_object_ends_the_program_witness :
  exists e',
    type_fault e' = true
    /\ process_page (page [raw_object "npm://foo" "1" "c" "u" "n";
                           PDict [("meta", PNone)]] (PStr "next"))
       = Raise e'
    /\ run_result (main (mk_arguments "abc-123" "2024-01-01" None)
                        (mk_environment (Some "k") (Some "s") (Some "ns"))
                        (Http_ok (PDict [("token", PStr "t")]))
                        (map Http_ok
                           (map pv_data
                              [mk_page_view (page [] (PStr "c1")) [] (PStr "c1")])
                         ++ Http_ok (page [raw_object "npm://foo" "1" "c" "u" "n";
                                           PDict [("meta", PNone)]] (PStr "next"))
                            :: [Http_ok (page [] PNone)])%list)
       = Some (Raise e')
    /\ exit_status (@Raise files e') = 1.
Proof.
  exact (bad_object_ends_the_program
           (mk_arguments "abc-123" "2024-01-01" None)
           (mk_environment (Some "k") (Some "s") (Some "ns"))
           (Http_ok (PDict [("token", PStr "t")]))
           (mk_datetime 2024 1 1 0 0 0 0 (Some timezone_utc)) "k" "s" "ns" (PStr "t")
           [mk_page_view (page [] (PStr "c1")) [] (PStr "c1")]
           [raw_object "npm://foo" "1" "c" "u" "n"; PDict [("meta", PNone)]]
           (PStr "next") (PDict [("meta", PNone)]) AttributeError
           [Http_ok (page [] PNone)]
           ltac:(vm_compute; reflexivity) eq_refl eq_refl eq_refl
           ltac:(repeat constructor)
           ltac:(right; left; reflexivity) eq_refl).
Defined.

(** ** The text of the JSON file *)

Example json_dump_none : json_dump [] = "[]".
Proof. reflexivity. Qed.

Example json_dump_one :
  json_dump [mk_dependency_info (PStr "foo") (PStr "1.2.3") (PStr "t") PNone (PInt (-7))]
  = "[" ++ String newline "  {" ++ String newline "    "
    ++ py_encode_basestring_ascii "package_name" ++ ": "
    ++ py_encode_basestring_ascii "foo" ++ "," ++ String newline "    "
    ++ py_encode_basestring_ascii "resolved_version" ++ ": "
    ++ py_encode_basestring_ascii "1.2.3" ++ "," ++ String newline "    "
    ++ py_encode_basestring_ascii "created_date" ++ ": "
    ++ py_encode_basestring_ascii "t" ++ "," ++ String newline "    "
    ++ py_encode_basestring_ascii "uuid" ++ ": null," ++ String newline "    "
    ++ py_encode_basestring_ascii "name" ++ ": -7" ++ String newline "  }"
    ++ String newline "]".
Proof. vm_compute. reflexivity. Qed.

Example escape_examples :
  escape_all (String "009" (String "233" (String "127" (String "001" "a\b"))))
  = "\t\u00e9\u007f\u0001a\\b".
Proof. vm_compute. reflexivity. Qed.

Lemma str_forall_app (p : ascii -> bool) (a b : string) :
  str_forall p (a ++ b) = str_forall p a && str_forall p b.
Proof.
  induction a as [|c a IH]; cbn [append str_forall].
  - reflexivity.
  - now rewrite IH, andb_assoc.
Qed.

Lemma count_char_app (c : ascii) (a b : string) :
  count_char c (a ++ b) = (count_char c a + count_char c b)%nat.
Proof.
  induction a as [|x a IH]; cbn [append count_char].
  - reflexivity.
  - rewrite IH. lia.
Qed.

Lemma printable_no_newline (s : string) :
  str_forall printable s = true -> count_char newline s = 0%nat.
Proof.
  induction s as [|c s IH]; cbn [str_forall count_char].
  - reflexivity.
  - intros H. apply andb_true_iff in H as [H1 H2]. rewrite (IH H2).
    destruct (Ascii.eqb_spec c newline) as [->|_]; [discriminate H1 | reflexivity].
Qed.

Lemma printable_text (s : string) :
  str_forall printable s = true -> str_forall text_char s = true.
Proof.
  apply str_forall_weaken. intros c H. unfold text_char. now rewrite H.
Qed.

Lemma escape_char_printable (c : ascii) :
  str_forall printable (escape_char c) = true.
Proof.
  destruct c as [[|] [|] [|] [|] [|] [|] [|] [|]]; vm_compute; reflexivity.
Qed.

Lemma escape_all_printable (s : string) :
  str_forall printable (escape_all s) = true.
Proof.
  induction s as [|c s IH]; cbn [escape_all].
  - reflexivity.
  - now rewrite str_forall_app, escape_char_printable, IH.
Qed.

Lemma encode_printable (s : string) :
  str_forall printable (py_encode_basestring_ascii s) = true.
Proof.
  unfold py_encode_basestring_ascii. cbn [str_forall].
  rewrite str_forall_app, escape_all_printable. reflexivity.
Qed.

Lemma uint_printable (d : Decimal.uint) :
  str_forall printable (NilEmpty.string_of_uint d) = true.
Proof.
  induction d; cbn [NilEmpty.string_of_uint str_forall]; try reflexivity;
    rewrite IHd; reflexivity.
Qed.

Lemma int_repr_printable (z : Z) : str_forall printable (int_repr z) = true.
Proof.
  unfold int_repr, NilZero.string_of_int.
  destruct (Z.to_int z) as [d|d]; cbn [str_forall]; unfold NilZero.string_of_uint;
    destruct d; try reflexivity;
    match goal with |- context [NilEmpty.string_of_uint ?u] =>
      rewrite ?andb_true_l; exact (uint_printable u) end.
Qed.

Lemma spaces_printable (n : nat) : str_forall printable (spaces n) = true.
Proof. induction n as [|n IH]; cbn [spaces str_forall]; [reflexivity | now rewrite IH]. Qed.

Lemma newline_indent_text (level : nat) :
  str_forall text_char (newline_indent level) = true.
Proof.
  unfold newline_indent. cbn [str_forall].
  now rewrite (printable_text _ (spaces_printable _)).
Qed.

Lemma newline_indent_count (level : nat) :
  count_char newline (newline_indent level) = 1%nat.
Proof.
  unfold newline_indent. cbn [count_char].
  now rewrite (printable_no_newline _ (spaces_printable _)).
Qed.

Lemma str_join_forall (p : ascii -> bool) (sep : string) (l : list string) :
  str_forall p sep = true ->
  Forall (fun x => str_forall p x = true) l ->
  str_forall p (str_join sep l) = true.
Proof.
  intros S H. induction H as [|x l Hx Hl IH]; [reflexivity|].
  cbn [str_join]. destruct l as [|y l]; [exact Hx|].
  now rewrite !str_forall_app, Hx, S, IH.
Qed.

Lemma str_join_count (c : ascii) (sep : string) (k : nat) (l : list string) :
  Forall (fun x => count_char c x = k) l ->
  (count_char c (str_join sep l)
   = length l * k + (length l - 1) * count_char c sep)%nat.
Proof.
  intros H. induction H as [|x l Hx Hl IH]; [reflexivity|].
  cbn [str_join]. destruct l as [|y l].
  - cbn [length]. lia.
  - rewrite !count_char_app, IH, Hx. cbn [length Nat.sub].
    rewrite !Nat.sub_0_r. lia.
Qed.

Lemma pyval_nested_ind (P : pyval -> Prop) :
  P PNone -> (forall b, P (PBool b)) -> (forall z, P (PInt z)) ->
  (forall s, P (PStr s)) ->
  (forall l, Forall P l -> P (PList l)) ->
  (forall d, Forall (fun item => P (snd item)) d -> P (PDict d)) ->
  forall v, P v.
Proof.
  intros HN HB HI HS HL HD.
  fix F 1. intros [ |b|z|s|l|d].
  - exact HN.
  - apply HB.
  - apply HI.
  - apply HS.
  - apply HL. induction l as [|x l IH]; constructor; [apply F | exact IH].
  - apply HD. induction d as [|[k x] d IH]; constructor; [apply F | exact IH].
Qed.

Lemma iterencode_text (o : pyval) :
  forall level, str_forall text_char (_iterencode level o) = true.
Proof.
  induction o as [ |b|z|s|l IH|d IH] using pyval_nested_ind; intros level.
  - reflexivity.
  - destruct b; reflexivity.
  - apply printable_text, int_repr_printable.
  - apply printable_text, encode_printable.
  - destruct l as [|x l]; [reflexivity|].
    change (_iterencode level (PList (x :: l)))
      with ("[" ++ newline_indent (S level)
            ++ str_join ("," ++ newline_indent (S level))
                        (map (_iterencode (S level)) (x :: l))
            ++ newline_indent level ++ "]").
    rewrite !str_forall_app, !newline_indent_text.
    rewrite str_join_forall.
    + reflexivity.
    + now rewrite str_forall_app, newline_indent_text.
    + apply Forall_map. revert IH. apply Forall_impl. intros a Ha. apply Ha.
  - destruct d as [|x d]; [reflexivity|].
    change (_iterencode level (PDict (x :: d)))
      with ("{" ++ newline_indent (S level)
            ++ str_join ("," ++ newline_indent (S level))
                        (map (fun item =>
                                py_encode_basestring_ascii (fst item) ++ ": "
                                ++ _iterencode (S level) (snd item)) (x :: d))
            ++ newline_indent level ++ "}").
    rewrite !str_forall_app, !newline_indent_text.
    rewrite str_join_forall.
    + reflexivity.
    + now rewrite str_forall_app, newline_indent_text.
    + apply Forall_map. revert IH. apply Forall_impl. intros a Ha.
      rewrite !str_forall_app, (printable_text _ (encode_printable _)), Ha.
      reflexivity.
Qed.

(** X20. The JSON file is plain ASCII: whatever the records hold, every
    character that [json.dump] writes is a printable ASCII character or
    the line feed at the end of a line. *)
Theorem json_file_is_ascii (records : list dependency_info) :
  str_forall text_char (json_dump records) = true.
Proof. apply iterencode_text. Qed.

Lemma unescape_head_sound (v : string) (c : ascii) (rest t : string) :
  unescape_head v = Some (c, rest) ->
  unescape (v ++ t) = String c (unescape (rest ++ t)).
Proof.
  destruct v as [|a r]; [discriminate|].
  cbn [unescape_head append unescape].
  destruct (Ascii.eqb a "\").
  - destruct r as [|x r']; [discriminate|]. cbn [append].
    destruct (Ascii.eqb x "u").
    + destruct r' as [|h1 [|h2 [|h3 [|h4 r'']]]]; try discriminate.
      cbn [append]. intros E.
      assert (E1 : ascii_of_nat (Z.to_nat (16 * hex_value h3 + hex_value h4)) = c)
        by congruence.
      assert (E2 : r'' = rest) by congruence.
      now rewrite E1, E2.
    + intros E.
      assert (E2 : r' = rest) by congruence. rewrite E2.
      f_equal. congruence.
  - intros E.
    assert (E1 : a = c) by congruence.
    assert (E2 : r = rest) by congruence.
    now rewrite E1, E2.
Qed.

Lemma unescape_head_escape_char (c : ascii) :
  unescape_head (escape_char c) = Some (c, "").
Proof.
  destruct c as [[|] [|] [|] [|] [|] [|] [|] [|]]; vm_compute; reflexivity.
Qed.

Lemma unescape_escape_char (c : ascii) (t : string) :
  unescape (escape_char c ++ t) = String c (unescape t).
Proof. exact (unescape_head_sound _ _ _ t (unescape_head_escape_char c)). Qed.

Lemma unescape_escape_all (s t : string) :
  unescape (escape_all s ++ t) = s ++ unescape t.
Proof.
  induction s as [|c s IH]; cbn [escape_all append].
  - reflexivity.
  - now rewrite append_assoc, unescape_escape_char, IH.
Qed.

Lemma append_cancel_r (a b t : string) : a ++ t = b ++ t -> a = b.
Proof.
  intros H.
  assert (L : String.length a = String.length b).
  { apply (f_equal String.length) in H. rewrite !length_append in H. lia. }
  revert b H L. induction a as [|x a IH]; intros [|y b] H L; try discriminate L.
  - reflexivity.
  - cbn [append] in H. injection H as -> H. f_equal. apply IH; [exact H|].
    cbn [String.length] in L. lia.
Qed.

(** X21. Escaping loses nothing: two different texts are never written as
    the same JSON string, so a field of the JSON file determines the text
    it was written from. *)
Theorem escaping_is_lossless (s1 s2 : string) :
  s1 <> s2 -> py_encode_basestring_ascii s1 <> py_encode_basestring_ascii s2.
Proof.
  intros N E. apply N. unfold py_encode_basestring_ascii in E.
  injection E as E. apply (f_equal unescape) in E.
  rewrite !unescape_escape_all in E.
  now apply append_cancel_r in E.
Qed.

Lemma escaping_is_lossless_witness :
  py_encode_basestring_ascii (String quote "a\b")
  <> py_encode_basestring_ascii (String "\" (String quote "ab")).
Proof. apply escaping_is_lossless. discriminate. Defined.

Lemma scalar_one_line (v : pyval) (level : nat) :
  scalar v = true -> count_char newline (_iterencode level v) = 0%nat.
Proof.
  destruct v as [ |b|z|s|l|d]; intros H; try discriminate H.
  - reflexivity.
  - destruct b; reflexivity.
  - apply printable_no_newline, int_repr_printable.
  - apply printable_no_newline, encode_printable.
Qed.

Lemma record_lines (r : dependency_info) :
  scalar_record r = true ->
  count_char newline (_iterencode 1 (dependency_dict r)) = 6%nat.
Proof.
  unfold scalar_record. intros H.
  repeat (apply andb_true_iff in H as [H ?]).
  unfold dependency_dict.
  change (_iterencode 1 (PDict ?d))
    with ("{" ++ newline_indent 2
          ++ str_join ("," ++ newline_indent 2)
                      (map (fun item =>
                              py_encode_basestring_ascii (fst item) ++ ": "
                              ++ _iterencode 2 (snd item)) d)
          ++ newline_indent 1 ++ "}").
  cbn [map str_join fst snd].
  rewrite !count_char_app, !newline_indent_count.
  rewrite !(printable_no_newline _ (encode_printable _)).
  rewrite !scalar_one_line by assumption.
  reflexivity.
Qed.

(** X22. The layout of the JSON file: with no record the text is [[]]; with
    records whose five values are texts, numbers, booleans or [None], each
    record takes seven lines (an opening and a closing line and one line
    per field), so the file has [7 * n + 1] line feeds for [n] records. *)
Theorem json_file_has_seven_lines_per_record (records : list dependency_info) :
  forallb scalar_record records = true ->
  json_dump [] = "[]"
  /\ (records <> [] ->
      count_char newline (json_dump records) = (7 * length records + 1)%nat).
Proof.
  intros H. split; [reflexivity|]. intros N.
  destruct records as [|r rs]; [now contradiction N|].
  unfold json_dump.
  change (_iterencode 0 (PList (map dependency_dict (r :: rs))))
    with ("[" ++ newline_indent 1
          ++ str_join ("," ++ newline_indent 1)
                      (map (_iterencode 1) (map dependency_dict (r :: rs)))
          ++ newline_indent 0 ++ "]").
  rewrite !count_char_app, !newline_indent_count.
  pose proof (str_join_count newline ("," ++ newline_indent 1) 6
                (map (_iterencode 1) (map dependency_dict (r :: rs)))) as J.
  rewrite !length_map, count_char_app, newline_indent_count in J.
  cbn [count_char] in *.
  assert (F : Forall (fun x => count_char newline x = 6%nat)
                (map (_iterencode 1) (map dependency_dict (r :: rs)))).
  { rewrite map_map. apply Forall_map. apply Forall_forall. intros x Hx.
    apply record_lines. rewrite forallb_forall in H. now apply H. }
  specialize (J F).
  destruct (Ascii.eqb "," newline) eqn:Q; [discriminate Q|].
  destruct (Ascii.eqb "[" newline) eqn:Q1; [discriminate Q1|].
  destruct (Ascii.eqb "]" newline) eqn:Q2; [discriminate Q2|].
  cbn [length] in *. lia.
Qed.

Lemma json_file_has_seven_lines_per_record_witness :
  json_dump [] = "[]"
  /\ ([mk_dependency_info (PStr "foo") (PStr "1.2.3") (PStr "t") PNone (PInt (-7));
       mk_dependency_info (PStr "bar") (PBool true) PNone (PInt 3) (PStr "n")] <> [] ->
      count_char newline
        (json_dump
           [mk_dependency_info (PStr "foo") (PStr "1.2.3") (PStr "t") PNone (PInt (-7));
            mk_dependency_info (PStr "bar") (PBool true) PNone (PInt 3) (PStr "n")])
      = (7 * 2 + 1)%nat).
Proof.
  apply (json_file_has_seven_lines_per_record
           [mk_dependency_info (PStr "foo") (PStr "1.2.3") (PStr "t") PNone (PInt (-7));
            mk_dependency_info (PStr "bar") (PBool true) PNone (PInt 3) (PStr "n")]).
  reflexivity.
Defined.
